(** * dailypapersHN: the ranking and pagination engine of [app.py]

    A shallow embedding of [PaperManager] and of the two module-level
    callbacks [initialize_app] and [change_sort_method], followed by the
    properties of the engine.

    Conventions.
    - Python [int] is [Z]; Python [float] is idealised as a real number
      ([R]): rounding is not modelled.  The range of the floats is, and so
      are the ways the arithmetic of this program leaves the finite floats:
      an [int] of magnitude [2**1024 - 2**970] or more does not convert to
      a float ([OverflowError]), a quotient of that magnitude is an
      infinity, [x / 0.0] raises [ZeroDivisionError] and a negative base
      under [** 1.5] yields a [complex].
    - An instant is a number of microseconds since the epoch (the
      resolution of [datetime]); a [timedelta] is a number of microseconds.
      [datetime] covers the years 1 to 9999, so that the difference of two
      instants is below 10**8 hours and the arithmetic on it stays inside
      the float range; instants are not bounded here.  A vote count is an
      [int] of any size.
    - A record of the API is a dictionary accessed only through
      [.get(key, default)]; it is a record of optional fields, [None]
      standing for an absent key.  A key that is present holds a value of
      the JSON type the API gives it (a string, an integer, a list).
    - Every method runs in a state-and-exception monad over [World]: the
      wall clock, what was printed, and the module-level [paper_manager].
      State changes made before an exception is raised persist, as they do
      in Python. *)

From Stdlib Require Import ZArith List String Ascii Bool Lia Permutation.
From Stdlib Require Import Reals Lra.
From Stdlib Require Import QArith Qround.
From Stdlib Require Import DecimalString.
From Stdlib Require Import Sorted.
From Stdlib Require OrderedTypeEx.
Import ListNotations.

Local Open Scope string_scope.
Local Open Scope Z_scope.

(** ** Python values *)

Inductive exn : Type :=
| ValueError
| TypeError
| ZeroDivisionError
| OverflowError
| RequestException
| OtherException.

Inductive result (A : Type) : Type :=
| Ok (a : A)
| Raise (e : exn).

Arguments Ok {A} a.
Arguments Raise {A} e.

(** A number as the scoring code can produce it: a finite float, one of the
    two infinities [inf] and [-inf], or a complex.  The value of a complex
    score is never observed (it is only handed to [sorted]), so it is not
    kept. *)
Inductive pynum : Type :=
| PyFloat (r : R)
| PyInf (negative : bool)
| PyComplex.

(** [datetime]: aware (carrying an offset, normalised here to the UTC
    instant) or naive (a wall-clock reading without offset). *)
Inductive datetime : Type :=
| Aware (us : Z)
| Naive (us : Z).

(** The two [datetime] methods the program calls that are not defined in the
    repository.  [fromisoformat s = None] stands for [ValueError].
    [isoformat t] is [datetime.isoformat()] of the aware UTC instant [t]. *)
Class DatetimeLib : Type := {
  fromisoformat : string -> option datetime;
  isoformat : Z -> string
}.

(** ** Records of the API *)

Record Author : Type := { name : option string }.

Record Paper : Type := {
  id : option string;
  upvotes : option Z;
  authors : option (list Author)
}.

Record RawItem : Type := {
  title : option string;
  paper : option Paper;
  publishedAt : option string;
  numComments : option Z
}.

(** [d.get(key, default)] *)
Definition get {A : Type} (field : option A) (default : A) : A :=
  match field with
  | Some v => v
  | None => default
  end.

(** The [{}] of [paper.get('paper', {})]. *)
Definition empty_dict : Paper :=
  {| id := None; upvotes := None; authors := None |}.

(** ** The session *)

Record PaperManager : Type := {
  papers_per_page : Z;
  current_page : Z;
  papers : list RawItem;
  total_pages : Z;
  sort_method : string;
  raw_papers : list RawItem
}.

(** [PaperManager.__init__] *)
Definition init (papers_per_page : Z) : PaperManager :=
  {| papers_per_page := papers_per_page;
     current_page := 1;
     papers := [];
     total_pages := 1;
     sort_method := "hot";
     raw_papers := [] |}.

Definition set_current_page (v : Z) (self : PaperManager) : PaperManager :=
  {| papers_per_page := papers_per_page self;
     current_page := v;
     papers := papers self;
     total_pages := total_pages self;
     sort_method := sort_method self;
     raw_papers := raw_papers self |}.

Definition set_papers (v : list RawItem) (self : PaperManager) : PaperManager :=
  {| papers_per_page := papers_per_page self;
     current_page := current_page self;
     papers := v;
     total_pages := total_pages self;
     sort_method := sort_method self;
     raw_papers := raw_papers self |}.

Definition set_total_pages (v : Z) (self : PaperManager) : PaperManager :=
  {| papers_per_page := papers_per_page self;
     current_page := current_page self;
     papers := papers self;
     total_pages := v;
     sort_method := sort_method self;
     raw_papers := raw_papers self |}.

Definition set_sort_method_field (v : string) (self : PaperManager) : PaperManager :=
  {| papers_per_page := papers_per_page self;
     current_page := current_page self;
     papers := papers self;
     total_pages := total_pages self;
     sort_method := v;
     raw_papers := raw_papers self |}.

Definition set_raw_papers (v : list RawItem) (self : PaperManager) : PaperManager :=
  {| papers_per_page := papers_per_page self;
     current_page := current_page self;
     papers := papers self;
     total_pages := total_pages self;
     sort_method := sort_method self;
     raw_papers := v |}.

(** What [print] wrote: a line of text, or one of the two calls that print
    an object ([data[0].keys()], an exception). *)
Inductive output : Type :=
| Printed (text : string)
| PrintedKeys (label : string) (first : RawItem)
| PrintedError (label : string) (e : exn).

(** [wall n] is what the [n]-th call of [datetime.now(timezone.utc)]
    returns; [ticks] counts the calls made so far. *)
Record World : Type := {
  wall : nat -> Z;
  ticks : nat;
  stdout : list output;
  paper_manager : PaperManager
}.

(** ** The monad *)

Definition M (A : Type) : Type := World -> result A * World.

Definition ret {A : Type} (a : A) : M A := fun w => (Ok a, w).

Definition raise {A : Type} (e : exn) : M A := fun w => (Raise e, w).

Definition bind {A B : Type} (m : M A) (k : A -> M B) : M B :=
  fun w =>
    match m w with
    | (Ok a, w') => k a w'
    | (Raise e, w') => (Raise e, w')
    end.

Declare Scope py_scope.
Delimit Scope py_scope with py.
Notation "x <- m ;; k" := (bind m (fun x => k))
  (at level 61, m at next level, right associativity) : py_scope.
Notation "m ;; k" := (bind m (fun _ => k))
  (at level 61, right associativity) : py_scope.
Local Open Scope py_scope.

Definition lift {A : Type} (r : result A) : M A := fun w => (r, w).

(** [try: body except Exception as e: handler(e)] *)
Definition try_except {A : Type} (body : M A) (handler : exn -> M A) : M A :=
  fun w =>
    match body w with
    | (Ok a, w') => (Ok a, w')
    | (Raise e, w') => handler e w'
    end.

(** The world after [n] more readings of the clock. *)
Definition advance (n : nat) (w : World) : World :=
  {| wall := wall w; ticks := n + ticks w; stdout := stdout w;
     paper_manager := paper_manager w |}.

(** The world after [lines] were printed. *)
Definition with_output (lines : list output) (w : World) : World :=
  {| wall := wall w; ticks := ticks w; stdout := (stdout w ++ lines)%list;
     paper_manager := paper_manager w |}.

(** The world after [paper_manager] was changed by [f]. *)
Definition with_manager (f : PaperManager -> PaperManager) (w : World) : World :=
  {| wall := wall w; ticks := ticks w; stdout := stdout w;
     paper_manager := f (paper_manager w) |}.

(** [datetime.now(timezone.utc)], as microseconds since the epoch *)
Definition datetime_now : M Z :=
  fun w => (Ok (wall w (ticks w)), advance 1 w).

Definition print (line : output) : M unit :=
  fun w => (Ok tt, with_output [line] w).

Definition self : M PaperManager := fun w => (Ok (paper_manager w), w).

Definition update (f : PaperManager -> PaperManager) : M unit :=
  fun w => (Ok tt, with_manager f w).

(** A list comprehension whose body has effects, left to right. *)
Fixpoint for_each {A B : Type} (f : A -> M B) (l : list A) : M (list B) :=
  match l with
  | [] => ret []
  | x :: l' => y <- f x ;; ys <- for_each f l' ;; ret (y :: ys)
  end.

(** ** Built-ins *)

(** [s.replace('Z', '+00:00')] *)
Fixpoint replace_Z (s : string) : string :=
  match s with
  | EmptyString => EmptyString
  | String c s' =>
      if Ascii.eqb c "Z"%char then "+00:00" ++ replace_Z s'
      else String c (replace_Z s')
  end.

(** [s.lower()] on the ASCII letters; other bytes are left as they are. *)
Definition lower_char (c : ascii) : ascii :=
  let n := nat_of_ascii c in
  if ((65 <=? n) && (n <=? 90))%nat then ascii_of_nat (n + 32) else c.

Fixpoint lower (s : string) : string :=
  match s with
  | EmptyString => EmptyString
  | String c s' => String (lower_char c) (lower s')
  end.

(** [l[start:end]] with Python's treatment of negative and out-of-range
    bounds. *)
Definition clamp_index (len i : Z) : Z :=
  if i <? 0 then Z.max (i + len) 0 else Z.min i len.

Definition slice {A : Type} (l : list A) (start stop : Z) : list A :=
  let len := Z.of_nat (List.length l) in
  let lo := clamp_index len start in
  let hi := clamp_index len stop in
  firstn (Z.to_nat (hi - lo)) (skipn (Z.to_nat lo) l).

(** [enumerate(l)], counting from [i] *)
Fixpoint enumerate_from {A : Type} (i : Z) (l : list A) : list (Z * A) :=
  match l with
  | [] => []
  | x :: l' => (i, x) :: enumerate_from (i + 1) l'
  end.

Definition enumerate {A : Type} (l : list A) : list (Z * A) :=
  enumerate_from 0 l.

(** [sep.join(l)] *)
Fixpoint join (sep : string) (l : list string) : string :=
  match l with
  | [] => EmptyString
  | [x] => x
  | x :: l' => x ++ sep ++ join sep l'
  end.

(** [str(n)] for an [int] *)
Definition str (n : Z) : string :=
  DecimalString.NilZero.string_of_int (Z.to_int n).

(** *** Ordering of keys: the [<] that [sorted] calls *)

Class PyOrd (K : Type) : Type := py_lt : K -> K -> result bool.

Definition Rltb (x y : R) : bool := if Rlt_dec x y then true else false.

(** [float < float], where [-inf] is below and [inf] above every finite
    float; any comparison with a [complex] is a [TypeError]. *)
#[export] Instance pynum_ord : PyOrd pynum :=
  fun a b =>
    match a, b with
    | PyFloat x, PyFloat y => Ok (Rltb x y)
    | PyFloat _, PyInf negative => Ok (negb negative)
    | PyInf negative, PyFloat _ => Ok negative
    | PyInf negative, PyInf negative' => Ok (negative && negb negative')
    | _, _ => Raise TypeError
    end.

(** [str < str]: lexicographic on code points (on the bytes of UTF-8). *)
#[export] Instance string_ord : PyOrd string :=
  fun a b => Ok (String.ltb a b).

(** *** [sorted(l, key=..., reverse=True)]

    [sorted] computes every key first, in list order, and then sorts the
    decorated list.  It is stable; with [reverse=True] it reverses the list,
    sorts it in ascending order, and reverses the outcome.  An exception
    raised by a key or by a comparison escapes and no list is produced. *)

Section Sorted.
Context {K A : Type} `{PyOrd K}.

(** Insert [x] in front of the first element that is not below it. *)
Fixpoint insert (x : K * A) (l : list (K * A)) : result (list (K * A)) :=
  match l with
  | [] => Ok [x]
  | y :: l' =>
      match py_lt (fst y) (fst x) with
      | Raise e => Raise e
      | Ok true =>
          match insert x l' with
          | Ok r => Ok (y :: r)
          | Raise e => Raise e
          end
      | Ok false => Ok (x :: y :: l')
      end
  end.

Fixpoint sort_ascending (l : list (K * A)) : result (list (K * A)) :=
  match l with
  | [] => Ok []
  | x :: l' =>
      match sort_ascending l' with
      | Ok r => insert x r
      | Raise e => Raise e
      end
  end.

Definition sort_decorated (l : list (K * A)) : result (list (K * A)) :=
  match sort_ascending (rev l) with
  | Ok r => Ok (rev r)
  | Raise e => Raise e
  end.

Definition sorted_reverse (l : list A) (key : A -> M K) : M (list A) :=
  keys <- for_each key l ;;
  r <- lift (sort_decorated (combine keys l)) ;;
  ret (map snd r).
End Sorted.

(** ** Arithmetic of the scores *)

(** [timedelta.total_seconds()] *)
Definition total_seconds (td : Z) : R := (IZR td / 1000000)%R.

(** [timedelta.days]: whole days, rounded down *)
Definition days (td : Z) : Z := td / 86400000000.

(** [now - published_time], the left operand aware *)
Definition sub_datetime (now : Z) (published_time : datetime) : result Z :=
  match published_time with
  | Aware t => Ok (now - t)
  | Naive _ => Raise TypeError
  end.

(** [x ** 1.5] for a float [x].  The program applies it to a number of
    hours plus 2, which is below 10**8: the power of a positive base is a
    finite float. *)
Definition pow_1_5 (x : R) : pynum :=
  if Rlt_dec x 0 then PyComplex
  else if Req_dec_T x 0 then PyFloat 0
  else PyFloat (Rpower x 1.5).

(** The magnitude from which a number is beyond the floats: half a unit in
    the last place above the largest of them, [2**1024 - 2**971]. *)
Definition float_limit : Z := 2 ^ 1024 - 2 ^ 970.

(** The conversion of the int [n] that [n / d] starts with, for a float and
    for a complex [d] alike. *)
Definition float_of_int (n : Z) : result R :=
  if float_limit <=? Z.abs n then Raise OverflowError else Ok (IZR n).

(** The float a quotient [q] is delivered as: an infinity of its sign when
    it is beyond the floats. *)
Definition float_result (q : R) : pynum :=
  if Rle_dec (IZR float_limit) (Rabs q) then PyInf (Rltb q 0) else PyFloat q.

(** [n / d] for an int [n] *)
Definition true_div (n : Z) (d : pynum) : result pynum :=
  match float_of_int n with
  | Raise e => Raise e
  | Ok a =>
      match d with
      | PyFloat r =>
          if Req_dec_T r 0 then Raise ZeroDivisionError
          else Ok (float_result (a / r))
      | PyInf _ => Ok (PyFloat 0)
      | PyComplex => Ok PyComplex
      end
  end.

(** ** PaperManager: scoring *)

Section Manager.
Context `{DatetimeLib}.

(** The [try]/[except ValueError] around [fromisoformat]. *)
Definition parse_published (published_at_str : string) : M datetime :=
  match fromisoformat (replace_Z published_at_str) with
  | Some published_time => ret published_time
  | None => t <- datetime_now ;; ret (Aware t)
  end.

Definition calculate_score (paper_ : RawItem) : M pynum :=
  let upvotes_ := get (upvotes (get (paper paper_) empty_dict)) 0 in
  default <- datetime_now ;;
  let published_at_str := get (publishedAt paper_) (isoformat default) in
  published_time <- parse_published published_at_str ;;
  now <- datetime_now ;;
  time_diff <- lift (sub_datetime now published_time) ;;
  let time_diff_hours := (total_seconds time_diff / 3600)%R in
  lift (true_div upvotes_ (pow_1_5 (time_diff_hours + 2)%R)).

Definition calculate_rising_score (paper_ : RawItem) : M pynum :=
  let upvotes_ := get (upvotes (get (paper paper_) empty_dict)) 0 in
  default <- datetime_now ;;
  let published_at_str := get (publishedAt paper_) (isoformat default) in
  published_time <- parse_published published_at_str ;;
  now <- datetime_now ;;
  time_diff <- lift (sub_datetime now published_time) ;;
  let time_diff_hours := (total_seconds time_diff / 3600)%R in
  lift (true_div upvotes_ (PyFloat (time_diff_hours + 1)%R)).

(** ** PaperManager: sorting *)

Definition sort_papers : M unit :=
  s <- self ;;
  if String.eqb (sort_method s) "hot" then
    r <- sorted_reverse (raw_papers s) calculate_score ;;
    update (set_papers r)
  else if String.eqb (sort_method s) "new" then
    r <- sorted_reverse (raw_papers s)
           (fun x => ret (get (publishedAt x) EmptyString)) ;;
    update (set_papers r)
  else if String.eqb (sort_method s) "rising" then
    r <- sorted_reverse (raw_papers s) calculate_rising_score ;;
    update (set_papers r)
  else
    r <- sorted_reverse (raw_papers s) calculate_score ;;
    update (set_papers r).

Definition set_sort_method (method : string) : M bool :=
  let method :=
    if existsb (String.eqb method) ["hot"; "new"; "rising"] then method
    else "hot" in
  print (Printed ("Setting sort method to: " ++ method)) ;;
  update (set_sort_method_field method) ;;
  sort_papers ;;
  update (set_current_page 1) ;;
  ret true.

(** ** PaperManager: fetching *)

(** What [requests.get], [raise_for_status] and [response.json()] yield
    together: a [RequestException], some other exception, or the decoded
    list of records. *)
Inductive Response : Type :=
| RequestFailed
| ResponseInvalid
| Json (data : list RawItem).

Definition requests_get (response : Response) : M (list RawItem) :=
  match response with
  | RequestFailed => raise RequestException
  | ResponseInvalid => raise OtherException
  | Json data => ret data
  end.

(** [a // b] on ints *)
Definition floor_div (a b : Z) : result Z :=
  if b =? 0 then Raise ZeroDivisionError else Ok (a / b).

Definition len {A : Type} (l : list A) : Z := Z.of_nat (List.length l).

Definition fetch_papers (response : Response) : M bool :=
  try_except
    (data <- requests_get response ;;
     match data with
     | [] =>
         print (Printed "No data received from API.") ;;
         ret false
     | first :: _ =>
         print (PrintedKeys "Keys in the first paper:" first) ;;
         update (set_raw_papers data) ;;
         sort_papers ;;
         s <- self ;;
         pages <- lift (floor_div (len (papers s) + papers_per_page s - 1)
                                  (papers_per_page s)) ;;
         update (set_total_pages (Z.max pages 1)) ;;
         update (set_current_page 1) ;;
         ret true
     end)
    (fun e =>
       match e with
       | RequestException =>
           print (PrintedError "Error fetching papers:" e) ;;
           ret false
       | _ =>
           print (PrintedError "Unexpected error:" e) ;;
           ret false
       end).

(** ** PaperManager: rendering *)

Definition dq : string := String (ascii_of_nat 34) EmptyString.
Definition nl : string := String (ascii_of_nat 10) EmptyString.

Definition format_paper (paper_ : RawItem) (rank : Z) : M string :=
  let title_ := get (title paper_) "No title" in
  let paper_id := get (id (get (paper paper_) empty_dict)) EmptyString in
  let url := "https://huggingface.co/papers/" ++ paper_id in
  let joined :=
    join ", " (map (fun author => get (name author) EmptyString)
                   (get (authors (get (paper paper_) empty_dict)) [])) in
  let authors_ := if String.eqb joined EmptyString then "Unknown" else joined in
  let upvotes_ := get (upvotes (get (paper paper_) empty_dict)) 0 in
  let comments := get (numComments paper_) 0 in
  default <- datetime_now ;;
  let published_time_str := get (publishedAt paper_) (isoformat default) in
  published_time <- parse_published published_time_str ;;
  now <- datetime_now ;;
  time_diff <- lift (sub_datetime now published_time) ;;
  let time_ago_days := days time_diff in
  let time_ago :=
    if 0 <? time_ago_days then str time_ago_days ++ " days ago" else "today" in
  ret (nl ++
    "        <tr class=" ++ dq ++ "athing" ++ dq ++ ">" ++ nl ++
    "            <td align=" ++ dq ++ "right" ++ dq ++ " valign=" ++ dq ++ "top" ++ dq ++ " class=" ++ dq ++ "title" ++ dq ++ "><span class=" ++ dq ++ "rank" ++ dq ++ ">" ++ str rank ++ ".</span></td>" ++ nl ++
    "            <td valign=" ++ dq ++ "top" ++ dq ++ " class=" ++ dq ++ "title" ++ dq ++ ">" ++ nl ++
    "                <a href=" ++ dq ++ url ++ dq ++ " class=" ++ dq ++ "storylink" ++ dq ++ " target=" ++ dq ++ "_blank" ++ dq ++ ">" ++ title_ ++ "</a>" ++ nl ++
    "            </td>" ++ nl ++
    "        </tr>" ++ nl ++
    "        <tr>" ++ nl ++
    "            <td colspan=" ++ dq ++ "2" ++ dq ++ " class=" ++ dq ++ "subtext" ++ dq ++ ">" ++ nl ++
    "                <span class=" ++ dq ++ "score" ++ dq ++ ">" ++ str upvotes_ ++ " points</span> Authors: " ++ authors_ ++ " " ++ time_ago ++ " | " ++ str comments ++ " comments" ++ nl ++
    "            </td>" ++ nl ++
    "        </tr>" ++ nl ++
    "        <tr class=" ++ dq ++ "spacer" ++ dq ++ "><td colspan=" ++ dq ++ "2" ++ dq ++ "></td></tr>" ++ nl ++
    "        ")%string.

Definition no_papers_available : string :=
  "<div class='no-papers'>No papers available for this page.</div>".

Definition render_papers : M string :=
  s <- self ;;
  let start := (current_page s - 1) * papers_per_page s in
  let end_ := start + papers_per_page s in
  let current_papers := slice (papers s) start end_ in
  match current_papers with
  | [] => ret no_papers_available
  | _ :: _ =>
      rows <- for_each (fun '(idx, paper_) => format_paper paper_ (idx + start + 1))
                       (enumerate current_papers) ;;
      let papers_html := join EmptyString rows in
      ret (nl ++
        "        <table border=" ++ dq ++ "0" ++ dq ++ " cellpadding=" ++ dq ++ "0" ++ dq ++ " cellspacing=" ++ dq ++ "0" ++ dq ++ " class=" ++ dq ++ "itemlist" ++ dq ++ ">" ++ nl ++
        "            " ++ papers_html ++ nl ++
        "        </table>" ++ nl ++
        "        ")%string
  end.

(** ** PaperManager: pagination *)

Definition next_page : M string :=
  s <- self ;;
  (if current_page s <? total_pages s
   then update (set_current_page (current_page s + 1))
   else ret tt) ;;
  render_papers.

Definition prev_page : M string :=
  s <- self ;;
  (if 1 <? current_page s
   then update (set_current_page (current_page s - 1))
   else ret tt) ;;
  render_papers.

(** ** The callbacks of the interface *)

Definition failed_to_fetch : string :=
  "<div class='no-papers'>Failed to fetch papers. Please try again later.</div>".

Definition failed_to_sort : string :=
  "<div class='no-papers'>Failed to sort papers. Please try again later.</div>".

Definition initialize_app (response : Response) : M string :=
  fetched <- fetch_papers response ;;
  if fetched then render_papers else ret failed_to_fetch.

Definition change_sort_method (method : string) : M string :=
  let method_lower := lower method in
  print (Printed ("Changing sort method to: " ++ method_lower)) ;;
  done <- set_sort_method method_lower ;;
  if done then
    print (Printed "Sort method set successfully.") ;;
    render_papers
  else
    print (Printed "Failed to set sort method.") ;;
    ret failed_to_sort.
End Manager.

(** [paper_manager = PaperManager()] with nothing printed yet and no clock
    reading taken. *)
Definition fresh (wall_ : nat -> Z) : World :=
  {| wall := wall_; ticks := 0; stdout := []; paper_manager := init 30 |}.

(** ** A [datetime] library for concrete runs

    The properties below hold for every [DatetimeLib].  To run the program
    on concrete records one is needed: this one reads the format
    [YYYY-MM-DD[*HH[:MM[:SS[.fff[fff]]]][+HH:MM]]] (what [isoformat()]
    writes, and part of what [datetime.fromisoformat] accepts) and writes
    the UTC form of it.  It is used on the sample records only. *)

Module Iso8601.

Definition digit (c : ascii) : option Z :=
  let n := nat_of_ascii c in
  if ((48 <=? n) && (n <=? 57))%nat then Some (Z.of_nat n - 48) else None.

(** Exactly [n] decimal digits at the head of [s]. *)
Fixpoint digits (n : nat) (acc : Z) (s : string) : option (Z * string) :=
  match n with
  | O => Some (acc, s)
  | S n' =>
      match s with
      | String c s' =>
          match digit c with
          | Some d => digits n' (10 * acc + d) s'
          | None => None
          end
      | EmptyString => None
      end
  end.

(** The character [c] at the head of [s]. *)
Definition expect (c : ascii) (s : string) : option string :=
  match s with
  | String c' s' => if Ascii.eqb c c' then Some s' else None
  | EmptyString => None
  end.

Definition is_leap (y : Z) : bool :=
  ((y mod 4 =? 0) && negb (y mod 100 =? 0)) || (y mod 400 =? 0).

Definition days_in_month (y m : Z) : Z :=
  if m =? 2 then (if is_leap y then 29 else 28)
  else if (m =? 4) || (m =? 6) || (m =? 9) || (m =? 11) then 30
  else 31.

(** Days from 1970-01-01 to the civil date [y]-[m]-[d]. *)
Definition days_from_civil (y m d : Z) : Z :=
  let y' := if m <=? 2 then y - 1 else y in
  let era := y' / 400 in
  let yoe := y' - era * 400 in
  let mp := if 2 <? m then m - 3 else m + 9 in
  let doy := (153 * mp + 2) / 5 + d - 1 in
  let doe := yoe * 365 + yoe / 4 - yoe / 100 + doy in
  era * 146097 + doe - 719468.

(** The civil date [(y, m, d)] that lies [z] days after 1970-01-01. *)
Definition civil_from_days (z : Z) : Z * Z * Z :=
  let z := z + 719468 in
  let era := z / 146097 in
  let doe := z - era * 146097 in
  let yoe := (doe - doe / 1460 + doe / 36524 - doe / 146096) / 365 in
  let doy := doe - (365 * yoe + yoe / 4 - yoe / 100) in
  let mp := (5 * doy + 2) / 153 in
  let d := doy - (153 * mp + 2) / 5 + 1 in
  let m := if mp <? 10 then mp + 3 else mp - 9 in
  ((if m <=? 2 then yoe + era * 400 + 1 else yoe + era * 400), m, d).

Definition parse_date (s : string) : option (Z * string) :=
  match digits 4 0 s with
  | Some (y, s1) =>
      match expect "-" s1 with
      | Some s2 =>
          match digits 2 0 s2 with
          | Some (m, s3) =>
              match expect "-" s3 with
              | Some s4 =>
                  match digits 2 0 s4 with
                  | Some (d, rest) =>
                      if (1 <=? y) && (1 <=? m) && (m <=? 12)
                         && (1 <=? d) && (d <=? days_in_month y m)
                      then Some (days_from_civil y m d, rest)
                      else None
                  | None => None
                  end
              | None => None
              end
          | None => None
          end
      | None => None
      end
  | None => None
  end.

(** [.fff] or [.ffffff], in microseconds; nothing when no point follows. *)
Definition parse_fraction (s : string) : option (Z * string) :=
  match expect "." s with
  | None => Some (0, s)
  | Some s1 =>
      match digits 6 0 s1 with
      | Some r => Some r
      | None =>
          match digits 3 0 s1 with
          | Some (ms, rest) => Some (1000 * ms, rest)
          | None => None
          end
      end
  end.

(** [HH[:MM[:SS[.fff[fff]]]]], in microseconds since midnight *)
Definition parse_time (s : string) : option (Z * string) :=
  match digits 2 0 s with
  | None => None
  | Some (hh, s1) =>
      if 24 <=? hh then None else
      match expect ":" s1 with
      | None => Some (hh * 3600000000, s1)
      | Some s2 =>
          match digits 2 0 s2 with
          | None => None
          | Some (mm, s3) =>
              if 60 <=? mm then None else
              match expect ":" s3 with
              | None => Some (hh * 3600000000 + mm * 60000000, s3)
              | Some s4 =>
                  match digits 2 0 s4 with
                  | None => None
                  | Some (ss, s5) =>
                      if 60 <=? ss then None else
                      match parse_fraction s5 with
                      | None => None
                      | Some (us, rest) =>
                          Some (hh * 3600000000 + mm * 60000000
                                + ss * 1000000 + us, rest)
                      end
                  end
              end
          end
      end
  end.

(** [+HH:MM] or [-HH:MM] up to the end of the string, in microseconds east
    of UTC. *)
Definition parse_offset (s : string) : option Z :=
  match s with
  | String sign s1 =>
      if Ascii.eqb sign "+" || Ascii.eqb sign "-" then
        match digits 2 0 s1 with
        | Some (hh, s2) =>
            match expect ":" s2 with
            | Some s3 =>
                match digits 2 0 s3 with
                | Some (mm, EmptyString) =>
                    if (hh <? 24) && (mm <? 60) then
                      let off := hh * 3600000000 + mm * 60000000 in
                      Some (if Ascii.eqb sign "-" then - off else off)
                    else None
                | _ => None
                end
            | None => None
            end
        | None => None
        end
      else None
  | EmptyString => None
  end.

Definition parse (s : string) : option datetime :=
  match parse_date s with
  | None => None
  | Some (day, EmptyString) => Some (Naive (day * 86400000000))
  | Some (day, String _ s1) =>
      match parse_time s1 with
      | None => None
      | Some (us, EmptyString) => Some (Naive (day * 86400000000 + us))
      | Some (us, rest) =>
          match parse_offset rest with
          | Some off => Some (Aware (day * 86400000000 + us - off))
          | None => None
          end
      end
  end.

(** [n] written with at least [width] digits. *)
Fixpoint zeros (n : nat) : string :=
  match n with
  | O => EmptyString
  | S n' => String "0" (zeros n')
  end.

Definition pad (width : nat) (n : Z) : string :=
  let s := str n in
  (zeros (width - String.length s) ++ s)%string.

Definition format (t : Z) : string :=
  let day := t / 86400000000 in
  let us := t mod 86400000000 in
  let '(y, m, d) := civil_from_days day in
  let frac := us mod 1000000 in
  let secs := us / 1000000 in
  (pad 4 y ++ "-" ++ pad 2 m ++ "-" ++ pad 2 d ++ "T"
   ++ pad 2 (secs / 3600) ++ ":" ++ pad 2 (secs / 60 mod 60) ++ ":"
   ++ pad 2 (secs mod 60)
   ++ (if Z.eqb frac 0 then EmptyString else "." ++ pad 6 frac)
   ++ "+00:00")%string.

#[export] Instance lib : DatetimeLib :=
  {| fromisoformat := parse; isoformat := format |}.

End Iso8601.


(** ** Vocabulary of the properties *)

(** The vote count the scoring functions read from a record. *)
Definition votes (item : RawItem) : Z :=
  get (upvotes (get (paper item) empty_dict)) 0.

(** A [timedelta] in hours, as both scoring functions compute it. *)
Definition hours (td : Z) : R := (total_seconds td / 3600)%R.

(** The string both scoring functions and [format_paper] parse: the
    record's [publishedAt], or the first clock reading when it is absent. *)
Definition published_at_str `{DatetimeLib} (item : RawItem) (w : World) : string :=
  get (publishedAt item) (isoformat (wall w (ticks w))).

(** Every comparison [sorted] can make between two keys of [l] returns. *)
Definition comparable {K A : Type} `{PyOrd K} (l : list (K * A)) : Prop :=
  forall x y, In x l -> In y l -> exists b, py_lt (fst x) (fst y) = Ok b.

(** The key of [m] is strictly below the key of each of the [others]. *)
Definition strictly_below {K A : Type} `{PyOrd K}
    (m : K * A) (others : list (K * A)) : Prop :=
  forall y, In y others ->
    py_lt (fst m) (fst y) = Ok true /\ py_lt (fst y) (fst m) = Ok false.


(** ** Records and clocks for concrete runs *)

Module Sample.

(** 2024-08-15T12:00:00Z *)
Definition noon : Z := 1723723200000000.

(** A clock that starts at [noon] and moves on by one microsecond from one
    reading to the next. *)
Definition ticking (n : nat) : Z := noon + Z.of_nat n.

Definition record (votes_ : Z) (published : string) : RawItem :=
  {| title := Some "A paper";
     paper := Some {| id := Some "2408.00001";
                      upvotes := Some votes_;
                      authors := Some [ {| name := Some "A. Author" |} ] |};
     publishedAt := Some published;
     numComments := Some 0 |}.

(** Ten votes, published two hours before the second reading of [ticking]. *)
Definition ten_votes : RawItem := record 10 "2024-08-15T10:00:00.000001Z".

End Sample.


Module SampleVotes.

(** Two records without votes, published one hour apart. *)
Definition newer : RawItem := Sample.record 0 "2024-08-15T11:00:00Z".
Definition older : RawItem := Sample.record 0 "2024-08-15T10:00:00Z".

(** Five votes, published two hours before [Sample.noon]. *)
Definition voted : RawItem := Sample.record 5 "2024-08-15T10:00:00Z".

(** Five votes as well, published a day before [Sample.noon]. *)
Definition stale : RawItem := Sample.record 5 "2024-08-14T12:00:00Z".

End SampleVotes.


(** A computation that only reads the clock. *)
Definition clock_only {A : Type} (m : M A) : Prop :=
  forall w, exists n, snd (m w) = advance n w.

(** The key of the "new" branch of [sort_papers]. *)
Definition published_key (x : RawItem) : M string :=
  ret (get (publishedAt x) EmptyString).

(** The shape the four branches of [sort_papers] share. *)
Definition sort_by {K : Type} `{PyOrd K} (key : RawItem -> M K) : M unit :=
  s <- self ;;
  r <- sorted_reverse (raw_papers s) key ;;
  update (set_papers r).

(** The record carries an aware, parseable timestamp that no reading of
    [clock] precedes. *)
Definition published_before `{DatetimeLib} (clock : nat -> Z) (item : RawItem)
    : Prop :=
  exists (s : string) (t : Z),
    publishedAt item = Some s
    /\ fromisoformat (replace_Z s) = Some (Aware t)
    /\ forall n, t <= clock n.

(** Whatever the clock reads, the timestamp parsed for the record is not a
    naive one. *)
Definition no_naive `{DatetimeLib} (item : RawItem) : Prop :=
  forall d t,
    fromisoformat (replace_Z (get (publishedAt item) (isoformat d)))
    <> Some (Naive t).

Definition is_float (k : pynum) : Prop := exists r, k = PyFloat r.

(** Equality of scores and of raw timestamps, to select the records that
    share a key. *)
Definition pynum_eqb (a b : pynum) : bool :=
  match a, b with
  | PyFloat x, PyFloat y => if Req_dec_T x y then true else false
  | PyInf negative, PyInf negative' => Bool.eqb negative negative'
  | PyComplex, PyComplex => true
  | _, _ => false
  end.

(** The record's vote count converts to a float. *)
Definition votes_in_range (item : RawItem) : Prop :=
  Z.abs (votes item) < float_limit.

(** [a] is at most [b] among the floats and the two infinities; a complex
    is not ordered. *)
Definition pynum_le (a b : pynum) : Prop :=
  match a, b with
  | PyFloat x, PyFloat y => (x <= y)%R
  | PyInf negative, PyFloat _ => negative = true
  | PyFloat _, PyInf negative => negative = false
  | PyInf negative, PyInf negative' => negative = true \/ negative' = false
  | _, _ => False
  end.

(** The method [set_sort_method] settles on. *)
Definition effective (method : string) : string :=
  if existsb (String.eqb method) ["hot"; "new"; "rising"] then method
  else "hot".


Module SampleSession.

(** A session on the clock [Sample.ticking] that holds [items] as its raw
    collection and is set to sort by [method]. *)
Definition loaded (method : string) (items : list RawItem) : World :=
  with_manager (fun m => set_raw_papers items (set_sort_method_field method m))
    (fresh Sample.ticking).

(** Three records published on the same instant, and one two hours later. *)
Definition first : RawItem := Sample.record 1 "2024-08-15T08:00:00Z".
Definition second : RawItem := Sample.record 2 "2024-08-15T08:00:00Z".
Definition third : RawItem := Sample.record 3 "2024-08-15T08:00:00Z".
Definition latest : RawItem := Sample.record 4 "2024-08-15T10:00:00Z".

Definition collection : list RawItem := [first; second; latest; third].

End SampleSession.


Module SampleFuture.

(** Published two hours before [Sample.noon], and three hours after it. *)
Definition ontime : RawItem := Sample.record 5 "2024-08-15T10:00:00Z".
Definition future : RawItem := Sample.record 7 "2024-08-15T15:00:00Z".

(** A timestamp without an offset. *)
Definition naive : RawItem := Sample.record 7 "2024-08-15T10:00:00".

End SampleFuture.

Module SampleUnparsable.

(** A date that [fromisoformat] rejects, among four records that parse. *)
Definition unparsable : RawItem := Sample.record 3 "08/15/2024".

Definition parsed : list RawItem :=
  [Sample.record 50 "2024-08-15T10:00:00Z";
   Sample.record 60 "2024-08-15T09:00:00Z";
   Sample.record 70 "2024-08-15T08:00:00Z";
   Sample.record 45 "2024-08-15T11:00:00Z"].

Definition collection : list RawItem := unparsable :: parsed.

End SampleUnparsable.


Module SampleOverflow.

(** A vote count of 10**400, on a record published two hours before
    [Sample.noon]. *)
Definition flooded : RawItem := Sample.record (10 ^ 400) "2024-08-15T10:00:00Z".

(** A vote count of 10**300, on a record dated two hours after
    [Sample.noon]: one microsecond less than two hours ahead of the second
    reading of [Sample.ticking]. *)
Definition crowded : RawItem := Sample.record (10 ^ 300) "2024-08-15T14:00:00Z".

End SampleOverflow.


(** The world with [lines] in place of what was printed. *)
Definition set_stdout (lines : list output) (w : World) : World :=
  {| wall := wall w; ticks := ticks w; stdout := lines;
     paper_manager := paper_manager w |}.

(** A computation that neither prints nor looks at what was printed. *)
Definition output_blind {A : Type} (m : M A) : Prop :=
  forall w lines,
    m (set_stdout lines w) = (fst (m w), set_stdout lines (snd (m w))).


(** ** Vocabulary of the further properties *)

(** [x] may stand before [y] in an ascending list: the key of [y] compares
    as not below the key of [x].  [not_below x y] is the same for a
    descending list: the key of [x] is not below the key of [y]. *)
Definition not_above {K A : Type} `{PyOrd K} (x y : K * A) : Prop :=
  py_lt (fst y) (fst x) = Ok false.

Definition not_below {K A : Type} `{PyOrd K} (x y : K * A) : Prop :=
  py_lt (fst x) (fst y) = Ok false.

(** The raw timestamp [sort_papers] compares under "new". *)
Definition published (x : RawItem) : string :=
  get (publishedAt x) EmptyString.


Module SampleMissing.

(** Records that carry nothing but a title. *)
Definition bare (title_ : string) : RawItem :=
  {| title := Some title_; paper := None; publishedAt := None;
     numComments := None |}.

Definition collection : list RawItem :=
  [bare "Untitled draft"; SampleSession.first; bare "Another draft";
   SampleSession.latest].

End SampleMissing.


(** The events of the interface and the callback each one is wired to:
    loading the page ([demo.load]), a change of the sort selector, and the
    two pagination buttons.  One event is handled at a time. *)
Inductive event : Type :=
| Load (response : Response)
| SortChanged (method : string)
| PrevClicked
| NextClicked.

Definition dispatch `{DatetimeLib} (e : event) : M string :=
  match e with
  | Load response => initialize_app response
  | SortChanged method => change_sort_method method
  | PrevClicked => prev_page
  | NextClicked => next_page
  end.

(** The worlds the program can be in: the one it starts in, and those an
    event leads to, whether its callback returns or raises. *)
Inductive reachable `{DatetimeLib} : World -> Prop :=
| reachable_start (clock : nat -> Z) : reachable (fresh clock)
| reachable_step (e : event) (w : World) :
    reachable w -> reachable (snd (dispatch e w)).

(** The fields of the session other than the two lists. *)
Definition settings (m : PaperManager) : Z * Z * Z * string :=
  (papers_per_page m, current_page m, total_pages m, sort_method m).


(** The records of page [p]: the slice [render_papers] takes for it. *)
Definition page (s : PaperManager) (p : Z) : list RawItem :=
  slice (papers s) ((p - 1) * papers_per_page s)
    ((p - 1) * papers_per_page s + papers_per_page s).

(** The records of the current page, each with the rank [render_papers]
    hands to [format_paper]. *)
Definition ranked (s : PaperManager) : list (Z * RawItem) :=
  map (fun '(idx, paper_) =>
         (idx + (current_page s - 1) * papers_per_page s + 1, paper_))
    (enumerate (page s (current_page s))).

(** The table [render_papers] wraps the rows in. *)
Definition table (papers_html : string) : string :=
  (nl ++
  "        <table border=" ++ dq ++ "0" ++ dq ++ " cellpadding=" ++ dq ++ "0" ++ dq ++ " cellspacing=" ++ dq ++ "0" ++ dq ++ " class=" ++ dq ++ "itemlist" ++ dq ++ ">" ++ nl ++
  "            " ++ papers_html ++ nl ++
  "        </table>" ++ nl ++
  "        ")%string.

(** [render_papers], given the ranked records of the page. *)
Definition render_rows `{DatetimeLib} (rows : list (Z * RawItem)) : M string :=
  match rows with
  | [] => ret no_papers_available
  | _ :: _ =>
      htmls <- for_each (fun '(rank, paper_) => format_paper paper_ rank) rows ;;
      ret (table (join EmptyString htmls))
  end.

Module SamplePages.

(** Forty-five records published on the same instant, with 1 to 45 votes. *)
Definition collection : list RawItem :=
  map (fun i => Sample.record (Z.of_nat i) "2024-08-15T08:00:00Z") (seq 1 45).

(** The session after they were fetched under "new". *)
Definition fetched : World :=
  snd (fetch_papers (H := Iso8601.lib) (Json collection)
         (SampleSession.loaded "new" [])).

End SamplePages.


(** A record with the default of every absent key written in, but for
    [publishedAt], whose default is the time of the call. *)
Definition fill_author (a : Author) : Author :=
  {| name := Some (get (name a) EmptyString) |}.

Definition fill_paper (p : Paper) : Paper :=
  {| id := Some (get (id p) EmptyString);
     upvotes := Some (get (upvotes p) 0);
     authors := Some (map fill_author (get (authors p) [])) |}.

Definition fill_defaults (x : RawItem) : RawItem :=
  {| title := Some (get (title x) "No title");
     paper := Some (fill_paper (get (paper x) empty_dict));
     publishedAt := publishedAt x;
     numComments := Some (get (numComments x) 0) |}.

Module SampleStale.

(** A record whose timestamp has no offset, ahead of the forty-five records
    of [SamplePages.collection], which have one. *)
Definition data : list RawItem := SampleFuture.naive :: SamplePages.collection.

End SampleStale.

(** The world in which [change_sort_method] sorts: the two lines are
    printed and the method [set_sort_method] settles on is stored. *)
Definition about_to_sort (method : string) (w : World) : World :=
  with_manager (set_sort_method_field (effective (lower method)))
    (with_output
       [Printed ("Setting sort method to: " ++ effective (lower method))]
       (with_output [Printed ("Changing sort method to: " ++ lower method)] w)).

Module SampleAhead.

(** A record dated three hours after [Sample.noon], ahead of the forty-five
    records of [SamplePages.collection], which are dated before it. *)
Definition data : list RawItem := SampleFuture.future :: SamplePages.collection.

End SampleAhead.

(** * Properties *)

(** ** Real arithmetic of the exponent *)

Lemma Rpower_1_5 (x : R) : (0 < x)%R -> Rpower x 1.5 = (x * sqrt x)%R.
Proof.
  intros Hx. replace 1.5%R with (1 + / 2)%R by lra.
  rewrite Rpower_plus, Rpower_1, Rpower_sqrt by assumption.
  reflexivity.
Qed.

Lemma Rpower_1_5_of_4 : Rpower 4 1.5 = 8%R.
Proof.
  rewrite Rpower_1_5 by lra.
  replace 4%R with (2 * 2)%R at 2 by lra.
  rewrite sqrt_square by lra. lra.
Qed.

Lemma Rpower_1_5_pos (x : R) : (0 < Rpower x 1.5)%R.
Proof. unfold Rpower. apply exp_pos. Qed.

Lemma Rpower_1_5_lt (x y : R) :
  (0 < x)%R -> (x < y)%R -> (Rpower x 1.5 < Rpower y 1.5)%R.
Proof. intros Hx Hxy. apply Rlt_Rpower_l; lra. Qed.

Lemma Rpower_1_5_ge (x : R) : (1 <= x)%R -> (x <= Rpower x 1.5)%R.
Proof.
  intros Hx. rewrite Rpower_1_5 by lra.
  assert (Hs : (1 <= sqrt x)%R).
  { rewrite <- sqrt_1. apply sqrt_le_1; lra. }
  nra.
Qed.

Lemma Rltb_true (x y : R) : (x < y)%R -> Rltb x y = true.
Proof. intros Hlt. unfold Rltb. destruct (Rlt_dec x y); [reflexivity | lra]. Qed.

Lemma Rltb_false (x y : R) : (y <= x)%R -> Rltb x y = false.
Proof. intros Hle. unfold Rltb. destruct (Rlt_dec x y); [lra | reflexivity]. Qed.

Lemma pow_1_5_pos (x : R) : (0 < x)%R -> pow_1_5 x = PyFloat (Rpower x 1.5).
Proof.
  intros Hx. unfold pow_1_5.
  destruct (Rlt_dec x 0); [lra |].
  destruct (Req_dec_T x 0); [lra | reflexivity].
Qed.

Lemma pow_1_5_neg (x : R) : (x < 0)%R -> pow_1_5 x = PyComplex.
Proof.
  intros Hx. unfold pow_1_5. destruct (Rlt_dec x 0); [reflexivity | lra].
Qed.

Lemma pow_1_5_zero : pow_1_5 0 = PyFloat 0.
Proof.
  unfold pow_1_5. destruct (Rlt_dec 0 0); [lra |].
  destruct (Req_dec_T 0 0); [reflexivity | lra].
Qed.

(** ** The range of the floats *)

Lemma float_of_int_in_range (n : Z) :
  Z.abs n < float_limit -> float_of_int n = Ok (IZR n).
Proof.
  intros Hn. unfold float_of_int.
  destruct (float_limit <=? Z.abs n) eqn:E; [| reflexivity].
  apply Z.leb_le in E. lia.
Qed.

Lemma float_of_int_overflow (n : Z) :
  float_limit <= Z.abs n -> float_of_int n = Raise OverflowError.
Proof.
  intros Hn. unfold float_of_int.
  destruct (float_limit <=? Z.abs n) eqn:E; [reflexivity |].
  apply Z.leb_gt in E. lia.
Qed.

Lemma float_result_in_range (q : R) :
  (Rabs q < IZR float_limit)%R -> float_result q = PyFloat q.
Proof.
  intros Hq. unfold float_result.
  destruct (Rle_dec (IZR float_limit) (Rabs q)); [lra | reflexivity].
Qed.

Lemma float_result_beyond (q : R) :
  (IZR float_limit <= Rabs q)%R -> float_result q = PyInf (Rltb q 0).
Proof.
  intros Hq. unfold float_result.
  destruct (Rle_dec (IZR float_limit) (Rabs q)); [reflexivity | lra].
Qed.

(** Dividing by a float of magnitude 1 or more does not leave the range. *)
Lemma quotient_in_range_abs (n : Z) (r : R) :
  Z.abs n < float_limit -> (1 <= Rabs r)%R ->
  (Rabs (IZR n / r) < IZR float_limit)%R.
Proof.
  intros Hn Hr. apply IZR_lt in Hn. rewrite abs_IZR in Hn.
  assert (Hr0 : r <> 0%R).
  { intros ->. rewrite Rabs_R0 in Hr. lra. }
  unfold Rdiv. rewrite Rabs_mult, Rabs_inv.
  pose proof (Rabs_pos (IZR n)) as Hpos.
  assert (Hinv : (0 < / Rabs r <= 1)%R).
  { split; [apply Rinv_0_lt_compat; lra |].
    rewrite <- Rinv_1. apply Rinv_le_contravar; lra. }
  nra.
Qed.

Lemma quotient_in_range (n : Z) (r : R) :
  Z.abs n < float_limit -> (1 <= r)%R ->
  (Rabs (IZR n / r) < IZR float_limit)%R.
Proof.
  intros Hn Hr. apply quotient_in_range_abs; [exact Hn |].
  rewrite Rabs_pos_eq; lra.
Qed.

Lemma true_div_quotient (n : Z) (r : R) :
  Z.abs n < float_limit -> r <> 0%R ->
  true_div n (PyFloat r) = Ok (float_result (IZR n / r)).
Proof.
  intros Hn Hr. unfold true_div. rewrite (float_of_int_in_range n Hn).
  destruct (Req_dec_T r 0); [contradiction | reflexivity].
Qed.

Lemma true_div_float (n : Z) (r : R) :
  Z.abs n < float_limit -> (1 <= r)%R ->
  true_div n (PyFloat r) = Ok (PyFloat (IZR n / r)).
Proof.
  intros Hn Hr. rewrite true_div_quotient by (assumption || lra).
  rewrite float_result_in_range by (apply quotient_in_range; assumption).
  reflexivity.
Qed.

Lemma true_div_zero (n : Z) :
  Z.abs n < float_limit -> true_div n (PyFloat 0) = Raise ZeroDivisionError.
Proof.
  intros Hn. unfold true_div. rewrite (float_of_int_in_range n Hn).
  destruct (Req_dec_T 0 0); [reflexivity | lra].
Qed.

Lemma true_div_complex (n : Z) :
  Z.abs n < float_limit -> true_div n PyComplex = Ok PyComplex.
Proof.
  intros Hn. unfold true_div. rewrite (float_of_int_in_range n Hn).
  reflexivity.
Qed.

Lemma true_div_overflow (n : Z) (d : pynum) :
  float_limit <= Z.abs n -> true_div n d = Raise OverflowError.
Proof.
  intros Hn. unfold true_div. rewrite (float_of_int_overflow n Hn).
  reflexivity.
Qed.

Lemma float_limit_above (n : Z) : Z.abs n < 2 ^ 1000 -> Z.abs n < float_limit.
Proof.
  intros Hn. eapply Z.lt_trans; [exact Hn |]. reflexivity.
Qed.

(** ** What one scoring call does *)

Section Scoring.
Context `{DatetimeLib}.

Lemma calculate_score_eq (item : RawItem) (w : World) :
  calculate_score item w =
  match fromisoformat (replace_Z (published_at_str item w)) with
  | Some (Aware t) =>
      (true_div (votes item)
         (pow_1_5 (hours (wall w (1 + ticks w) - t) + 2)%R),
       advance 2 w)
  | Some (Naive _) => (Raise TypeError, advance 2 w)
  | None =>
      (true_div (votes item)
         (pow_1_5 (hours (wall w (2 + ticks w) - wall w (1 + ticks w)) + 2)%R),
       advance 3 w)
  end.
Proof.
  unfold calculate_score, parse_published, published_at_str, bind, datetime_now.
  cbn.
  destruct (fromisoformat _) as [[t | t] |]; reflexivity.
Qed.

End Scoring.

(** ** The sort behind [sorted] *)

Section SortedFacts.
Context {K A : Type} `{PyOrd K}.

Implicit Types (x y : K * A) (l r : list (K * A)).

Lemma insert_perm x l r : insert x l = Ok r -> Permutation (x :: l) r.
Proof.
  revert r. induction l as [| y l IH]; intros r; cbn.
  - intros [= <-]. apply Permutation_refl.
  - destruct (py_lt (fst y) (fst x)) as [[|] | e]; try discriminate.
    + destruct (insert x l) as [r' | e]; try discriminate.
      intros [= <-]. eapply perm_trans; [apply perm_swap |].
      apply perm_skip, IH. reflexivity.
    + intros [= <-]. apply Permutation_refl.
Qed.

Lemma sort_ascending_perm l r : sort_ascending l = Ok r -> Permutation l r.
Proof.
  revert r. induction l as [| x l IH]; intros r; cbn.
  - intros [= <-]. constructor.
  - destruct (sort_ascending l) as [r' | e]; try discriminate.
    intros Hins. apply insert_perm in Hins.
    eapply perm_trans; [| exact Hins]. apply perm_skip, IH. reflexivity.
Qed.

Lemma sort_decorated_perm l r : sort_decorated l = Ok r -> Permutation l r.
Proof.
  unfold sort_decorated.
  destruct (sort_ascending (rev l)) as [r' | e] eqn:E; try discriminate.
  intros [= <-]. apply sort_ascending_perm in E.
  eapply perm_trans; [apply Permutation_rev |].
  eapply perm_trans; [exact E |]. apply Permutation_rev.
Qed.

(** *** Stability: a class of elements none of which is below another keeps
    its order. *)

Section Stable.
Variable p : K * A -> bool.
Hypothesis unordered :
  forall x y, p x = true -> p y = true -> py_lt (fst x) (fst y) <> Ok true.

Lemma insert_filter x l r :
  insert x l = Ok r -> filter p r = filter p (x :: l).
Proof.
  revert r. induction l as [| y l IH]; intros r; cbn.
  - intros [= <-]. reflexivity.
  - destruct (py_lt (fst y) (fst x)) as [[|] | e] eqn:E; try discriminate.
    + destruct (insert x l) as [r' | e]; try discriminate.
      intros [= <-]. cbn. rewrite (IH r' eq_refl). cbn.
      destruct (p x) eqn:Px, (p y) eqn:Py; try reflexivity.
      exfalso. exact (unordered y x Py Px E).
    + intros [= <-]. reflexivity.
Qed.

Lemma sort_ascending_filter l r :
  sort_ascending l = Ok r -> filter p r = filter p l.
Proof.
  revert r. induction l as [| x l IH]; intros r; cbn.
  - intros [= <-]. reflexivity.
  - destruct (sort_ascending l) as [r' | e]; try discriminate.
    intros Hins. rewrite (insert_filter _ _ _ Hins). cbn.
    rewrite (IH r' eq_refl). reflexivity.
Qed.

Lemma filter_rev (l : list (K * A)) : filter p (rev l) = rev (filter p l).
Proof.
  induction l as [| x l IH]; cbn; [reflexivity |].
  rewrite filter_app, IH. cbn.
  destruct (p x); cbn; [reflexivity | apply app_nil_r].
Qed.

Lemma sort_decorated_filter l r :
  sort_decorated l = Ok r -> filter p r = filter p l.
Proof.
  unfold sort_decorated.
  destruct (sort_ascending (rev l)) as [r' | e] eqn:E; try discriminate.
  intros [= <-]. rewrite filter_rev, (sort_ascending_filter _ _ E), filter_rev.
  apply rev_involutive.
Qed.
End Stable.

(** *** The sort returns when every comparison it can make does. *)

Lemma insert_total x l :
  (forall y, In y l -> exists b, py_lt (fst y) (fst x) = Ok b) ->
  exists r, insert x l = Ok r.
Proof.
  induction l as [| y l IH]; intros Hc; cbn.
  - eexists; reflexivity.
  - destruct (Hc y (or_introl eq_refl)) as [[|] ->].
    + destruct IH as [r ->]; [intros; apply Hc; right; assumption |].
      eexists; reflexivity.
    + eexists; reflexivity.
Qed.

Lemma sort_ascending_total l :
  comparable l -> exists r, sort_ascending l = Ok r.
Proof.
  induction l as [| x l IH]; intros Hc; cbn.
  - eexists; reflexivity.
  - destruct IH as [r Hr].
    + intros a b Ha Hb. apply Hc; right; assumption.
    + rewrite Hr. apply insert_total. intros y Hy. apply Hc.
      * right. eapply Permutation_in; [| exact Hy].
        apply Permutation_sym, sort_ascending_perm, Hr.
      * left; reflexivity.
Qed.

Lemma sort_decorated_total l :
  comparable l -> exists r, sort_decorated l = Ok r.
Proof.
  intros Hc. unfold sort_decorated.
  destruct (sort_ascending_total (rev l)) as [r ->].
  - intros a b Ha Hb. apply Hc; apply in_rev; assumption.
  - eexists; reflexivity.
Qed.

(** *** An element strictly below all the others comes out last. *)

Lemma sort_ascending_least m l1 l2 r :
  strictly_below m (l1 ++ l2) ->
  sort_ascending (l1 ++ m :: l2) = Ok r ->
  exists rest, r = m :: rest.
Proof.
  revert r. induction l1 as [| x l1 IH]; intros r Hm; cbn.
  - destruct (sort_ascending l2) as [r2 | e] eqn:E; try discriminate.
    destruct r2 as [| y r2]; cbn.
    + intros [= <-]. eexists; reflexivity.
    + assert (Hy : In y l2).
      { eapply Permutation_in;
          [apply Permutation_sym, sort_ascending_perm, E | left; reflexivity]. }
      destruct (Hm y Hy) as [_ ->]. intros [= <-]. eexists; reflexivity.
  - destruct (sort_ascending (l1 ++ m :: l2)) as [r' | e] eqn:E; try discriminate.
    destruct (IH r') as [rest ->]; [| reflexivity |].
    { intros y Hy. apply Hm. right. exact Hy. }
    cbn. destruct (Hm x (or_introl eq_refl)) as [-> _].
    destruct (insert x rest) as [r'' | e]; try discriminate.
    intros [= <-]. eexists; reflexivity.
Qed.

Lemma sort_decorated_least m l1 l2 r :
  strictly_below m (l1 ++ l2) ->
  sort_decorated (l1 ++ m :: l2) = Ok r ->
  exists front, r = (front ++ [m])%list.
Proof.
  intros Hm. unfold sort_decorated.
  rewrite rev_app_distr. cbn. rewrite <- app_assoc. cbn.
  destruct (sort_ascending _) as [r' | e] eqn:E; try discriminate.
  intros [= <-].
  apply sort_ascending_least in E as [rest ->].
  - exists (rev rest). reflexivity.
  - intros y Hy. apply Hm. apply in_app_or in Hy. apply in_or_app.
    destruct Hy as [Hy | Hy]; [right | left]; apply in_rev; exact Hy.
Qed.

End SortedFacts.

(** ** Order of the sorted list *)

Lemma StronglySorted_app {A : Type} (R : A -> A -> Prop) (l1 l2 : list A) :
  StronglySorted R l1 -> StronglySorted R l2 ->
  (forall x y, In x l1 -> In y l2 -> R x y) ->
  StronglySorted R (l1 ++ l2)%list.
Proof.
  intros H1 H2 Hcross. induction H1 as [| a l1 Hl1 IH Ha]; cbn; [exact H2 |].
  constructor.
  - apply IH. intros x y Hx Hy. apply Hcross; [right; exact Hx | exact Hy].
  - apply Forall_app. split; [exact Ha |].
    apply Forall_forall. intros y Hy. apply Hcross; [left; reflexivity | exact Hy].
Qed.

Lemma StronglySorted_rev {A : Type} (R : A -> A -> Prop) (l : list A) :
  StronglySorted R l -> StronglySorted (fun x y => R y x) (rev l).
Proof.
  induction 1 as [| a l Hl IH Ha]; cbn; [constructor |].
  apply StronglySorted_app; [exact IH | repeat constructor |].
  intros x y Hx [<- | []]. apply in_rev in Hx.
  rewrite Forall_forall in Ha. apply Ha, Hx.
Qed.

Lemma StronglySorted_impl_in {A : Type} (R R' : A -> A -> Prop) (l : list A) :
  (forall x y, In x l -> In y l -> R x y -> R' x y) ->
  StronglySorted R l -> StronglySorted R' l.
Proof.
  intros Himpl Hl. induction Hl as [| a l Hl IH Ha]; constructor.
  - apply IH. intros x y Hx Hy. apply Himpl; right; assumption.
  - rewrite Forall_forall in *. intros y Hy.
    apply Himpl; [left; reflexivity | right; exact Hy | apply Ha, Hy].
Qed.

Lemma StronglySorted_map {A B : Type} (R : B -> B -> Prop) (f : A -> B)
    (l : list A) :
  StronglySorted (fun x y => R (f x) (f y)) l -> StronglySorted R (map f l).
Proof.
  induction 1 as [| a l Hl IH Ha]; cbn; constructor; [exact IH |].
  apply Forall_map. exact Ha.
Qed.

Lemma StronglySorted_after {A : Type} (R : A -> A -> Prop) (l1 l2 : list A)
    (x : A) :
  StronglySorted R (l1 ++ x :: l2)%list -> Forall (R x) l2.
Proof.
  induction l1 as [| a l1 IH]; cbn; intros Hl; inversion Hl; subst;
    [assumption | apply IH; assumption].
Qed.

Section Ordered.
Context {K A : Type} `{PyOrd K}.
Hypothesis asym : forall a b : K, py_lt a b = Ok true -> py_lt b a = Ok false.
Hypothesis trans :
  forall a b c : K,
    py_lt b a = Ok false -> py_lt c b = Ok false -> py_lt c a = Ok false.

Implicit Types (x y : K * A) (l r : list (K * A)).

Lemma insert_HdRel a x l r :
  insert x l = Ok r -> HdRel not_above a l -> not_above a x ->
  HdRel not_above a r.
Proof.
  destruct l as [| y l]; cbn.
  - intros [= <-] _ Hax. constructor. exact Hax.
  - destruct (py_lt (fst y) (fst x)) as [[|] | e]; try discriminate.
    + destruct (insert x l) as [r' | e]; try discriminate.
      intros [= <-] Hay _. constructor. inversion Hay. assumption.
    + intros [= <-] _ Hax. constructor. exact Hax.
Qed.

Lemma insert_Sorted x l r :
  Sorted not_above l -> insert x l = Ok r -> Sorted not_above r.
Proof.
  revert r. induction l as [| y l IH]; intros r Hl; cbn.
  - intros [= <-]. repeat constructor.
  - destruct (py_lt (fst y) (fst x)) as [[|] | e] eqn:E; try discriminate.
    + destruct (insert x l) as [r' | e] eqn:Ei; try discriminate.
      intros [= <-]. inversion Hl; subst. constructor.
      * apply IH; [assumption | reflexivity].
      * eapply insert_HdRel; [exact Ei | assumption |].
        unfold not_above. apply asym, E.
    + intros [= <-]. constructor; [exact Hl |]. constructor. exact E.
Qed.

Lemma sort_ascending_Sorted l r :
  sort_ascending l = Ok r -> Sorted not_above r.
Proof.
  revert r. induction l as [| x l IH]; intros r; cbn.
  - intros [= <-]. constructor.
  - destruct (sort_ascending l) as [r' | e]; try discriminate.
    apply insert_Sorted, IH. reflexivity.
Qed.

Lemma sort_decorated_descending l r :
  sort_decorated l = Ok r -> StronglySorted not_below r.
Proof.
  unfold sort_decorated.
  destruct (sort_ascending (rev l)) as [r' | e] eqn:E; try discriminate.
  intros [= <-]. apply sort_ascending_Sorted in E.
  apply Sorted_StronglySorted in E.
  - apply (StronglySorted_rev _ _ E).
  - intros x y z Hxy Hyz. unfold not_above in *. eapply trans; eassumption.
Qed.

End Ordered.

Lemma pynum_lt_asym (a b : pynum) : py_lt a b = Ok true -> py_lt b a = Ok false.
Proof.
  destruct a as [x | na |], b as [y | nb |]; cbn; try discriminate.
  - unfold Rltb. destruct (Rlt_dec x y); [| discriminate].
    intros _. destruct (Rlt_dec y x); [lra | reflexivity].
  - destruct nb; [discriminate | reflexivity].
  - destruct na; [reflexivity | discriminate].
  - destruct na, nb; try discriminate; reflexivity.
Qed.

Lemma pynum_lt_trans (a b c : pynum) :
  py_lt b a = Ok false -> py_lt c b = Ok false -> py_lt c a = Ok false.
Proof.
  destruct a as [x | na |], b as [y | nb |], c as [z | nc |]; cbn;
    try discriminate;
    try (destruct na); try (destruct nb); try (destruct nc); cbn;
    try discriminate; try reflexivity.
  unfold Rltb. destruct (Rlt_dec y x), (Rlt_dec z y); try discriminate.
  intros _ _. destruct (Rlt_dec z x); [lra | reflexivity].
Qed.

Lemma pynum_not_below (a b : pynum) : py_lt a b = Ok false -> pynum_le b a.
Proof.
  destruct a as [x | na |], b as [y | nb |]; cbn; try discriminate.
  - unfold Rltb. destruct (Rlt_dec x y); [discriminate |]. intros _. lra.
  - destruct nb; [reflexivity | discriminate].
  - destruct na; [discriminate | reflexivity].
  - destruct na, nb; try discriminate; auto.
Qed.

Lemma string_ltb_asym (a b : string) :
  String.ltb a b = true -> String.ltb b a = false.
Proof.
  unfold String.ltb. rewrite (String.compare_antisym b a).
  destruct (String.compare a b); cbn; congruence.
Qed.

Lemma string_ltb_trans (a b c : string) :
  String.ltb b a = false -> String.ltb c b = false -> String.ltb c a = false.
Proof.
  unfold String.ltb. intros Hba Hcb.
  destruct (String.compare c a) eqn:Eca; try reflexivity.
  apply OrderedTypeEx.String_as_OT.cmp_lt in Eca.
  destruct (String.compare b a) eqn:Eba; try discriminate.
  - apply OrderedTypeEx.String_as_OT.cmp_eq in Eba. subst b.
    apply OrderedTypeEx.String_as_OT.cmp_lt in Eca.
    unfold OrderedTypeEx.String_as_OT.cmp in Eca. rewrite Eca in Hcb.
    discriminate.
  - assert (Eab : String.compare a b = Lt)
      by (rewrite String.compare_antisym, Eba; reflexivity).
    apply OrderedTypeEx.String_as_OT.cmp_lt in Eab.
    pose proof (OrderedTypeEx.String_as_OT.lt_trans _ _ _ Eca Eab) as Ecb.
    apply OrderedTypeEx.String_as_OT.cmp_lt in Ecb.
    unfold OrderedTypeEx.String_as_OT.cmp in Ecb. rewrite Ecb in Hcb.
    discriminate.
Qed.

Lemma string_lt_asym (a b : string) : py_lt a b = Ok true -> py_lt b a = Ok false.
Proof.
  change (Ok (String.ltb a b) = Ok true -> @Ok bool (String.ltb b a) = Ok false).
  intros [= E]. rewrite (string_ltb_asym _ _ E). reflexivity.
Qed.

Lemma string_lt_trans (a b c : string) :
  py_lt b a = Ok false -> py_lt c b = Ok false -> py_lt c a = Ok false.
Proof.
  change (Ok (String.ltb b a) = Ok false -> Ok (String.ltb c b) = Ok false ->
          @Ok bool (String.ltb c a) = Ok false).
  intros [= E1] [= E2]. rewrite (string_ltb_trans _ _ _ E1 E2). reflexivity.
Qed.

(** *** A complex key

    A [complex] cannot be compared: with two keys or more, one of them a
    [complex], the sort raises [TypeError]. *)

Lemma py_lt_complex_l (b : pynum) : py_lt PyComplex b = Raise TypeError.
Proof. reflexivity. Qed.

Lemma py_lt_complex_r (a : pynum) : py_lt a PyComplex = Raise TypeError.
Proof. destruct a; reflexivity. Qed.

Lemma pynum_lt_raises (a b : pynum) (e : exn) :
  py_lt a b = Raise e -> e = TypeError.
Proof. destruct a, b; cbn; congruence. Qed.

Section ComplexKey.
Context {A : Type}.

Implicit Types (x y : pynum * A) (l r : list (pynum * A)).

Lemma insert_raises x l e : insert x l = Raise e -> e = TypeError.
Proof.
  induction l as [| y l IH]; cbn; [discriminate |].
  destruct (py_lt (fst y) (fst x)) as [[|] | e'] eqn:E.
  - destruct (insert x l) as [r | e']; [discriminate |].
    intros [= <-]. apply IH. reflexivity.
  - discriminate.
  - intros [= <-]. eapply pynum_lt_raises, E.
Qed.

Lemma sort_ascending_raises l e : sort_ascending l = Raise e -> e = TypeError.
Proof.
  induction l as [| x l IH]; cbn; [discriminate |].
  destruct (sort_ascending l) as [r | e'].
  - apply insert_raises.
  - intros [= <-]. apply IH. reflexivity.
Qed.

Lemma sort_decorated_complex l x :
  In x l -> fst x = PyComplex -> (2 <= List.length l)%nat ->
  sort_decorated l = Raise TypeError.
Proof.
  intros Hx Hcomplex Hlen.
  destruct (sort_decorated l) as [r | e] eqn:E.
  - exfalso.
    pose proof (sort_decorated_descending pynum_lt_asym pynum_lt_trans _ _ E)
      as Hsorted.
    pose proof (sort_decorated_perm _ _ E) as Hperm.
    apply (Permutation_in _ Hperm) in Hx.
    apply Permutation_length in Hperm. rewrite Hperm in Hlen.
    apply in_split in Hx as (l1 & l2 & ->).
    destruct l2 as [| y l2].
    + destruct l1 as [| y l1]; [cbn in Hlen; lia |].
      cbn in Hsorted. inversion Hsorted as [| ? ? _ Hall]; subst.
      rewrite Forall_forall in Hall.
      specialize (Hall x ltac:(apply in_or_app; right; left; reflexivity)).
      unfold not_below in Hall. rewrite Hcomplex, py_lt_complex_r in Hall.
      discriminate.
    + apply StronglySorted_after in Hsorted.
      inversion Hsorted as [| ? ? Hxy _]; subst.
      unfold not_below in Hxy. rewrite Hcomplex in Hxy. discriminate.
  - f_equal. unfold sort_decorated in E.
    destruct (sort_ascending (rev l)) as [r | e'] eqn:Es; [discriminate |].
    injection E as <-. eapply sort_ascending_raises, Es.
Qed.

End ComplexKey.


Section ScoringFacts.
Context `{DatetimeLib}.

Lemma calculate_rising_score_eq (item : RawItem) (w : World) :
  calculate_rising_score item w =
  match fromisoformat (replace_Z (published_at_str item w)) with
  | Some (Aware t) =>
      (true_div (votes item)
         (PyFloat (hours (wall w (1 + ticks w) - t) + 1)%R),
       advance 2 w)
  | Some (Naive _) => (Raise TypeError, advance 2 w)
  | None =>
      (true_div (votes item)
         (PyFloat (hours (wall w (2 + ticks w) - wall w (1 + ticks w)) + 1)%R),
       advance 3 w)
  end.
Proof.
  unfold calculate_rising_score, parse_published, published_at_str, bind,
    datetime_now.
  cbn.
  destruct (fromisoformat _) as [[t | t] |]; reflexivity.
Qed.

(** The Hot score of a record with an aware timestamp less than two hours
    ahead of the clock and a vote count that converts to a float. *)
Lemma calculate_score_aware (item : RawItem) (s : string) (t : Z) (w : World) :
  publishedAt item = Some s ->
  fromisoformat (replace_Z s) = Some (Aware t) ->
  votes_in_range item ->
  (-2 < hours (wall w (1 + ticks w) - t))%R ->
  calculate_score item w =
    (Ok (float_result
           (IZR (votes item)
            / Rpower (hours (wall w (1 + ticks w) - t) + 2) 1.5)),
     advance 2 w).
Proof.
  intros Hs Ht Hv Hh.
  rewrite calculate_score_eq. unfold published_at_str. rewrite Hs. cbn [get].
  rewrite Ht, pow_1_5_pos by lra.
  rewrite true_div_quotient; [reflexivity | exact Hv |].
  apply Rgt_not_eq, Rpower_1_5_pos.
Qed.

(** When the timestamp is not ahead of the clock the divisor is above 1 and
    the score is a finite float. *)
Lemma calculate_score_past (item : RawItem) (s : string) (t : Z) (w : World) :
  publishedAt item = Some s ->
  fromisoformat (replace_Z s) = Some (Aware t) ->
  votes_in_range item ->
  (0 <= hours (wall w (1 + ticks w) - t))%R ->
  calculate_score item w =
    (Ok (PyFloat (IZR (votes item)
                  / Rpower (hours (wall w (1 + ticks w) - t) + 2) 1.5)),
     advance 2 w).
Proof.
  intros Hs Ht Hv Hh.
  rewrite (calculate_score_aware item s t w Hs Ht Hv) by lra.
  rewrite float_result_in_range; [reflexivity |].
  apply quotient_in_range; [exact Hv |].
  pose proof (Rpower_1_5_ge (hours (wall w (1 + ticks w) - t) + 2)
                ltac:(lra)).
  lra.
Qed.

(** A vote count beyond the floats stops either score at the division,
    whatever the timestamp, as long as it is an aware one. *)
Lemma calculate_score_overflow (item : RawItem) (s : string) (t : Z)
    (w : World) :
  publishedAt item = Some s ->
  fromisoformat (replace_Z s) = Some (Aware t) ->
  float_limit <= Z.abs (votes item) ->
  calculate_score item w = (Raise OverflowError, advance 2 w).
Proof.
  intros Hs Ht Hv.
  rewrite calculate_score_eq. unfold published_at_str. rewrite Hs. cbn [get].
  rewrite Ht, true_div_overflow by exact Hv. reflexivity.
Qed.

(** The Rising score of a record with an aware timestamp that is not exactly
    one hour ahead of the clock. *)
Lemma calculate_rising_score_aware (item : RawItem) (s : string) (t : Z)
    (w : World) :
  publishedAt item = Some s ->
  fromisoformat (replace_Z s) = Some (Aware t) ->
  votes_in_range item ->
  (hours (wall w (1 + ticks w) - t) + 1 <> 0)%R ->
  calculate_rising_score item w =
    (Ok (float_result
           (IZR (votes item) / (hours (wall w (1 + ticks w) - t) + 1))),
     advance 2 w).
Proof.
  intros Hs Ht Hv Hh.
  rewrite calculate_rising_score_eq. unfold published_at_str. rewrite Hs.
  cbn [get]. rewrite Ht, true_div_quotient by assumption. reflexivity.
Qed.

Lemma calculate_rising_score_past (item : RawItem) (s : string) (t : Z)
    (w : World) :
  publishedAt item = Some s ->
  fromisoformat (replace_Z s) = Some (Aware t) ->
  votes_in_range item ->
  (0 <= hours (wall w (1 + ticks w) - t))%R ->
  calculate_rising_score item w =
    (Ok (PyFloat (IZR (votes item) / (hours (wall w (1 + ticks w) - t) + 1))),
     advance 2 w).
Proof.
  intros Hs Ht Hv Hh.
  rewrite (calculate_rising_score_aware item s t w Hs Ht Hv) by lra.
  rewrite float_result_in_range; [reflexivity |].
  apply quotient_in_range; [exact Hv | lra].
Qed.

Lemma calculate_rising_score_overflow (item : RawItem) (s : string) (t : Z)
    (w : World) :
  publishedAt item = Some s ->
  fromisoformat (replace_Z s) = Some (Aware t) ->
  float_limit <= Z.abs (votes item) ->
  calculate_rising_score item w = (Raise OverflowError, advance 2 w).
Proof.
  intros Hs Ht Hv.
  rewrite calculate_rising_score_eq. unfold published_at_str. rewrite Hs.
  cbn [get]. rewrite Ht, true_div_overflow by exact Hv. reflexivity.
Qed.

End ScoringFacts.

Lemma div_nonneg (v : Z) (d : R) : 0 <= v -> (0 < d)%R -> (0 <= IZR v / d)%R.
Proof.
  intros Hv Hd. apply Rmult_le_pos.
  - apply IZR_le in Hv. exact Hv.
  - left. apply Rinv_0_lt_compat, Hd.
Qed.

Lemma div_antitone (v : Z) (d d' : R) :
  0 <= v -> (0 < d)%R -> (d <= d')%R -> (IZR v / d' <= IZR v / d)%R.
Proof.
  intros Hv Hd Hdd'. apply IZR_le in Hv.
  apply Rmult_le_compat_l; [exact Hv |].
  apply Rinv_le_contravar; assumption.
Qed.

Lemma float_limit_pos : (0 < IZR float_limit)%R.
Proof. apply IZR_lt. reflexivity. Qed.

Lemma float_result_0 : float_result 0 = PyFloat 0.
Proof.
  apply float_result_in_range. rewrite Rabs_R0. apply float_limit_pos.
Qed.

(** A greater quotient is delivered as a float that is not smaller. *)
Lemma float_result_monotone (q q' : R) :
  (q' <= q)%R -> pynum_le (float_result q') (float_result q).
Proof.
  intros Hle. pose proof float_limit_pos as Hpos. unfold float_result, Rltb.
  destruct (Rle_dec (IZR float_limit) (Rabs q')) as [Hq' | Hq'],
           (Rle_dec (IZR float_limit) (Rabs q)) as [Hq | Hq];
    destruct (Rlt_dec q' 0), (Rlt_dec q 0); cbn; auto;
    revert Hq' Hq; unfold Rabs;
    destruct (Rcase_abs q'), (Rcase_abs q); intros; lra.
Qed.

(** A negative quotient is delivered as a float below 0. *)
Lemma float_result_negative (q : R) :
  (q < 0)%R -> py_lt (float_result q) (PyFloat 0) = Ok true.
Proof.
  intros Hq. unfold float_result, Rltb.
  destruct (Rle_dec (IZR float_limit) (Rabs q)), (Rlt_dec q 0); cbn;
    try reflexivity; try lra.
  unfold Rltb. destruct (Rlt_dec q 0); [reflexivity | lra].
Qed.

(** ** The Hot score *)

(** C1, as amended.  An item with a vote count [v >= 0] that converts to a
    float (below [2**1024 - 2**970]) and whose [publishedAt] parses to an
    instant [h >= 0] hours before the clock reading that [calculate_score]
    subtracts it from has Hot score [v / (h + 2) ** 1.5]; with 10 votes and
    [h] exactly 2 the score is 1.25.  For [h] between -2 and 0 the score is
    that quotient as the floats deliver it, an infinity when it is beyond
    them.  With a greater vote count no score is returned: the division
    raises [OverflowError]. *)
Theorem hot_score_formula `{DatetimeLib} (item : RawItem) (s : string) (t : Z)
    (w : World) :
  publishedAt item = Some s ->
  fromisoformat (replace_Z s) = Some (Aware t) ->
  0 <= votes item ->
  (-2 < hours (wall w (1 + ticks w) - t))%R ->
  let quotient :=
    (IZR (votes item) / Rpower (hours (wall w (1 + ticks w) - t) + 2) 1.5)%R in
  (votes item < float_limit ->
     calculate_score item w = (Ok (float_result quotient), advance 2 w)
     /\ ((0 <= hours (wall w (1 + ticks w) - t))%R ->
         calculate_score item w = (Ok (PyFloat quotient), advance 2 w)))
  /\ (float_limit <= votes item ->
      calculate_score item w = (Raise OverflowError, advance 2 w))
  /\ (votes item = 10 ->
      wall w (1 + ticks w) - t = 7200000000 ->
      calculate_score item w = (Ok (PyFloat 1.25), advance 2 w)).
Proof.
  intros Hs Ht Hv Hh quotient. subst quotient.
  split; [| split].
  - intros Hlimit.
    assert (Hrange : votes_in_range item) by (unfold votes_in_range; lia).
    split; [apply (calculate_score_aware item s t w Hs Ht Hrange Hh) |].
    apply (calculate_score_past item s t w Hs Ht Hrange).
  - intros Hlimit. apply (calculate_score_overflow item s t w Hs Ht). lia.
  - intros Hten Hd.
    assert (Hrange : votes_in_range item).
    { unfold votes_in_range. rewrite Hten. reflexivity. }
    rewrite (calculate_score_past item s t w Hs Ht Hrange).
    + rewrite Hten, Hd. do 3 f_equal.
      unfold hours, total_seconds.
      replace (7200000000 / 1000000 / 3600 + 2)%R with 4%R by lra.
      rewrite Rpower_1_5_of_4. lra.
    + rewrite Hd. unfold hours, total_seconds. lra.
Qed.

Lemma hot_score_formula_witness :
  calculate_score (H := Iso8601.lib) Sample.ten_votes (fresh Sample.ticking)
  = (Ok (PyFloat 1.25), advance 2 (fresh Sample.ticking)).
Proof.
  apply (hot_score_formula (H := Iso8601.lib) Sample.ten_votes
           "2024-08-15T10:00:00.000001Z" 1723716000000001
           (fresh Sample.ticking)).
  - reflexivity.
  - vm_compute. reflexivity.
  - vm_compute. discriminate.
  - cbn. unfold hours, total_seconds. lra.
  - reflexivity.
  - reflexivity.
Defined.

(** C1 as stated fails for a vote count beyond the floats: a record with
    10**400 votes (a valid count, [>= 0]) published two hours before the
    clock reading has no Hot score at all. *)
Lemma hot_score_overflows :
  0 <= votes SampleOverflow.flooded
  /\ publishedAt SampleOverflow.flooded = Some "2024-08-15T10:00:00Z"
  /\ fromisoformat (DatetimeLib := Iso8601.lib)
       (replace_Z "2024-08-15T10:00:00Z")
     = Some (Aware 1723716000000000)
  /\ (0 <= hours (Sample.ticking 1 - 1723716000000000))%R
  /\ calculate_score (H := Iso8601.lib) SampleOverflow.flooded
       (fresh Sample.ticking)
     = (Raise OverflowError, advance 2 (fresh Sample.ticking))
  /\ forall score : pynum,
       fst (calculate_score (H := Iso8601.lib) SampleOverflow.flooded
              (fresh Sample.ticking)) <> Ok score.
Proof.
  assert (E : calculate_score (H := Iso8601.lib) SampleOverflow.flooded
                (fresh Sample.ticking)
              = (Raise OverflowError, advance 2 (fresh Sample.ticking))).
  { apply (calculate_score_overflow (H := Iso8601.lib) SampleOverflow.flooded
             "2024-08-15T10:00:00Z" 1723716000000000).
    - reflexivity.
    - vm_compute. reflexivity.
    - vm_compute. discriminate. }
  split; [vm_compute; discriminate |].
  split; [reflexivity |].
  split; [vm_compute; reflexivity |].
  split; [cbn; unfold hours, total_seconds; lra |].
  split; [exact E |].
  intros score. rewrite E. discriminate.
Qed.

(** C6, as amended.  For a record with an aware timestamp and a valid vote
    count that converts to a float, the Hot score is non-negative at every
    age above -2 hours and the Rising score at every age above -1 hour;
    from age 0 on both are finite floats, while closer to -2 (to -1) hours
    the quotient can be beyond the floats and the score is then [inf].
    With the same vote count the Hot score at a greater age is not above the
    one at a smaller age; with no votes it is 0 at every age. *)
Theorem scores_nonnegative_hot_decreasing `{DatetimeLib}
    (item : RawItem) (s : string) (t : Z) (w : World) :
  publishedAt item = Some s ->
  fromisoformat (replace_Z s) = Some (Aware t) ->
  0 <= votes item < float_limit ->
  (-2 < hours (wall w (1 + ticks w) - t))%R ->
  exists hot : pynum,
    calculate_score item w = (Ok hot, advance 2 w)
    /\ pynum_le (PyFloat 0) hot
    /\ (votes item = 0 -> hot = PyFloat 0)
    /\ ((0 <= hours (wall w (1 + ticks w) - t))%R ->
        exists score rising : R,
          hot = PyFloat score
          /\ calculate_rising_score item w = (Ok (PyFloat rising), advance 2 w)
          /\ (0 <= score)%R /\ (0 <= rising)%R)
    /\ ((-1 < hours (wall w (1 + ticks w) - t))%R ->
        exists rising : pynum,
          calculate_rising_score item w = (Ok rising, advance 2 w)
          /\ pynum_le (PyFloat 0) rising)
    /\ (forall (item' : RawItem) (s' : string) (t' : Z) (w' : World),
          publishedAt item' = Some s' ->
          fromisoformat (replace_Z s') = Some (Aware t') ->
          votes item' = votes item ->
          (hours (wall w (1 + ticks w) - t)
           < hours (wall w' (1 + ticks w') - t'))%R ->
          exists hot' : pynum,
            calculate_score item' w' = (Ok hot', advance 2 w')
            /\ pynum_le hot' hot).
Proof.
  intros Hs Ht [Hv Hlimit] Hh.
  assert (Hrange : votes_in_range item) by (unfold votes_in_range; lia).
  set (age := hours (wall w (1 + ticks w) - t)) in *.
  eexists. split; [apply (calculate_score_aware item s t w Hs Ht Hrange Hh) |].
  fold age.
  split; [| split; [| split; [| split]]].
  - rewrite <- float_result_0. apply float_result_monotone.
    apply div_nonneg; [exact Hv | apply Rpower_1_5_pos].
  - intros ->. unfold Rdiv. rewrite Rmult_0_l. apply float_result_0.
  - intros Hage.
    exists (IZR (votes item) / Rpower (age + 2) 1.5)%R,
           (IZR (votes item) / (age + 1))%R.
    split; [| split; [| split]].
    + apply float_result_in_range, quotient_in_range; [exact Hrange |].
      pose proof (Rpower_1_5_ge (age + 2) ltac:(lra)). lra.
    + apply (calculate_rising_score_past item s t w Hs Ht Hrange Hage).
    + apply div_nonneg; [exact Hv | apply Rpower_1_5_pos].
    + apply div_nonneg; [exact Hv | lra].
  - intros Hage. eexists. split.
    + apply (calculate_rising_score_aware item s t w Hs Ht Hrange).
      fold age. lra.
    + fold age. rewrite <- float_result_0. apply float_result_monotone.
      apply div_nonneg; [exact Hv | lra].
  - intros item' s' t' w' Hs' Ht' Hvv Hlt.
    assert (Hrange' : votes_in_range item')
      by (unfold votes_in_range; rewrite Hvv; exact Hrange).
    eexists. split.
    + apply (calculate_score_aware item' s' t' w' Hs' Ht' Hrange'). lra.
    + rewrite Hvv. apply float_result_monotone.
      apply div_antitone; [exact Hv | apply Rpower_1_5_pos |].
      apply Rle_Rpower_l; lra.
Qed.

Lemma scores_nonnegative_hot_decreasing_witness :
  exists hot hot' : pynum,
    calculate_score (H := Iso8601.lib) SampleVotes.voted (fresh Sample.ticking)
      = (Ok hot, advance 2 (fresh Sample.ticking))
    /\ calculate_score (H := Iso8601.lib) SampleVotes.stale (fresh Sample.ticking)
      = (Ok hot', advance 2 (fresh Sample.ticking))
    /\ pynum_le (PyFloat 0) hot /\ pynum_le hot' hot.
Proof.
  destruct (scores_nonnegative_hot_decreasing (H := Iso8601.lib)
              SampleVotes.voted "2024-08-15T10:00:00Z" 1723716000000000
              (fresh Sample.ticking))
    as (hot & Hhot & Hnonneg & _ & _ & _ & Hmono).
  - reflexivity.
  - vm_compute. reflexivity.
  - vm_compute. split; [discriminate | reflexivity].
  - cbn. unfold hours, total_seconds. lra.
  - destruct (Hmono SampleVotes.stale "2024-08-14T12:00:00Z" 1723636800000000
                (fresh Sample.ticking))
      as (hot' & Hhot' & Hle).
    + reflexivity.
    + vm_compute. reflexivity.
    + reflexivity.
    + cbn. unfold hours, total_seconds. lra.
    + exists hot, hot'. repeat split; assumption.
Defined.

(** C6 as stated fails without votes: two records with the valid vote count
    0, the second an hour older than the first, have the same Hot score. *)
Lemma hot_score_not_strictly_decreasing :
  exists hot hot' : R,
    calculate_score (H := Iso8601.lib) SampleVotes.newer (fresh Sample.ticking)
      = (Ok (PyFloat hot), advance 2 (fresh Sample.ticking))
    /\ calculate_score (H := Iso8601.lib) SampleVotes.older (fresh Sample.ticking)
      = (Ok (PyFloat hot'), advance 2 (fresh Sample.ticking))
    /\ 0 <= votes SampleVotes.newer
    /\ votes SampleVotes.older = votes SampleVotes.newer
    /\ (-2 < hours (Sample.ticking 1 - 1723719600000000)
        < hours (Sample.ticking 1 - 1723716000000000))%R
    /\ ~ (hot' < hot)%R.
Proof.
  exists (IZR 0 / Rpower (hours (Sample.ticking 1 - 1723719600000000) + 2) 1.5)%R,
         (IZR 0 / Rpower (hours (Sample.ticking 1 - 1723716000000000) + 2) 1.5)%R.
  assert (Hnew : (0 <= hours (Sample.ticking 1 - 1723719600000000))%R)
    by (cbn; unfold hours, total_seconds; lra).
  assert (Hold : (hours (Sample.ticking 1 - 1723719600000000)
                  < hours (Sample.ticking 1 - 1723716000000000))%R)
    by (cbn; unfold hours, total_seconds; lra).
  split; [| split; [| split; [| split; [| split]]]].
  - apply (calculate_score_past (H := Iso8601.lib) SampleVotes.newer
             "2024-08-15T11:00:00Z" 1723719600000000 (fresh Sample.ticking)).
    + reflexivity.
    + vm_compute. reflexivity.
    + vm_compute. reflexivity.
    + exact Hnew.
  - apply (calculate_score_past (H := Iso8601.lib) SampleVotes.older
             "2024-08-15T10:00:00Z" 1723716000000000 (fresh Sample.ticking)).
    + reflexivity.
    + vm_compute. reflexivity.
    + vm_compute. reflexivity.
    + cbn. unfold hours, total_seconds. lra.
  - vm_compute. discriminate.
  - reflexivity.
  - split; [lra | assumption].
  - unfold Rdiv. rewrite !Rmult_0_l. lra.
Qed.

(** Nor is the Hot score always finite: with 10**300 votes on a record dated
    one microsecond less than two hours ahead, the quotient is beyond the
    floats and the score is [inf]. *)
Lemma hot_score_infinite :
  0 <= votes SampleOverflow.crowded < float_limit
  /\ (-2 < hours (Sample.ticking 1 - 1723730400000000))%R
  /\ calculate_score (H := Iso8601.lib) SampleOverflow.crowded
       (fresh Sample.ticking)
     = (Ok (PyInf false), advance 2 (fresh Sample.ticking)).
Proof.
  assert (Hage : (hours (Sample.ticking 1 - 1723730400000000) + 2
                  = / 3600000000)%R).
  { cbn. unfold hours, total_seconds. lra. }
  split; [vm_compute; split; [discriminate | reflexivity] |].
  split; [lra |].
  rewrite (calculate_score_aware (H := Iso8601.lib) SampleOverflow.crowded
             "2024-08-15T14:00:00Z" 1723730400000000 (fresh Sample.ticking));
    [| reflexivity | vm_compute; reflexivity | vm_compute; reflexivity
     | change (wall (fresh Sample.ticking) (1 + ticks (fresh Sample.ticking)))
         with (Sample.ticking 1); lra].
  change (wall (fresh Sample.ticking) (1 + ticks (fresh Sample.ticking)))
    with (Sample.ticking 1).
  rewrite Hage.
  change (votes SampleOverflow.crowded) with (10 ^ 300).
  assert (Hlimit : (IZR float_limit <= IZR (10 ^ 300) * 3600000000)%R).
  { rewrite <- mult_IZR. apply IZR_le. vm_compute. discriminate. }
  assert (Hvotes : (0 < IZR (10 ^ 300))%R) by (apply IZR_lt; reflexivity).
  pose proof float_limit_pos as Hpos.
  set (limit := IZR float_limit) in *. set (v := IZR (10 ^ 300)) in *.
  assert (Hpow : (0 < Rpower (/ 3600000000) 1.5 <= / 3600000000)%R).
  { split; [apply Rpower_1_5_pos |].
    rewrite Rpower_1_5 by lra.
    assert (Hs : (sqrt (/ 3600000000) <= 1)%R).
    { rewrite <- sqrt_1. apply sqrt_le_1; lra. }
    pose proof (sqrt_pos (/ 3600000000)). nra. }
  assert (Hinv : (3600000000 <= / Rpower (/ 3600000000) 1.5)%R).
  { rewrite <- (Rinv_inv 3600000000) at 1.
    apply Rinv_le_contravar; [apply Hpow | apply Hpow]. }
  assert (Hq : (limit <= v / Rpower (/ 3600000000) 1.5)%R).
  { unfold Rdiv. nra. }
  rewrite float_result_beyond.
  - rewrite Rltb_false by lra. reflexivity.
  - rewrite Rabs_pos_eq by lra. exact Hq.
Qed.

(** ** Worlds *)

Lemma advance_advance (n m : nat) (w : World) :
  advance n (advance m w) = advance (n + m) w.
Proof. unfold advance. cbn. f_equal. apply Nat.add_assoc. Qed.

Lemma advance_0 (w : World) : advance 0 w = w.
Proof. destruct w. reflexivity. Qed.

Lemma clock_only_ret {A : Type} (a : A) : clock_only (ret a).
Proof. intros w. exists 0%nat. symmetry. apply advance_0. Qed.

Lemma for_each_clock_only {A B : Type} (f : A -> M B) (l : list A) :
  (forall x, clock_only (f x)) -> clock_only (for_each f l).
Proof.
  intros Hf. induction l as [| x l IH]; intros w; cbn.
  - exists 0%nat. symmetry. apply advance_0.
  - unfold bind. destruct (Hf x w) as [n Hn].
    destruct (f x w) as [[y | e] w1]; cbn in Hn; subst w1.
    + destruct (IH (advance n w)) as [m Hm].
      destruct (for_each f l (advance n w)) as [[ys | e] w2]; cbn in Hm |- *;
        subst w2; exists (m + n)%nat; apply advance_advance.
    + exists n. reflexivity.
Qed.

Lemma for_each_length {A B : Type} (f : A -> M B) (l : list A) (w w' : World)
    (ys : list B) :
  for_each f l w = (Ok ys, w') -> List.length ys = List.length l.
Proof.
  revert w w' ys. induction l as [| x l IH]; intros w w' ys; cbn.
  - intros [= <- _]. reflexivity.
  - unfold bind. destruct (f x w) as [[y | e] w1]; [| discriminate].
    destruct (for_each f l w1) as [[ys' | e] w2] eqn:E; [| discriminate].
    intros [= <- _]. cbn. f_equal. eapply IH, E.
Qed.

Lemma map_snd_combine {A B : Type} (ks : list A) (l : list B) :
  List.length ks = List.length l -> map snd (combine ks l) = l.
Proof.
  revert l. induction ks as [| k ks IH]; intros [| x l]; cbn;
    try discriminate; try reflexivity.
  intros [= Hlen]. f_equal. apply IH, Hlen.
Qed.

Section ManagerFacts.
Context `{DatetimeLib}.

Lemma calculate_score_clock_only (item : RawItem) :
  clock_only (calculate_score item).
Proof.
  intros w. rewrite calculate_score_eq.
  destruct (fromisoformat _) as [[t | t] |]; eexists; reflexivity.
Qed.

Lemma calculate_rising_score_clock_only (item : RawItem) :
  clock_only (calculate_rising_score item).
Proof.
  intros w. rewrite calculate_rising_score_eq.
  destruct (fromisoformat _) as [[t | t] |]; eexists; reflexivity.
Qed.

Lemma published_key_clock_only (item : RawItem) :
  clock_only (published_key item).
Proof. apply clock_only_ret. Qed.

(** *** [sort_papers] *)

Lemma sort_papers_eq (w : World) :
  sort_papers w =
  if String.eqb (sort_method (paper_manager w)) "new" then
    sort_by published_key w
  else if String.eqb (sort_method (paper_manager w)) "rising" then
    sort_by calculate_rising_score w
  else sort_by calculate_score w.
Proof.
  unfold sort_papers, sort_by, bind, self. cbn.
  destruct (String.eqb (sort_method (paper_manager w)) "hot") eqn:Ehot.
  - apply String.eqb_eq in Ehot. rewrite Ehot. reflexivity.
  - destruct (String.eqb _ "new"); [reflexivity |].
    destruct (String.eqb _ "rising"); reflexivity.
Qed.

Lemma sort_by_ok {K : Type} `{PyOrd K} (key : RawItem -> M K) (w w' : World) :
  (forall x, clock_only (key x)) ->
  sort_by key w = (Ok tt, w') ->
  exists (ks : list K) (r : list (K * RawItem)) (n : nat),
    for_each key (raw_papers (paper_manager w)) w = (Ok ks, advance n w)
    /\ List.length ks = List.length (raw_papers (paper_manager w))
    /\ sort_decorated (combine ks (raw_papers (paper_manager w))) = Ok r
    /\ w' = with_manager (set_papers (map snd r)) (advance n w).
Proof.
  intros Hkey. unfold sort_by, sorted_reverse, bind, self, lift, update, ret.
  destruct (for_each_clock_only key (raw_papers (paper_manager w)) Hkey w)
    as [n Hn].
  destruct (for_each key _ w) as [[ks | e] w1] eqn:E; cbn in Hn; subst w1;
    [| discriminate].
  destruct (sort_decorated _) as [r | e] eqn:Es; [| discriminate].
  intros [= <-]. exists ks, r, n. repeat split; try assumption.
  eapply for_each_length, E.
Qed.

Lemma sort_by_raise {K : Type} `{PyOrd K} (key : RawItem -> M K) (w w' : World)
    (e : exn) :
  (forall x, clock_only (key x)) ->
  sort_by key w = (Raise e, w') ->
  exists n, w' = advance n w.
Proof.
  intros Hkey. unfold sort_by, sorted_reverse, bind, self, lift, update, ret.
  destruct (for_each_clock_only key (raw_papers (paper_manager w)) Hkey w)
    as [n Hn].
  destruct (for_each key _ w) as [[ks | e'] w1] eqn:E; cbn in Hn; subst w1.
  - destruct (sort_decorated _) as [r | e'']; [discriminate |].
    intros [= _ <-]. exists n. reflexivity.
  - intros [= _ <-]. exists n. reflexivity.
Qed.

Lemma sort_by_total {K : Type} `{PyOrd K} (key : RawItem -> M K) (w w1 : World)
    (ks : list K) :
  for_each key (raw_papers (paper_manager w)) w = (Ok ks, w1) ->
  comparable (combine ks (raw_papers (paper_manager w))) ->
  exists w', sort_by key w = (Ok tt, w').
Proof.
  intros E Hc. unfold sort_by, sorted_reverse, bind, self, lift, update, ret.
  rewrite E. destruct (sort_decorated_total _ Hc) as [r ->].
  eexists. reflexivity.
Qed.

End ManagerFacts.

(** ** Keys that are all computed and all floats *)

Lemma for_each_all {A B : Type} (f : A -> M B) (P : B -> Prop)
    (clock : nat -> Z) (l : list A) :
  (forall x, In x l -> forall w, wall w = clock ->
     exists y n, f x w = (Ok y, advance n w) /\ P y) ->
  forall w, wall w = clock ->
    exists ys n, for_each f l w = (Ok ys, advance n w) /\ Forall P ys.
Proof.
  induction l as [| x l IH]; intros Hf w Hw; cbn.
  - exists [], 0%nat. rewrite advance_0. split; [reflexivity | constructor].
  - unfold bind.
    destruct (Hf x (or_introl eq_refl) w Hw) as (y & n & -> & Py).
    destruct (IH (fun x' Hx' => Hf x' (or_intror Hx')) (advance n w) Hw)
      as (ys & m & -> & Pys).
    exists (y :: ys), (m + n)%nat. rewrite advance_advance.
    split; [reflexivity | constructor; assumption].
Qed.

Lemma floats_comparable {A : Type} (ks : list pynum) (l : list A) :
  Forall is_float ks -> comparable (combine ks l).
Proof.
  intros Hks [a x] [b y] Ha Hb. cbn.
  apply in_combine_l in Ha, Hb.
  rewrite Forall_forall in Hks.
  destruct (Hks a Ha) as [ra ->], (Hks b Hb) as [rb ->].
  eexists. reflexivity.
Qed.

Lemma strings_comparable {A : Type} (l : list (string * A)) : comparable l.
Proof. intros x y _ _. eexists. reflexivity. Qed.

Lemma hours_nonneg (d : Z) : 0 <= d -> (0 <= hours d)%R.
Proof.
  intros Hd. apply IZR_le in Hd. unfold hours, total_seconds. lra.
Qed.

Section SortPapers.
Context `{DatetimeLib}.

Lemma scores_of_published (l : list RawItem) (w : World) :
  Forall (published_before (wall w)) l ->
  Forall votes_in_range l ->
  exists ks n,
    for_each calculate_score l w = (Ok ks, advance n w) /\ Forall is_float ks.
Proof.
  intros Hl Hvotes. apply (for_each_all _ _ (wall w)); [| reflexivity].
  intros x Hx w1 Hw1. rewrite Forall_forall in Hl, Hvotes.
  destruct (Hl x Hx) as (s & t & Hs & Ht & Hclock).
  assert (Hh : (0 <= hours (wall w1 (1 + ticks w1) - t))%R).
  { apply hours_nonneg. rewrite Hw1. specialize (Hclock (1 + ticks w1)%nat). lia. }
  eexists _, 2%nat. split.
  - apply (calculate_score_past x s t w1 Hs Ht (Hvotes x Hx) Hh).
  - eexists. reflexivity.
Qed.

Lemma rising_scores_of_published (l : list RawItem) (w : World) :
  Forall (published_before (wall w)) l ->
  Forall votes_in_range l ->
  exists ks n,
    for_each calculate_rising_score l w = (Ok ks, advance n w)
    /\ Forall is_float ks.
Proof.
  intros Hl Hvotes. apply (for_each_all _ _ (wall w)); [| reflexivity].
  intros x Hx w1 Hw1. rewrite Forall_forall in Hl, Hvotes.
  destruct (Hl x Hx) as (s & t & Hs & Ht & Hclock).
  assert (Hh : (0 <= hours (wall w1 (1 + ticks w1) - t))%R).
  { apply hours_nonneg. rewrite Hw1. specialize (Hclock (1 + ticks w1)%nat). lia. }
  eexists _, 2%nat. split.
  - apply (calculate_rising_score_past x s t w1 Hs Ht (Hvotes x Hx) Hh).
  - eexists. reflexivity.
Qed.

Lemma published_keys (l : list RawItem) (w : World) :
  for_each published_key l w
  = (Ok (map (fun x => get (publishedAt x) EmptyString) l), w).
Proof.
  induction l as [| x l IH]; cbn; [reflexivity |].
  unfold bind. cbn. rewrite IH. reflexivity.
Qed.

Lemma sort_by_perm {K : Type} `{PyOrd K} (key : RawItem -> M K) (w w' : World) :
  (forall x, clock_only (key x)) ->
  sort_by key w = (Ok tt, w') ->
  Permutation (raw_papers (paper_manager w)) (papers (paper_manager w'))
  /\ raw_papers (paper_manager w') = raw_papers (paper_manager w).
Proof.
  intros Hkey Hsort.
  destruct (sort_by_ok key w w' Hkey Hsort) as (ks & r & n & _ & Hlen & Hr & ->).
  cbn. split; [| reflexivity].
  apply sort_decorated_perm in Hr.
  rewrite <- (map_snd_combine ks (raw_papers (paper_manager w)) Hlen) at 1.
  apply Permutation_map, Hr.
Qed.

(** Whatever the method, [sort_papers] either stores a permutation of the
    raw collection or raises and leaves the session as it was. *)
Lemma sort_papers_ok (w w' : World) :
  sort_papers w = (Ok tt, w') ->
  Permutation (raw_papers (paper_manager w)) (papers (paper_manager w'))
  /\ raw_papers (paper_manager w') = raw_papers (paper_manager w).
Proof.
  rewrite sort_papers_eq.
  destruct (String.eqb _ "new"); [| destruct (String.eqb _ "rising")].
  - apply sort_by_perm, published_key_clock_only.
  - apply sort_by_perm, calculate_rising_score_clock_only.
  - apply sort_by_perm, calculate_score_clock_only.
Qed.

Lemma sort_papers_raise (w w' : World) (e : exn) :
  sort_papers w = (Raise e, w') -> exists n, w' = advance n w.
Proof.
  rewrite sort_papers_eq.
  destruct (String.eqb _ "new"); [| destruct (String.eqb _ "rising")].
  - apply sort_by_raise, published_key_clock_only.
  - apply sort_by_raise, calculate_rising_score_clock_only.
  - apply sort_by_raise, calculate_score_clock_only.
Qed.

Lemma sort_papers_published (w : World) :
  Forall (published_before (wall w)) (raw_papers (paper_manager w)) ->
  Forall votes_in_range (raw_papers (paper_manager w)) ->
  exists w', sort_papers w = (Ok tt, w').
Proof.
  intros Hraw Hvotes. rewrite sort_papers_eq.
  destruct (String.eqb _ "new"); [| destruct (String.eqb _ "rising")].
  - eapply sort_by_total; [apply published_keys | apply strings_comparable].
  - destruct (rising_scores_of_published _ w Hraw Hvotes) as (ks & n & E & Hks).
    eapply sort_by_total; [exact E | apply floats_comparable, Hks].
  - destruct (scores_of_published _ w Hraw Hvotes) as (ks & n & E & Hks).
    eapply sort_by_total; [exact E | apply floats_comparable, Hks].
Qed.

Lemma sort_papers_new (w : World) :
  sort_method (paper_manager w) = "new" ->
  exists w', sort_papers w = (Ok tt, w').
Proof.
  intros Hnew. rewrite sort_papers_eq, Hnew. cbn.
  eapply sort_by_total; [apply published_keys | apply strings_comparable].
Qed.

Lemma sort_papers_empty (w : World) :
  raw_papers (paper_manager w) = [] ->
  sort_papers w = (Ok tt, with_manager (set_papers []) w).
Proof.
  intros Hraw. rewrite sort_papers_eq.
  unfold sort_by, sorted_reverse, bind, self. rewrite Hraw.
  destruct (String.eqb _ "new"); [| destruct (String.eqb _ "rising")];
    reflexivity.
Qed.

End SortPapers.

(** ** A score that is a complex *)

Lemma in_combine_key {K A : Type} (k : K) (ks : list K) (l : list A) :
  In k ks -> List.length ks = List.length l ->
  exists a, In (k, a) (combine ks l).
Proof.
  revert l. induction ks as [| k' ks IH]; intros [| a l]; cbn;
    try contradiction; try discriminate.
  intros [-> | Hin] [= Hlen].
  - exists a. left. reflexivity.
  - destruct (IH l Hin Hlen) as [a' Ha']. exists a'. right. exact Ha'.
Qed.

Section ComplexScore.
Context `{DatetimeLib}.

Lemma sort_by_complex (key : RawItem -> M pynum) (w w1 : World)
    (ks : list pynum) :
  for_each key (raw_papers (paper_manager w)) w = (Ok ks, w1) ->
  In PyComplex ks ->
  (2 <= List.length (raw_papers (paper_manager w)))%nat ->
  sort_by key w = (Raise TypeError, w1).
Proof.
  intros E Hin Hlen.
  pose proof (for_each_length _ _ _ _ _ E) as Hks.
  destruct (in_combine_key _ _ _ Hin Hks) as [item Hitem].
  unfold sort_by, sorted_reverse, bind, self, lift. rewrite E.
  rewrite (sort_decorated_complex _ _ Hitem eq_refl); [reflexivity |].
  rewrite length_combine, Hks, Nat.min_id. exact Hlen.
Qed.

Lemma calculate_score_ahead (item : RawItem) (s : string) (t : Z) (w : World) :
  publishedAt item = Some s ->
  fromisoformat (replace_Z s) = Some (Aware t) ->
  votes_in_range item ->
  (hours (wall w (1 + ticks w) - t) < -2)%R ->
  calculate_score item w = (Ok PyComplex, advance 2 w).
Proof.
  intros Hs Ht Hv Hage.
  rewrite calculate_score_eq. unfold published_at_str. rewrite Hs. cbn [get].
  rewrite Ht, pow_1_5_neg by lra. rewrite true_div_complex by exact Hv.
  reflexivity.
Qed.

End ComplexScore.

(** The forty-five records of [SamplePages.collection] can be scored on the
    clock [Sample.ticking]. *)
Lemma sample_pages_published :
  Forall (published_before (H := Iso8601.lib) Sample.ticking)
    SamplePages.collection
  /\ Forall votes_in_range SamplePages.collection.
Proof.
  split; apply Forall_forall; intros item Hitem;
    apply in_map_iff in Hitem as (i & <- & Hi); apply in_seq in Hi.
  - exists "2024-08-15T08:00:00Z", 1723708800000000.
    split; [reflexivity | split; [vm_compute; reflexivity |]].
    intros n. unfold Sample.ticking, Sample.noon. lia.
  - unfold votes_in_range. apply float_limit_above.
    change (votes (Sample.record (Z.of_nat i) "2024-08-15T08:00:00Z"))
      with (Z.of_nat i).
    apply Z.lt_trans with 46; [lia | reflexivity].
Qed.

(** C8.  Under every method [sort_papers] stores a list of the same length
    as the raw collection and a permutation of it; when a key or a
    comparison raises, nothing is stored.  It does store one under "new", for
    the empty collection (the empty list), and whenever every record carries
    an aware timestamp that is not in the future and a vote count that
    converts to a float. *)
Theorem sort_papers_permutation `{DatetimeLib} (w : World) :
  (forall w', sort_papers w = (Ok tt, w') ->
     Permutation (raw_papers (paper_manager w)) (papers (paper_manager w'))
     /\ List.length (papers (paper_manager w'))
        = List.length (raw_papers (paper_manager w)))
  /\ (forall e w', sort_papers w = (Raise e, w') ->
        paper_manager w' = paper_manager w)
  /\ (sort_method (paper_manager w) = "new" ->
        exists w', sort_papers w = (Ok tt, w'))
  /\ (raw_papers (paper_manager w) = [] ->
        exists w', sort_papers w = (Ok tt, w')
                   /\ papers (paper_manager w') = [])
  /\ (Forall (published_before (wall w)) (raw_papers (paper_manager w)) ->
      Forall votes_in_range (raw_papers (paper_manager w)) ->
        exists w', sort_papers w = (Ok tt, w')).
Proof.
  split; [| split; [| split; [| split]]].
  - intros w' Hsort. destruct (sort_papers_ok w w' Hsort) as [Hperm _].
    split; [exact Hperm |]. symmetry. apply Permutation_length, Hperm.
  - intros e w' Hsort. destruct (sort_papers_raise w w' e Hsort) as [n ->].
    reflexivity.
  - apply sort_papers_new.
  - intros Hraw. eexists. split; [apply sort_papers_empty, Hraw | reflexivity].
  - apply sort_papers_published.
Qed.

Lemma sort_papers_permutation_witness :
  exists w',
    sort_papers (H := Iso8601.lib)
      (SampleSession.loaded "hot" SampleSession.collection) = (Ok tt, w')
    /\ Permutation SampleSession.collection (papers (paper_manager w'))
    /\ List.length (papers (paper_manager w')) = 4%nat.
Proof.
  destruct (sort_papers_permutation (H := Iso8601.lib)
              (SampleSession.loaded "hot" SampleSession.collection))
    as (Hok & _ & _ & _ & Htotal).
  destruct Htotal as [w' Hw'].
  - repeat constructor.
    + exists "2024-08-15T08:00:00Z", 1723708800000000.
      split; [reflexivity | split; [vm_compute; reflexivity |]].
      intros n. cbn [wall SampleSession.loaded with_manager fresh].
      unfold Sample.ticking, Sample.noon. lia.
    + exists "2024-08-15T08:00:00Z", 1723708800000000.
      split; [reflexivity | split; [vm_compute; reflexivity |]].
      intros n. cbn [wall SampleSession.loaded with_manager fresh].
      unfold Sample.ticking, Sample.noon. lia.
    + exists "2024-08-15T10:00:00Z", 1723716000000000.
      split; [reflexivity | split; [vm_compute; reflexivity |]].
      intros n. cbn [wall SampleSession.loaded with_manager fresh].
      unfold Sample.ticking, Sample.noon. lia.
    + exists "2024-08-15T08:00:00Z", 1723708800000000.
      split; [reflexivity | split; [vm_compute; reflexivity |]].
      intros n. cbn [wall SampleSession.loaded with_manager fresh].
      unfold Sample.ticking, Sample.noon. lia.
  - repeat constructor.
  - exists w'. destruct (Hok w' Hw') as [Hperm Hlen].
    repeat split; assumption.
Defined.

(** ** Stability *)

Lemma filter_map_snd {K A : Type} (p : A -> bool) (l : list (K * A)) :
  filter p (map snd l) = map snd (filter (fun x => p (snd x)) l).
Proof.
  induction l as [| x l IH]; cbn; [reflexivity |].
  destruct (p (snd x)); cbn; rewrite IH; reflexivity.
Qed.

Lemma pynum_eqb_unordered (k a b : pynum) :
  pynum_eqb a k = true -> pynum_eqb b k = true -> py_lt a b <> Ok true.
Proof.
  destruct k as [x | negative |], a as [xa | na |], b as [xb | nb |]; cbn;
    try discriminate.
  - destruct (Req_dec_T xa x); [| discriminate].
    destruct (Req_dec_T xb x); [| discriminate].
    intros _ _. subst. unfold Rltb. destruct (Rlt_dec x x); [lra | discriminate].
  - intros Ha Hb. apply eqb_prop in Ha, Hb. subst.
    destruct negative; discriminate.
Qed.

Lemma string_ltb_irrefl (s : string) : String.ltb s s = false.
Proof.
  unfold String.ltb. pose proof (String.compare_antisym s s) as E.
  destruct (String.compare s s); try reflexivity. discriminate E.
Qed.

Lemma string_eqb_unordered (k a b : string) :
  String.eqb a k = true -> String.eqb b k = true -> py_lt a b <> Ok true.
Proof.
  intros Ha Hb. apply String.eqb_eq in Ha, Hb. subst.
  change (py_lt k k) with (@Ok bool (String.ltb k k)).
  rewrite string_ltb_irrefl. discriminate.
Qed.

Lemma combine_map_fst {A B : Type} (f : A -> B) (l : list A) (x : B * A) :
  In x (combine (map f l) l) -> fst x = f (snd x).
Proof.
  induction l as [| a l IH]; cbn; [contradiction |].
  intros [<- | Hx]; [reflexivity | apply IH, Hx].
Qed.

Section Stability.
Context `{DatetimeLib}.

Lemma sort_by_stable (key : RawItem -> M pynum) (w w' : World) :
  (forall x, clock_only (key x)) ->
  sort_by key w = (Ok tt, w') ->
  exists (ks : list pynum) (r : list (pynum * RawItem)) (w1 : World),
    for_each key (raw_papers (paper_manager w)) w = (Ok ks, w1)
    /\ List.length ks = List.length (raw_papers (paper_manager w))
    /\ map snd r = papers (paper_manager w')
    /\ Permutation (combine ks (raw_papers (paper_manager w))) r
    /\ forall k,
         filter (fun x => pynum_eqb (fst x) k) r
         = filter (fun x => pynum_eqb (fst x) k)
             (combine ks (raw_papers (paper_manager w))).
Proof.
  intros Hkey Hsort.
  destruct (sort_by_ok key w w' Hkey Hsort) as (ks & r & n & E & Hlen & Hr & ->).
  exists ks, r, (advance n w). repeat split; try assumption.
  - apply sort_decorated_perm, Hr.
  - intros k. apply (sort_decorated_filter _ (fun x y => pynum_eqb_unordered k _ _) _ _ Hr).
Qed.

Lemma sort_by_published_stable (w w' : World) (k : string) :
  sort_by published_key w = (Ok tt, w') ->
  filter (fun x => String.eqb (get (publishedAt x) EmptyString) k)
    (papers (paper_manager w'))
  = filter (fun x => String.eqb (get (publishedAt x) EmptyString) k)
      (raw_papers (paper_manager w)).
Proof.
  intros Hsort.
  destruct (sort_by_ok published_key w w' published_key_clock_only Hsort)
    as (ks & r & n & E & Hlen & Hr & ->).
  rewrite published_keys in E. injection E as <- _.
  cbn [paper_manager with_manager papers set_papers].
  set (raw := raw_papers (paper_manager w)) in *.
  set (key := fun x : RawItem => get (publishedAt x) EmptyString) in *.
  transitivity
    (map snd (filter (fun x : string * RawItem => String.eqb (key (snd x)) k)
                (combine (map key raw) raw))).
  - rewrite filter_map_snd. f_equal.
    assert (Hfst : forall x, In x r -> fst x = key (snd x)).
    { intros x Hx. apply (combine_map_fst key raw).
      eapply Permutation_in; [| exact Hx].
      apply Permutation_sym, sort_decorated_perm, Hr. }
    rewrite (filter_ext_in (fun x => String.eqb (key (snd x)) k)
                           (fun x => String.eqb (fst x) k)).
    + rewrite (sort_decorated_filter _
                 (fun x y => string_eqb_unordered k _ _) _ _ Hr).
      apply filter_ext_in. intros x Hx.
      rewrite (combine_map_fst key raw x Hx). reflexivity.
    + intros x Hx. rewrite (Hfst x Hx). reflexivity.
  - rewrite <- (filter_map_snd (fun x => String.eqb (key x) k)).
    rewrite map_snd_combine by exact Hlen. reflexivity.
Qed.

End Stability.

(** C9.  When [sort_papers] stores a list, the records that share a sort key
    stand in it in their input order.  Under "new" the key is the raw
    [publishedAt]; under the other methods it is the score computed for the
    record in this pass ([ks], in input order), and the stored list is the
    projection of an arrangement [r] of the scored records that keeps every
    class of equal scores as it was. *)
Theorem sort_papers_stable `{DatetimeLib} (w w' : World) :
  sort_papers w = (Ok tt, w') ->
  (sort_method (paper_manager w) = "new" ->
     forall k : string,
       filter (fun x => String.eqb (get (publishedAt x) EmptyString) k)
         (papers (paper_manager w'))
       = filter (fun x => String.eqb (get (publishedAt x) EmptyString) k)
           (raw_papers (paper_manager w)))
  /\ (sort_method (paper_manager w) <> "new" ->
      exists (ks : list pynum) (r : list (pynum * RawItem)) (w1 : World),
        for_each (if String.eqb (sort_method (paper_manager w)) "rising"
                  then calculate_rising_score else calculate_score)
          (raw_papers (paper_manager w)) w = (Ok ks, w1)
        /\ List.length ks = List.length (raw_papers (paper_manager w))
        /\ map snd r = papers (paper_manager w')
        /\ Permutation (combine ks (raw_papers (paper_manager w))) r
        /\ forall k : pynum,
             filter (fun x => pynum_eqb (fst x) k) r
             = filter (fun x => pynum_eqb (fst x) k)
                 (combine ks (raw_papers (paper_manager w)))).
Proof.
  rewrite sort_papers_eq. intros Hsort. split.
  - intros Hnew k. rewrite Hnew in Hsort. cbn in Hsort.
    apply sort_by_published_stable, Hsort.
  - intros Hnew.
    destruct (String.eqb (sort_method (paper_manager w)) "new") eqn:E.
    { apply String.eqb_eq in E. contradiction. }
    destruct (String.eqb (sort_method (paper_manager w)) "rising").
    + apply sort_by_stable; [apply calculate_rising_score_clock_only | exact Hsort].
    + apply sort_by_stable; [apply calculate_score_clock_only | exact Hsort].
Qed.

Lemma sort_papers_stable_witness :
  let w := SampleSession.loaded "new" SampleSession.collection in
  let w' :=
    with_manager
      (set_papers [SampleSession.latest; SampleSession.first;
                   SampleSession.second; SampleSession.third]) w in
  sort_papers (H := Iso8601.lib) w = (Ok tt, w')
  /\ filter (fun x => String.eqb (get (publishedAt x) EmptyString)
                         "2024-08-15T08:00:00Z")
        (papers (paper_manager w'))
      = [SampleSession.first; SampleSession.second; SampleSession.third].
Proof.
  intros w w'.
  assert (Hsort : sort_papers (H := Iso8601.lib) w = (Ok tt, w'))
    by reflexivity.
  split; [exact Hsort |].
  destruct (sort_papers_stable (H := Iso8601.lib) w w' Hsort) as [Hnew _].
  rewrite (Hnew eq_refl). reflexivity.
Defined.

(** ** Rendering *)

Lemma in_slice {A : Type} (l : list A) (start stop : Z) (x : A) :
  In x (slice l start stop) -> In x l.
Proof.
  unfold slice. intros Hx.
  rewrite <- (firstn_skipn
                (Z.to_nat (clamp_index (Z.of_nat (List.length l)) start)) l).
  apply in_or_app. right.
  match type of Hx with
  | In x (firstn ?n ?l') => rewrite <- (firstn_skipn n l')
  end.
  apply in_or_app. left. exact Hx.
Qed.

Lemma in_enumerate_from {A : Type} (l : list A) (i j : Z) (x : A) :
  In (j, x) (enumerate_from i l) -> In x l.
Proof.
  revert i. induction l as [| a l IH]; intros i; cbn; [contradiction |].
  intros [[= _ <-] | Hx]; [left; reflexivity | right; eapply IH, Hx].
Qed.

Lemma slice_nil {A : Type} (start stop : Z) : slice (@nil A) start stop = [].
Proof. unfold slice. rewrite skipn_nil. apply firstn_nil. Qed.

Section Rendering.
Context `{DatetimeLib}.

Lemma format_paper_clock_only (item : RawItem) (rank : Z) :
  clock_only (format_paper item rank).
Proof.
  intros w. unfold format_paper, parse_published, bind, datetime_now. cbn.
  destruct (fromisoformat _) as [[t | t] |]; cbn;
    [exists 2%nat | exists 2%nat | exists 3%nat]; reflexivity.
Qed.

Lemma format_paper_total (item : RawItem) (rank : Z) (w : World) :
  no_naive item ->
  exists html n, format_paper item rank w = (Ok html, advance n w).
Proof.
  intros Hitem. unfold format_paper, parse_published, bind, datetime_now. cbn.
  destruct (fromisoformat _) as [[t | t] |] eqn:E; cbn.
  - eexists _, 2%nat. reflexivity.
  - exfalso. exact (Hitem _ _ E).
  - eexists _, 3%nat. reflexivity.
Qed.

Lemma render_papers_clock_only : clock_only render_papers.
Proof.
  intros w. unfold render_papers, bind, self. cbn.
  destruct (slice _ _ _) as [| x l]; [exists 0%nat; symmetry; apply advance_0 |].
  set (rows := for_each _ _).
  destruct (for_each_clock_only
              (fun '(idx, paper_) =>
                 format_paper paper_
                   (idx + (current_page (paper_manager w) - 1)
                          * papers_per_page (paper_manager w) + 1))
              (enumerate (x :: l))) with (w := w) as [n Hn].
  { intros [idx paper_]. apply format_paper_clock_only. }
  fold rows in Hn.
  destruct (rows w) as [[htmls | e] w1]; cbn in Hn |- *; subst w1;
    exists n; reflexivity.
Qed.

Lemma render_papers_manager (w : World) :
  paper_manager (snd (render_papers w)) = paper_manager w.
Proof.
  destruct (render_papers_clock_only w) as [n ->]. reflexivity.
Qed.

Lemma render_papers_total (w : World) :
  Forall no_naive (papers (paper_manager w)) ->
  exists html, fst (render_papers w) = Ok html.
Proof.
  intros Hpapers. unfold render_papers, bind, self. cbn.
  destruct (slice _ _ _) as [| x l] eqn:Eslice; [eexists; reflexivity |].
  set (rows := for_each _ _).
  destruct (for_each_all
              (fun '(idx, paper_) =>
                 format_paper paper_
                   (idx + (current_page (paper_manager w) - 1)
                          * papers_per_page (paper_manager w) + 1))
              (fun _ => True) (wall w) (enumerate (x :: l)))
    with (w := w) as (htmls & n & E & _).
  - intros [idx paper_] Hin w1 _.
    destruct (format_paper_total paper_
                (idx + (current_page (paper_manager w) - 1)
                       * papers_per_page (paper_manager w) + 1) w1)
      as (html & n & E).
    + rewrite Forall_forall in Hpapers. apply Hpapers.
      apply in_enumerate_from in Hin. rewrite <- Eslice in Hin.
      eapply in_slice, Hin.
    + exists html, n. split; [exact E | exact I].
  - reflexivity.
  - fold rows in E. rewrite E. eexists. reflexivity.
Qed.

Lemma render_papers_empty (w : World) :
  papers (paper_manager w) = [] ->
  render_papers w = (Ok no_papers_available, w).
Proof.
  intros Hpapers. unfold render_papers, bind, self. cbn.
  rewrite Hpapers, slice_nil. reflexivity.
Qed.

(** *** Turning pages *)

Lemma next_page_eq (w : World) :
  next_page w =
  render_papers
    (if current_page (paper_manager w) <? total_pages (paper_manager w)
     then with_manager
            (set_current_page (current_page (paper_manager w) + 1)) w
     else w).
Proof.
  unfold next_page, bind, self. cbn.
  destruct (_ <? _); reflexivity.
Qed.

Lemma prev_page_eq (w : World) :
  prev_page w =
  render_papers
    (if 1 <? current_page (paper_manager w)
     then with_manager
            (set_current_page (current_page (paper_manager w) - 1)) w
     else w).
Proof.
  unfold prev_page, bind, self. cbn.
  destruct (_ <? _); reflexivity.
Qed.

Lemma set_current_page_same (m : PaperManager) :
  set_current_page (current_page m) m = m.
Proof. destruct m. reflexivity. Qed.

End Rendering.

(** ** Fetching *)

Lemma ceiling_div_30 (n : Z) : (n + 30 - 1) / 30 = Qceiling (n # 30).
Proof.
  unfold Qceiling, Qfloor, Qopp. cbn.
  pose proof (Z.div_mod (n + 30 - 1) 30 ltac:(lia)).
  pose proof (Z.mod_pos_bound (n + 30 - 1) 30 ltac:(lia)).
  pose proof (Z.div_mod (- n) 30 ltac:(lia)).
  pose proof (Z.mod_pos_bound (- n) 30 ltac:(lia)).
  lia.
Qed.

Section Fetching.
Context `{DatetimeLib}.

Lemma fetch_papers_data (first : RawItem) (rest : list RawItem) (w : World) :
  fetch_papers (Json (first :: rest)) w =
  match sort_papers
          (with_manager (set_raw_papers (first :: rest))
             (with_output [PrintedKeys "Keys in the first paper:" first] w))
  with
  | (Ok _, w1) =>
      match floor_div (len (papers (paper_manager w1))
                       + papers_per_page (paper_manager w1) - 1)
                      (papers_per_page (paper_manager w1))
      with
      | Ok pages =>
          (Ok true,
           with_manager (set_current_page 1)
             (with_manager (set_total_pages (Z.max pages 1)) w1))
      | Raise e =>
          (Ok false, with_output [PrintedError "Unexpected error:" e] w1)
      end
  | (Raise e, w1) =>
      (Ok false,
       with_output
         [PrintedError
            (match e with
             | RequestException => "Error fetching papers:"
             | _ => "Unexpected error:"
             end) e] w1)
  end.
Proof.
  unfold fetch_papers, try_except, requests_get, bind, print, update, self,
    lift, ret.
  cbv beta iota.
  destruct (sort_papers _) as [[[] | e] w1].
  - unfold floor_div. destruct (_ =? 0); reflexivity.
  - destruct e; reflexivity.
Qed.

Lemma fetch_papers_empty (w : World) :
  fetch_papers (Json []) w
  = (Ok false, with_output [Printed "No data received from API."] w).
Proof. reflexivity. Qed.

Lemma sort_by_shape {K : Type} `{PyOrd K} (key : RawItem -> M K) (w w' : World) :
  (forall x, clock_only (key x)) ->
  sort_by key w = (Ok tt, w') ->
  exists l n,
    w' = with_manager (set_papers l) (advance n w)
    /\ Permutation (raw_papers (paper_manager w)) l.
Proof.
  intros Hkey Hsort.
  destruct (sort_by_perm key w w' Hkey Hsort) as [Hperm _].
  destruct (sort_by_ok key w w' Hkey Hsort) as (ks & r & n & _ & _ & _ & ->).
  exists (map snd r), n. split; [reflexivity | exact Hperm].
Qed.

Lemma sort_papers_shape (w w' : World) :
  sort_papers w = (Ok tt, w') ->
  exists l n,
    w' = with_manager (set_papers l) (advance n w)
    /\ Permutation (raw_papers (paper_manager w)) l.
Proof.
  rewrite sort_papers_eq.
  destruct (String.eqb _ "new"); [| destruct (String.eqb _ "rising")].
  - apply sort_by_shape, published_key_clock_only.
  - apply sort_by_shape, calculate_rising_score_clock_only.
  - apply sort_by_shape, calculate_score_clock_only.
Qed.

Lemma fetch_papers_true (data : list RawItem) (w w' : World) :
  papers_per_page (paper_manager w) = 30 ->
  fetch_papers (Json data) w = (Ok true, w') ->
  total_pages (paper_manager w') = Z.max (Qceiling (len data # 30)) 1
  /\ Permutation data (papers (paper_manager w'))
  /\ current_page (paper_manager w') = 1.
Proof.
  intros Hppp. destruct data as [| first rest].
  - rewrite fetch_papers_empty. discriminate.
  - rewrite fetch_papers_data.
    destruct (sort_papers _) as [[[] | e] w1] eqn:Esort; [| discriminate].
    destruct (sort_papers_shape _ _ Esort) as (l & n & -> & Hperm).
    cbn [paper_manager with_manager advance with_output papers set_papers
         papers_per_page set_raw_papers raw_papers] in *.
    rewrite Hppp. cbn [floor_div Z.eqb]. intros [= <-].
    cbn [paper_manager with_manager advance with_output papers set_papers
         total_pages set_total_pages current_page set_current_page].
    repeat split; [| exact Hperm].
    rewrite ceiling_div_30. unfold len.
    rewrite (Permutation_length Hperm). reflexivity.
Qed.

End Fetching.

(** ** Pagination *)

(** C3 fails on this input.  The session starts (sorting by "hot") and the
    API returns 46 records, the first with a timestamp that has no offset.
    The fetch stores them as the raw collection, the sort raises on the
    first record and the fetch fails, so [total_pages] is not computed.
    Choosing "New" then sorts the 46 records into [papers] (and raises when
    it renders the first of them): [total_pages] is still 1, where
    [max(ceil(46 / 30), 1)] is 2, and the session is on its first and last
    page.  There [next_page] and [prev_page] both raise [TypeError] (the
    page shown holds the record without offset), and [next_page] does not
    move on to the 16 records left. *)
Theorem pagination_breaks_after_failed_fetch :
  let loaded :=
    snd (initialize_app (H := Iso8601.lib) (Json SampleStale.data)
           (fresh Sample.ticking)) in
  let sorted := snd (change_sort_method (H := Iso8601.lib) "New" loaded) in
  fst (initialize_app (H := Iso8601.lib) (Json SampleStale.data)
         (fresh Sample.ticking)) = Ok failed_to_fetch
  /\ raw_papers (paper_manager loaded) = SampleStale.data
  /\ papers (paper_manager loaded) = []
  /\ total_pages (paper_manager loaded) = 1
  /\ fst (change_sort_method (H := Iso8601.lib) "New" loaded) = Raise TypeError
  /\ papers (paper_manager sorted) = SampleStale.data
  /\ len (papers (paper_manager sorted)) = 46
  /\ papers_per_page (paper_manager sorted) = 30
  /\ total_pages (paper_manager sorted) = 1
  /\ Z.max (Qceiling (46 # 30)) 1 = 2
  /\ current_page (paper_manager sorted) = 1
  /\ fst (next_page (H := Iso8601.lib) sorted) = Raise TypeError
  /\ fst (prev_page (H := Iso8601.lib) sorted) = Raise TypeError
  /\ current_page (paper_manager (snd (next_page (H := Iso8601.lib) sorted)))
     = 1.
Proof.
  cbv zeta.
  repeat match goal with |- _ /\ _ => split end; vm_compute; reflexivity.
Qed.

(** ** What was printed does not matter to sorting and rendering *)

Lemma output_blind_ret {A : Type} (a : A) : output_blind (ret a).
Proof. intros w lines. reflexivity. Qed.

Lemma output_blind_lift {A : Type} (r : result A) : output_blind (lift r).
Proof. intros w lines. reflexivity. Qed.

Lemma output_blind_now : output_blind datetime_now.
Proof. intros w lines. reflexivity. Qed.

Lemma output_blind_self : output_blind self.
Proof. intros w lines. reflexivity. Qed.

Lemma output_blind_update (f : PaperManager -> PaperManager) :
  output_blind (update f).
Proof. intros w lines. reflexivity. Qed.

Lemma output_blind_bind {A B : Type} (m : M A) (k : A -> M B) :
  output_blind m -> (forall a, output_blind (k a)) -> output_blind (bind m k).
Proof.
  intros Hm Hk w lines. unfold bind. rewrite Hm.
  destruct (m w) as [[a | e] w1]; cbn [fst snd]; [apply Hk | reflexivity].
Qed.

Lemma output_blind_for_each {A B : Type} (f : A -> M B) (l : list A) :
  (forall x, output_blind (f x)) -> output_blind (for_each f l).
Proof.
  intros Hf. induction l as [| x l IH]; cbn [for_each].
  - apply output_blind_ret.
  - apply output_blind_bind; [apply Hf | intros y].
    apply output_blind_bind; [exact IH | intros ys]. apply output_blind_ret.
Qed.

Create HintDb blind.
#[local] Hint Resolve output_blind_ret output_blind_lift output_blind_now
  output_blind_self output_blind_update output_blind_for_each : blind.

Section OutputBlind.
Context `{DatetimeLib}.

Lemma output_blind_parse_published (s : string) :
  output_blind (parse_published s).
Proof.
  unfold parse_published. destruct (fromisoformat _); [auto with blind |].
  apply output_blind_bind; auto with blind.
Qed.

Lemma output_blind_calculate_score (item : RawItem) :
  output_blind (calculate_score item).
Proof.
  unfold calculate_score.
  repeat (apply output_blind_bind; [| intros ?]);
    auto using output_blind_parse_published with blind.
Qed.

Lemma output_blind_calculate_rising_score (item : RawItem) :
  output_blind (calculate_rising_score item).
Proof.
  unfold calculate_rising_score.
  repeat (apply output_blind_bind; [| intros ?]);
    auto using output_blind_parse_published with blind.
Qed.

Lemma output_blind_sorted_reverse {K : Type} `{PyOrd K} (l : list RawItem)
    (key : RawItem -> M K) :
  (forall x, output_blind (key x)) -> output_blind (sorted_reverse l key).
Proof.
  intros Hkey. unfold sorted_reverse.
  repeat (apply output_blind_bind; [| intros ?]); auto with blind.
Qed.

Lemma output_blind_sort_papers : output_blind sort_papers.
Proof.
  unfold sort_papers. apply output_blind_bind; [auto with blind | intros s].
  repeat match goal with
         | |- output_blind (if ?b then _ else _) => destruct b
         end;
    (apply output_blind_bind; [| intros ?; auto with blind]);
    apply output_blind_sorted_reverse;
    auto using output_blind_calculate_score,
      output_blind_calculate_rising_score with blind.
Qed.

Lemma output_blind_format_paper (item : RawItem) (rank : Z) :
  output_blind (format_paper item rank).
Proof.
  unfold format_paper.
  repeat (apply output_blind_bind; [| intros ?]);
    auto using output_blind_parse_published with blind.
Qed.

Lemma output_blind_render_papers : output_blind render_papers.
Proof.
  unfold render_papers. apply output_blind_bind; [auto with blind | intros s].
  destruct (slice _ _ _); [auto with blind |].
  apply output_blind_bind; [| intros ?; auto with blind].
  apply output_blind_for_each. intros [idx paper_].
  apply output_blind_format_paper.
Qed.

End OutputBlind.

(** ** Changing the sort method *)

Lemma effective_recognised (method : string) :
  In method ["hot"; "new"; "rising"] -> effective method = method.
Proof.
  intros [<- | [<- | [<- | []]]]; reflexivity.
Qed.

Lemma effective_fallback (method : string) :
  ~ In method ["hot"; "new"; "rising"] -> effective method = "hot".
Proof.
  intros Hnot. unfold effective.
  destruct (existsb _ _) eqn:E; [| reflexivity].
  apply existsb_exists in E as (x & Hx & Heq).
  apply String.eqb_eq in Heq. subst x. contradiction.
Qed.

Lemma published_before_no_naive `{DatetimeLib} (clock : nat -> Z)
    (item : RawItem) :
  published_before clock item -> no_naive item.
Proof.
  intros (s & t & Hs & Ht & _) d t'. rewrite Hs. cbn [get]. rewrite Ht.
  discriminate.
Qed.

Section ChangeSort.
Context `{DatetimeLib}.

Lemma change_sort_method_eq (method : string) (w : World) :
  change_sort_method method w =
  match sort_papers
          (with_manager (set_sort_method_field (effective (lower method)))
             (with_output
                [Printed ("Setting sort method to: " ++ effective (lower method))]
                (with_output
                   [Printed ("Changing sort method to: " ++ lower method)] w)))
  with
  | (Ok _, w1) =>
      render_papers
        (with_output [Printed "Sort method set successfully."]
           (with_manager (set_current_page 1) w1))
  | (Raise e, w1) => (Raise e, w1)
  end.
Proof.
  unfold change_sort_method, set_sort_method, bind, print, update, ret.
  cbv beta iota. fold (effective (lower method)).
  destruct (sort_papers _) as [[[] | e] w1]; reflexivity.
Qed.

Lemma change_sort_method_method (method : string) (w : World) :
  sort_method (paper_manager (snd (change_sort_method method w)))
  = effective (lower method).
Proof.
  rewrite change_sort_method_eq.
  destruct (sort_papers _) as [[[] | e] w1] eqn:Esort.
  - rewrite render_papers_manager.
    destruct (sort_papers_shape _ _ Esort) as (l & n & -> & _). reflexivity.
  - destruct (sort_papers_raise _ _ _ Esort) as [n ->]. reflexivity.
Qed.

Lemma change_sort_method_stdout (method : string) (w : World) :
  exists rest,
    stdout (snd (change_sort_method method w))
    = (stdout w
       ++ [Printed ("Changing sort method to: " ++ lower method);
           Printed ("Setting sort method to: " ++ effective (lower method))]
       ++ rest)%list.
Proof.
  rewrite change_sort_method_eq.
  destruct (sort_papers _) as [[[] | e] w1] eqn:Esort.
  - exists [Printed "Sort method set successfully."].
    destruct (render_papers_clock_only
                (with_output [Printed "Sort method set successfully."]
                   (with_manager (set_current_page 1) w1))) as [k ->].
    destruct (sort_papers_shape _ _ Esort) as (l & n & -> & _).
    cbn [stdout advance with_output with_manager].
    rewrite <- !app_assoc. reflexivity.
  - exists []. destruct (sort_papers_raise _ _ _ Esort) as [n ->].
    cbn [stdout advance with_output with_manager snd].
    rewrite <- !app_assoc. reflexivity.
Qed.

Lemma change_sort_method_sorted (method : string) (w w1 : World) :
  sort_papers
    (with_manager (set_sort_method_field (effective (lower method)))
       (with_output
          [Printed ("Setting sort method to: " ++ effective (lower method))]
          (with_output
             [Printed ("Changing sort method to: " ++ lower method)] w)))
  = (Ok tt, w1) ->
  papers (paper_manager (snd (change_sort_method method w)))
  = papers (paper_manager w1)
  /\ Permutation (raw_papers (paper_manager w))
       (papers (paper_manager (snd (change_sort_method method w))))
  /\ current_page (paper_manager (snd (change_sort_method method w))) = 1.
Proof.
  intros Esort. rewrite change_sort_method_eq, Esort, render_papers_manager.
  destruct (sort_papers_shape _ _ Esort) as (l & n & -> & Hperm).
  repeat split. exact Hperm.
Qed.

Lemma change_sort_method_returns (method : string) (w : World) :
  Forall (published_before (wall w)) (raw_papers (paper_manager w)) ->
  Forall votes_in_range (raw_papers (paper_manager w)) ->
  exists html w',
    change_sort_method method w = (Ok html, w')
    /\ current_page (paper_manager w') = 1
    /\ Permutation (raw_papers (paper_manager w)) (papers (paper_manager w')).
Proof.
  intros Hraw Hvotes.
  destruct (sort_papers_published
              (with_manager (set_sort_method_field (effective (lower method)))
                 (with_output
                    [Printed ("Setting sort method to: "
                              ++ effective (lower method))]
                    (with_output
                       [Printed ("Changing sort method to: " ++ lower method)]
                       w)))) as [w1 Esort]; [exact Hraw | exact Hvotes |].
  destruct (change_sort_method_sorted method w w1 Esort) as (_ & Hperm & Hcur).
  destruct (change_sort_method method w) as [r w'] eqn:E.
  cbn [snd] in Hperm, Hcur.
  assert (Hr : exists html, r = Ok html).
  { rewrite change_sort_method_eq, Esort in E.
    destruct (sort_papers_shape _ _ Esort) as (l & n & -> & Hl).
    destruct (render_papers_total
                (with_output [Printed "Sort method set successfully."]
                   (with_manager (set_current_page 1)
                      (with_manager (set_papers l)
                         (advance n
                            (with_manager
                               (set_sort_method_field (effective (lower method)))
                               (with_output
                                  [Printed ("Setting sort method to: "
                                            ++ effective (lower method))]
                                  (with_output
                                     [Printed ("Changing sort method to: "
                                               ++ lower method)] w))))))))
      as [html Hhtml].
    - cbn [paper_manager with_output with_manager advance papers set_papers
           set_current_page].
      eapply Permutation_Forall; [exact Hl |].
      eapply Forall_impl; [| exact Hraw].
      intros item. apply published_before_no_naive.
    - rewrite E in Hhtml. exists html. exact Hhtml. }
  destruct Hr as [html ->]. exists html, w'. repeat split; assumption.
Qed.

(** An unrecognised method is handled exactly as "hot" is: the same result
    or the same exception, and the same session afterwards. *)
Lemma change_sort_method_fallback (method : string) (w : World) :
  ~ In (lower method) ["hot"; "new"; "rising"] ->
  fst (change_sort_method method w) = fst (change_sort_method "hot" w)
  /\ paper_manager (snd (change_sort_method method w))
     = paper_manager (snd (change_sort_method "hot" w)).
Proof.
  intros Hnot. rewrite !change_sort_method_eq.
  rewrite (effective_fallback _ Hnot).
  change (effective (lower "hot")) with "hot".
  set (wm := with_manager (set_sort_method_field "hot") w).
  repeat match goal with
         | |- context [with_manager (set_sort_method_field "hot")
                         (with_output ?l2 (with_output ?l1 w))] =>
             change (with_manager (set_sort_method_field "hot")
                       (with_output l2 (with_output l1 w)))
               with (set_stdout ((stdout w ++ l1) ++ l2)%list wm)
         end.
  rewrite !output_blind_sort_papers.
  destruct (sort_papers wm) as [[[] | e] w1]; cbn [fst snd];
    [| split; reflexivity].
  repeat match goal with
         | |- context [with_output ?l (with_manager ?f (set_stdout ?s w1))] =>
             change (with_output l (with_manager f (set_stdout s w1)))
               with (set_stdout (s ++ l)%list (with_manager f w1))
         end.
  rewrite !output_blind_render_papers. split; reflexivity.
Qed.

End ChangeSort.

(** C4 fails on this input.  The session sorts by "new" and holds 46
    records, one of them dated three hours ahead of the clock; it was
    loaded and paged without error and is on page 2 of 2.
    [change_sort_method] with "bogus" stores "hot" and prints so, but the
    Hot score of the record dated ahead is a [complex] and [sorted] raises
    [TypeError], which reaches the caller: [papers] is left in the order of
    "new" and [current_page] stays 2. *)
Theorem unrecognised_method_raises_without_reset :
  let start :=
    snd (change_sort_method (H := Iso8601.lib) "New" (fresh Sample.ticking)) in
  let loaded :=
    snd (initialize_app (H := Iso8601.lib) (Json SampleAhead.data) start) in
  let second := snd (next_page (H := Iso8601.lib) loaded) in
  let after := snd (change_sort_method (H := Iso8601.lib) "bogus" second) in
  (exists html,
     fst (initialize_app (H := Iso8601.lib) (Json SampleAhead.data) start)
     = Ok html)
  /\ (exists html, fst (next_page (H := Iso8601.lib) loaded) = Ok html)
  /\ sort_method (paper_manager second) = "new"
  /\ raw_papers (paper_manager second) = SampleAhead.data
  /\ papers (paper_manager second) = SampleAhead.data
  /\ total_pages (paper_manager second) = 2
  /\ current_page (paper_manager second) = 2
  /\ fst (change_sort_method (H := Iso8601.lib) "bogus" second)
     = Raise TypeError
  /\ sort_method (paper_manager after) = "hot"
  /\ stdout after
     = (stdout second
        ++ [Printed "Changing sort method to: bogus";
            Printed "Setting sort method to: hot"])%list
  /\ papers (paper_manager after) = papers (paper_manager second)
  /\ current_page (paper_manager after) = 2.
Proof.
  cbv zeta.
  split; [eexists; vm_compute; reflexivity |].
  split; [eexists; vm_compute; reflexivity |].
  set (second := snd (next_page _)).
  set (ws := about_to_sort "bogus" second).
  assert (Hraw : raw_papers (paper_manager ws) = SampleAhead.data)
    by (vm_compute; reflexivity).
  assert (Hmethod : sort_method (paper_manager ws) = "hot")
    by (vm_compute; reflexivity).
  assert (Hwall : wall ws = Sample.ticking) by reflexivity.
  assert (Hticks : ticks ws = 92%nat) by (vm_compute; reflexivity).
  assert (Efirst : calculate_score (H := Iso8601.lib) SampleFuture.future ws
                   = (Ok PyComplex, advance 2 ws)).
  { apply (calculate_score_ahead (H := Iso8601.lib) SampleFuture.future
             "2024-08-15T15:00:00Z" 1723734000000000).
    - reflexivity.
    - vm_compute. reflexivity.
    - vm_compute. reflexivity.
    - rewrite Hwall, Hticks. cbn. unfold hours, total_seconds. lra. }
  destruct sample_pages_published as [Hpublished Hvotes].
  destruct (scores_of_published (H := Iso8601.lib) SamplePages.collection
              (advance 2 ws)) as (ks & n & Erest & _);
    [exact Hpublished | exact Hvotes |].
  assert (Esort : sort_papers (H := Iso8601.lib) ws
                  = (Raise TypeError, advance n (advance 2 ws))).
  { rewrite sort_papers_eq, Hmethod.
    change (String.eqb "hot" "new") with false.
    change (String.eqb "hot" "rising") with false. cbv iota.
    apply (sort_by_complex _ _ _ (PyComplex :: ks)).
    - rewrite Hraw. unfold SampleAhead.data. cbn [for_each]. unfold bind.
      rewrite Efirst, Erest. reflexivity.
    - left. reflexivity.
    - rewrite Hraw. vm_compute. lia. }
  assert (E : change_sort_method (H := Iso8601.lib) "bogus" second
              = (Raise TypeError, advance n (advance 2 ws))).
  { rewrite change_sort_method_eq.
    unfold ws, about_to_sort in Esort |- *. rewrite Esort. reflexivity. }
  repeat match goal with |- _ /\ _ => split end;
    try rewrite E; vm_compute; reflexivity.
Qed.

(** C10.  [change_sort_method] lowercases the method before it is validated:
    the method stored is [lower method] when that is "hot", "new" or
    "rising", and "hot" otherwise, so that the labels "Hot", "New" and
    "Rising" select their own methods. *)
Theorem change_sort_method_lowercases `{DatetimeLib} (method : string)
    (w : World) :
  let stored m := sort_method (paper_manager (snd (change_sort_method m w))) in
  stored method
  = (if existsb (String.eqb (lower method)) ["hot"; "new"; "rising"]
     then lower method else "hot")
  /\ (In (lower method) ["hot"; "new"; "rising"] ->
      stored method = lower method)
  /\ (~ In (lower method) ["hot"; "new"; "rising"] -> stored method = "hot")
  /\ stored "Hot" = "hot"
  /\ stored "New" = "new"
  /\ stored "Rising" = "rising".
Proof.
  intros stored. subst stored. cbv beta.
  rewrite !change_sort_method_method.
  split; [reflexivity |].
  split; [apply effective_recognised |].
  split; [apply effective_fallback |].
  repeat split.
Qed.

Lemma change_sort_method_lowercases_witness :
  sort_method
    (paper_manager
       (snd (change_sort_method (H := Iso8601.lib) "RISING"
               (SampleSession.loaded "new" SampleSession.collection))))
  = "rising"
  /\ sort_method
       (paper_manager
          (snd (change_sort_method (H := Iso8601.lib) "Newest"
                  (SampleSession.loaded "new" SampleSession.collection))))
     = "hot".
Proof.
  destruct (change_sort_method_lowercases (H := Iso8601.lib) "RISING"
              (SampleSession.loaded "new" SampleSession.collection))
    as (_ & Hvalid & _).
  destruct (change_sort_method_lowercases (H := Iso8601.lib) "Newest"
              (SampleSession.loaded "new" SampleSession.collection))
    as (_ & _ & Hfallback & _).
  split.
  - rewrite Hvalid; [reflexivity |]. vm_compute. right. right. left. reflexivity.
  - apply Hfallback. vm_compute.
    intros [F | [F | [F | []]]]; discriminate F.
Defined.

(** ** An empty fetch *)

(** C5, as amended.  When the fetch returns an empty collection,
    [fetch_papers] reports it and fails: [initialize_app] returns the
    failure document (which is not the placeholder of an empty page) and
    leaves the session as it was, so that a session that just started still
    has [total_pages] 1 and [current_page] 1. *)
Theorem empty_fetch_reports_failure `{DatetimeLib} (w : World) :
  initialize_app (Json []) w
  = (Ok failed_to_fetch, with_output [Printed "No data received from API."] w)
  /\ failed_to_fetch <> no_papers_available
  /\ total_pages
       (paper_manager (snd (initialize_app (Json []) (fresh (wall w))))) = 1
  /\ current_page
       (paper_manager (snd (initialize_app (Json []) (fresh (wall w))))) = 1.
Proof.
  split; [reflexivity |].
  split; [| split; reflexivity].
  apply String.eqb_neq. reflexivity.
Qed.

(** C5 as stated fails: what a fresh session renders for an empty fetch is
    not the placeholder. *)
Lemma empty_fetch_not_placeholder :
  fst (initialize_app (H := Iso8601.lib) (Json []) (fresh Sample.ticking))
  <> Ok no_papers_available.
Proof.
  change (@Ok string failed_to_fetch <> Ok no_papers_available).
  intros E. discriminate E.
Qed.

(** ** A record dated in the future *)

Lemma calculate_score_parsed `{DatetimeLib} (item : RawItem) (s : string)
    (t : Z) (w : World) :
  publishedAt item = Some s ->
  fromisoformat (replace_Z s) = Some (Aware t) ->
  calculate_score item w =
    (true_div (votes item) (pow_1_5 (hours (wall w (1 + ticks w) - t) + 2)%R),
     advance 2 w).
Proof.
  intros Hs Ht. rewrite calculate_score_eq. unfold published_at_str.
  rewrite Hs. cbn [get]. rewrite Ht. reflexivity.
Qed.

Lemma hours_of_microseconds (d : Z) : hours d = (IZR d / 3600000000)%R.
Proof. unfold hours, total_seconds. field. Qed.

(** A record dated exactly two hours after the clock reading makes the Hot
    score divide by zero. *)
Lemma calculate_score_division_by_zero `{DatetimeLib} (item : RawItem)
    (s : string) (t : Z) (w : World) :
  publishedAt item = Some s ->
  fromisoformat (replace_Z s) = Some (Aware t) ->
  votes_in_range item ->
  wall w (1 + ticks w) - t = - 7200000000 ->
  calculate_score item w = (Raise ZeroDivisionError, advance 2 w).
Proof.
  intros Hs Ht Hv Hd. rewrite (calculate_score_parsed item s t w Hs Ht), Hd.
  replace (hours (- 7200000000) + 2)%R with 0%R
    by (rewrite hours_of_microseconds; lra).
  rewrite pow_1_5_zero, true_div_zero by exact Hv. reflexivity.
Qed.

(** With a record dated three hours after the clock among two, the Hot sort
    raises: the score of that record is a [complex], which [sorted] cannot
    compare. *)
Lemma sort_papers_future_raises (w : World) :
  wall w = Sample.ticking ->
  (ticks w < 1000)%nat ->
  sort_method (paper_manager w) = "hot" ->
  raw_papers (paper_manager w) = [SampleFuture.ontime; SampleFuture.future] ->
  sort_papers (H := Iso8601.lib) w = (Raise TypeError, advance 4 w).
Proof.
  intros Hwall Hticks Hmethod Hraw.
  rewrite sort_papers_eq, Hmethod.
  change (String.eqb "hot" "new") with false.
  change (String.eqb "hot" "rising") with false. cbv iota.
  unfold sort_by, sorted_reverse, bind, self. rewrite Hraw.
  cbn [for_each]. unfold bind.
  rewrite (calculate_score_parsed (H := Iso8601.lib) SampleFuture.ontime
             "2024-08-15T10:00:00Z" 1723716000000000 w eq_refl)
    by (vm_compute; reflexivity).
  rewrite pow_1_5_pos.
  2:{ rewrite hours_of_microseconds, Hwall. unfold Sample.ticking, Sample.noon.
      rewrite minus_IZR, plus_IZR.
      pose proof (IZR_le _ _ (Nat2Z.is_nonneg (1 + ticks w))). lra. }
  rewrite true_div_quotient;
    [| apply float_limit_above; reflexivity
     | apply Rgt_not_eq, Rpower_1_5_pos].
  rewrite (calculate_score_parsed (H := Iso8601.lib) SampleFuture.future
             "2024-08-15T15:00:00Z" 1723734000000000 (advance 2 w) eq_refl)
    by (vm_compute; reflexivity).
  rewrite pow_1_5_neg.
  2:{ rewrite hours_of_microseconds. cbn [wall ticks advance]. rewrite Hwall.
      unfold Sample.ticking, Sample.noon.
      rewrite minus_IZR, plus_IZR.
      assert (Hn : (Z.of_nat (1 + (2 + ticks w)) <= 1003)) by lia.
      apply IZR_le in Hn. lra. }
  rewrite true_div_complex by (apply float_limit_above; reflexivity).
  unfold float_result.
  destruct (Rle_dec _ _);
    cbn [ret lift combine sort_decorated rev app sort_ascending insert fst];
    rewrite advance_advance; reflexivity.
Qed.

(** C7 fails on this input.  A fetch that returns a record dated two hours
    ago and a record dated three hours ahead ends in the failure document
    with no record shown, and choosing "Hot" afterwards lets the
    [TypeError] of [sorted] escape to the caller. *)
Theorem future_timestamp_aborts_sort :
  let data := [SampleFuture.ontime; SampleFuture.future] in
  let w' :=
    with_output [PrintedError "Unexpected error:" TypeError]
      (advance 4
         (with_manager (set_raw_papers data)
            (with_output
               [PrintedKeys "Keys in the first paper:" SampleFuture.ontime]
               (fresh Sample.ticking)))) in
  initialize_app (H := Iso8601.lib) (Json data) (fresh Sample.ticking)
  = (Ok failed_to_fetch, w')
  /\ papers (paper_manager w') = []
  /\ fst (change_sort_method (H := Iso8601.lib) "Hot" w') = Raise TypeError.
Proof.
  intros data w'. subst data w'. split; [| split].
  - unfold initialize_app, bind. rewrite fetch_papers_data.
    rewrite sort_papers_future_raises; try reflexivity.
    cbn [ticks with_manager with_output fresh]. lia.
  - reflexivity.
  - rewrite change_sort_method_eq.
    rewrite sort_papers_future_raises; try reflexivity.
    cbn [ticks with_manager with_output fresh advance]. lia.
Qed.

(** ** A timestamp that does not parse *)

Lemma sqrt_9 : sqrt 9 = 3%R.
Proof. replace 9%R with (3 * 3)%R by lra. apply sqrt_square. lra. Qed.

Lemma Rpower_1_5_le_27 (x : R) : (0 < x <= 9)%R -> (Rpower x 1.5 <= 27)%R.
Proof.
  intros Hx. rewrite Rpower_1_5 by lra.
  assert (Hs : (sqrt x <= 3)%R).
  { rewrite <- sqrt_9. apply sqrt_le_1; lra. }
  pose proof (sqrt_pos x). nra.
Qed.

Lemma Rpower_1_5_antitone (v : Z) (x y : R) :
  0 <= v -> (0 < x <= y)%R ->
  (IZR v / Rpower y 1.5 <= IZR v / Rpower x 1.5)%R.
Proof.
  intros Hv Hxy. apply IZR_le in Hv.
  assert (Hle : (Rpower x 1.5 <= Rpower y 1.5)%R)
    by (apply Rle_Rpower_l; lra).
  pose proof (Rpower_1_5_pos x) as Hx.
  apply Rmult_le_compat_l; [exact Hv |].
  apply Rinv_le_contravar; assumption.
Qed.

Section Unparsable.
Context `{DatetimeLib}.

Lemma parse_published_fails (s : string) (w : World) :
  fromisoformat (replace_Z s) = None ->
  parse_published s w = (Ok (Aware (wall w (ticks w))), advance 1 w).
Proof. intros Hs. unfold parse_published. rewrite Hs. reflexivity. Qed.

Lemma calculate_score_unparsable (item : RawItem) (s : string) (w : World) :
  publishedAt item = Some s ->
  fromisoformat (replace_Z s) = None ->
  votes_in_range item ->
  (0 <= hours (wall w (2 + ticks w) - wall w (1 + ticks w)))%R ->
  calculate_score item w =
    (Ok (PyFloat
           (IZR (votes item)
            / Rpower (hours (wall w (2 + ticks w) - wall w (1 + ticks w)) + 2)
                1.5)),
     advance 3 w).
Proof.
  intros Hs Hparse Hv Hdelay. rewrite calculate_score_eq.
  unfold published_at_str.
  rewrite Hs. cbn [get]. rewrite Hparse, pow_1_5_pos by lra.
  rewrite true_div_float; [reflexivity | exact Hv |].
  pose proof (Rpower_1_5_ge
                (hours (wall w (2 + ticks w) - wall w (1 + ticks w)) + 2)
                ltac:(lra)).
  lra.
Qed.

Lemma calculate_rising_score_unparsable (item : RawItem) (s : string)
    (w : World) :
  publishedAt item = Some s ->
  fromisoformat (replace_Z s) = None ->
  votes_in_range item ->
  (0 <= hours (wall w (2 + ticks w) - wall w (1 + ticks w)))%R ->
  calculate_rising_score item w =
    (Ok (PyFloat
           (IZR (votes item)
            / (hours (wall w (2 + ticks w) - wall w (1 + ticks w)) + 1))),
     advance 3 w).
Proof.
  intros Hs Hparse Hv Hdelay. rewrite calculate_rising_score_eq.
  unfold published_at_str. rewrite Hs. cbn [get].
  rewrite Hparse, true_div_float by (assumption || lra). reflexivity.
Qed.

Lemma calculate_score_unparsable_overflow (item : RawItem) (s : string)
    (w : World) :
  publishedAt item = Some s ->
  fromisoformat (replace_Z s) = None ->
  float_limit <= Z.abs (votes item) ->
  calculate_score item w = (Raise OverflowError, advance 3 w)
  /\ calculate_rising_score item w = (Raise OverflowError, advance 3 w).
Proof.
  intros Hs Hparse Hv.
  rewrite calculate_score_eq, calculate_rising_score_eq.
  unfold published_at_str. rewrite Hs. cbn [get].
  rewrite Hparse, !true_div_overflow by exact Hv. split; reflexivity.
Qed.

End Unparsable.

(** C2, as amended.  For a record whose [publishedAt] does not parse and
    whose vote count is valid and converts to a float, the clock reading
    taken when the parse fails is substituted as its publication time in the
    Hot and Rising scores: with [delay] the hours from that reading to the
    next, the Hot score is [votes / (delay + 2) ** 1.5], between 0 and
    [votes / 2 ** 1.5], and the Rising score is [votes / (delay + 1)].
    Under "new" nothing is substituted: the key of the record is its raw
    string. *)
Theorem unparsable_timestamp_scored_as_now `{DatetimeLib} (item : RawItem)
    (s : string) (w : World) :
  publishedAt item = Some s ->
  fromisoformat (replace_Z s) = None ->
  0 <= votes item < float_limit ->
  wall w (1 + ticks w) <= wall w (2 + ticks w) ->
  let delay := hours (wall w (2 + ticks w) - wall w (1 + ticks w)) in
  parse_published s (advance 1 w)
  = (Ok (Aware (wall w (1 + ticks w))), advance 2 w)
  /\ calculate_score item w
     = (Ok (PyFloat (IZR (votes item) / Rpower (delay + 2) 1.5)), advance 3 w)
  /\ (0 <= IZR (votes item) / Rpower (delay + 2) 1.5
      <= IZR (votes item) / Rpower 2 1.5)%R
  /\ calculate_rising_score item w
     = (Ok (PyFloat (IZR (votes item) / (delay + 1))), advance 3 w)
  /\ published_key item w = (Ok s, w)
  /\ (sort_method (paper_manager w) = "new" ->
      sort_papers w = sort_by published_key w).
Proof.
  intros Hs Hparse [Hv Hlimit] Hclock delay.
  assert (Hrange : votes_in_range item) by (unfold votes_in_range; lia).
  assert (Hdelay : (0 <= delay)%R) by (apply hours_nonneg; lia).
  split; [apply (parse_published_fails s (advance 1 w) Hparse) |].
  split; [apply (calculate_score_unparsable item s w Hs Hparse Hrange Hdelay) |].
  split; [split |].
  - apply div_nonneg; [exact Hv | apply Rpower_1_5_pos].
  - apply Rpower_1_5_antitone; [exact Hv | lra].
  - split; [apply (calculate_rising_score_unparsable item s w Hs Hparse Hrange
                     Hdelay) |].
    split.
    + unfold published_key, ret. rewrite Hs. reflexivity.
    + intros Hnew. rewrite sort_papers_eq, Hnew. reflexivity.
Qed.

Lemma unparsable_timestamp_scored_as_now_witness :
  exists hot : R,
    calculate_score (H := Iso8601.lib) SampleUnparsable.unparsable
      (fresh Sample.ticking)
    = (Ok (PyFloat hot), advance 3 (fresh Sample.ticking))
    /\ (0 <= hot <= 3 / Rpower 2 1.5)%R.
Proof.
  destruct (unparsable_timestamp_scored_as_now (H := Iso8601.lib)
              SampleUnparsable.unparsable "08/15/2024" (fresh Sample.ticking))
    as (_ & Hscore & Hbounds & _).
  - reflexivity.
  - vm_compute. reflexivity.
  - vm_compute. split; [discriminate | reflexivity].
  - vm_compute. discriminate.
  - eexists. split; [exact Hscore | exact Hbounds].
Defined.

Lemma parsed_score_above `{DatetimeLib} (item : RawItem) (s : string) (t : Z)
    (w : World) :
  publishedAt item = Some s ->
  fromisoformat (replace_Z s) = Some (Aware t) ->
  41 <= votes item ->
  votes_in_range item ->
  0 <= wall w (1 + ticks w) - t <= 25200000000 ->
  exists r,
    calculate_score item w = (Ok (PyFloat r), advance 2 w) /\ (3 / 2 < r)%R.
Proof.
  intros Hs Ht Hv Hrange [Hlo Hhi].
  assert (Hh : (0 <= hours (wall w (1 + ticks w) - t) <= 7)%R).
  { rewrite hours_of_microseconds. apply IZR_le in Hlo, Hhi. lra. }
  eexists. split; [apply (calculate_score_past item s t w Hs Ht Hrange); lra |].
  pose proof (Rpower_1_5_le_27 (hours (wall w (1 + ticks w) - t) + 2)
                ltac:(lra)) as Hup.
  pose proof (Rpower_1_5_pos (hours (wall w (1 + ticks w) - t) + 2)) as Hpos.
  apply IZR_le in Hv.
  apply Rlt_le_trans with (41 / 27)%R; [lra |].
  apply Rle_trans with (IZR (votes item) / 27)%R; [lra |].
  apply Rmult_le_compat_l; [lra |].
  apply Rinv_le_contravar; assumption.
Qed.

Lemma unparsable_score_below `{DatetimeLib} (item : RawItem) (s : string)
    (w : World) :
  publishedAt item = Some s ->
  fromisoformat (replace_Z s) = None ->
  0 <= votes item <= 3 ->
  wall w (1 + ticks w) <= wall w (2 + ticks w) ->
  exists r,
    calculate_score item w = (Ok (PyFloat r), advance 3 w) /\ (r <= 3 / 2)%R.
Proof.
  intros Hs Hparse [Hv0 Hv3] Hclock.
  assert (Hdelay : (0 <= hours (wall w (2 + ticks w) - wall w (1 + ticks w)))%R)
    by (apply hours_nonneg; lia).
  assert (Hrange : votes_in_range item).
  { unfold votes_in_range. apply float_limit_above.
    rewrite Z.abs_eq by exact Hv0. eapply Z.le_lt_trans; [exact Hv3 |].
    reflexivity. }
  eexists.
  split; [apply (calculate_score_unparsable item s w Hs Hparse Hrange Hdelay) |].
  pose proof (Rpower_1_5_ge
                (hours (wall w (2 + ticks w) - wall w (1 + ticks w)) + 2)
                ltac:(lra)) as Hge.
  apply IZR_le in Hv0, Hv3.
  apply Rle_trans with (IZR (votes item) / 2)%R; [| lra].
  apply Rmult_le_compat_l; [lra |].
  apply Rinv_le_contravar; lra.
Qed.

(** C2 as stated fails: a record whose date does not parse comes out last of
    five, under "hot" and under "new". *)
Lemma unparsable_timestamp_ranked_last :
  fromisoformat (DatetimeLib := Iso8601.lib) (replace_Z "08/15/2024") = None
  /\ (exists w' front,
        sort_papers (H := Iso8601.lib)
          (SampleSession.loaded "hot" SampleUnparsable.collection)
        = (Ok tt, w')
        /\ papers (paper_manager w')
           = (front ++ [SampleUnparsable.unparsable])%list
        /\ List.length front = 4%nat)
  /\ (exists w' front,
        sort_papers (H := Iso8601.lib)
          (SampleSession.loaded "new" SampleUnparsable.collection)
        = (Ok tt, w')
        /\ papers (paper_manager w')
           = (front ++ [SampleUnparsable.unparsable])%list
        /\ List.length front = 4%nat).
Proof.
  split; [vm_compute; reflexivity |]. split.
  - set (w := SampleSession.loaded "hot" SampleUnparsable.collection).
    destruct (unparsable_score_below (H := Iso8601.lib)
                SampleUnparsable.unparsable "08/15/2024" w eq_refl)
      as (r0 & E0 & H0);
      [vm_compute; reflexivity | vm_compute; split; discriminate
       | vm_compute; discriminate |].
    destruct (parsed_score_above (H := Iso8601.lib)
                (Sample.record 50 "2024-08-15T10:00:00Z")
                "2024-08-15T10:00:00Z" 1723716000000000 (advance 3 w) eq_refl)
      as (r1 & E1 & H1);
      [vm_compute; reflexivity | vm_compute; discriminate
       | vm_compute; reflexivity | vm_compute; split; discriminate |].
    destruct (parsed_score_above (H := Iso8601.lib)
                (Sample.record 60 "2024-08-15T09:00:00Z")
                "2024-08-15T09:00:00Z" 1723712400000000 (advance 5 w) eq_refl)
      as (r2 & E2 & H2);
      [vm_compute; reflexivity | vm_compute; discriminate
       | vm_compute; reflexivity | vm_compute; split; discriminate |].
    destruct (parsed_score_above (H := Iso8601.lib)
                (Sample.record 70 "2024-08-15T08:00:00Z")
                "2024-08-15T08:00:00Z" 1723708800000000 (advance 7 w) eq_refl)
      as (r3 & E3 & H3);
      [vm_compute; reflexivity | vm_compute; discriminate
       | vm_compute; reflexivity | vm_compute; split; discriminate |].
    destruct (parsed_score_above (H := Iso8601.lib)
                (Sample.record 45 "2024-08-15T11:00:00Z")
                "2024-08-15T11:00:00Z" 1723719600000000 (advance 9 w) eq_refl)
      as (r4 & E4 & H4);
      [vm_compute; reflexivity | vm_compute; discriminate
       | vm_compute; reflexivity | vm_compute; split; discriminate |].
    assert (Ekeys :
      for_each (calculate_score (H := Iso8601.lib))
        SampleUnparsable.collection w
      = (Ok [PyFloat r0; PyFloat r1; PyFloat r2; PyFloat r3; PyFloat r4],
         advance 11 w)).
    { unfold SampleUnparsable.collection, SampleUnparsable.parsed.
      cbn [for_each]. unfold bind.
      rewrite E0. change (advance 2 (advance 3 w)) with (advance 5 w) in E1.
      rewrite E1. change (advance 2 (advance 5 w)) with (advance 7 w) in E2.
      rewrite E2. change (advance 2 (advance 7 w)) with (advance 9 w) in E3.
      rewrite E3. change (advance 2 (advance 9 w)) with (advance 11 w) in E4.
      rewrite E4. reflexivity. }
    destruct (sort_decorated_total
                (combine [PyFloat r0; PyFloat r1; PyFloat r2; PyFloat r3;
                          PyFloat r4] SampleUnparsable.collection))
      as [r Hr].
    { apply floats_comparable. repeat constructor; eexists; reflexivity. }
    destruct (sort_decorated_least
                (PyFloat r0, SampleUnparsable.unparsable) []
                (combine [PyFloat r1; PyFloat r2; PyFloat r3; PyFloat r4]
                   SampleUnparsable.parsed) r)
      as [front ->]; [| exact Hr |].
    { intros y [<- | [<- | [<- | [<- | []]]]]; cbn [fst py_lt pynum_ord];
        rewrite Rltb_true, Rltb_false by lra; split; reflexivity. }
    exists (with_manager (set_papers (map snd (front ++ [(PyFloat r0, SampleUnparsable.unparsable)])%list)) (advance 11 w)),
           (map snd front).
    split; [| split].
    + rewrite sort_papers_eq.
      change (sort_by (calculate_score (H := Iso8601.lib)) w = (Ok tt,
        with_manager (set_papers (map snd (front ++ [(PyFloat r0, SampleUnparsable.unparsable)])%list)) (advance 11 w))).
      unfold sort_by, sorted_reverse, bind, self.
      change (raw_papers (paper_manager w)) with SampleUnparsable.collection.
      rewrite Ekeys. unfold lift. rewrite Hr. reflexivity.
    + cbn [paper_manager with_manager papers set_papers].
      rewrite map_app. reflexivity.
    + apply sort_decorated_perm, Permutation_length in Hr.
      rewrite length_app in Hr. cbn [List.length combine
        SampleUnparsable.collection SampleUnparsable.parsed] in Hr.
      rewrite length_map. lia.
  - exists
      (with_manager
         (set_papers
            [Sample.record 45 "2024-08-15T11:00:00Z";
             Sample.record 50 "2024-08-15T10:00:00Z";
             Sample.record 60 "2024-08-15T09:00:00Z";
             Sample.record 70 "2024-08-15T08:00:00Z";
             SampleUnparsable.unparsable])
         (SampleSession.loaded "new" SampleUnparsable.collection)),
      [Sample.record 45 "2024-08-15T11:00:00Z";
       Sample.record 50 "2024-08-15T10:00:00Z";
       Sample.record 60 "2024-08-15T09:00:00Z";
       Sample.record 70 "2024-08-15T08:00:00Z"].
    split; [reflexivity |]. split; reflexivity.
Qed.

(** A timestamp without an offset is as fatal, and under every method: the
    "new" sort stores the list, and rendering it raises when [format_paper]
    subtracts the naive timestamp from the clock. *)
Lemma naive_timestamp_aborts_rendering :
  fst (change_sort_method (H := Iso8601.lib) "New"
         (SampleSession.loaded "hot"
            [SampleFuture.ontime; SampleFuture.naive]))
  = Raise TypeError.
Proof. vm_compute. reflexivity. Qed.

(** * Further properties *)

(** ** The sorted list is in descending order *)

Section Descending.
Context `{DatetimeLib}.

Lemma sort_by_published_descending (w w' : World) :
  sort_by published_key w = (Ok tt, w') ->
  StronglySorted (fun x y => String.ltb (published x) (published y) = false)
    (papers (paper_manager w')).
Proof.
  intros Hsort.
  destruct (sort_by_ok published_key w w' published_key_clock_only Hsort)
    as (ks & r & n & E & Hlen & Hr & ->).
  rewrite published_keys in E. injection E as <- _.
  cbn [paper_manager with_manager papers set_papers].
  apply StronglySorted_map.
  pose proof (sort_decorated_descending string_lt_asym string_lt_trans _ _ Hr)
    as Hsorted.
  assert (Hfst : forall x, In x r -> fst x = published (snd x)).
  { intros x Hx. apply (combine_map_fst published (raw_papers (paper_manager w))).
    eapply Permutation_in; [| exact Hx].
    apply Permutation_sym, sort_decorated_perm, Hr. }
  eapply StronglySorted_impl_in; [| exact Hsorted].
  intros x y Hx Hy. unfold not_below.
  rewrite (Hfst x Hx), (Hfst y Hy).
  change (Ok (String.ltb (published (snd x)) (published (snd y))) = Ok false ->
          String.ltb (published (snd x)) (published (snd y)) = false).
  intros [= E]. exact E.
Qed.

Lemma sort_by_score_descending (key : RawItem -> M pynum) (w w' : World) :
  (forall x, clock_only (key x)) ->
  sort_by key w = (Ok tt, w') ->
  exists (ks : list pynum) (r : list (pynum * RawItem)) (w1 : World),
    for_each key (raw_papers (paper_manager w)) w = (Ok ks, w1)
    /\ Permutation (combine ks (raw_papers (paper_manager w))) r
    /\ map snd r = papers (paper_manager w')
    /\ StronglySorted (fun x y => pynum_le (fst y) (fst x)) r.
Proof.
  intros Hkey Hsort.
  destruct (sort_by_ok key w w' Hkey Hsort) as (ks & r & n & E & Hlen & Hr & ->).
  exists ks, r, (advance n w). repeat split; try assumption.
  - apply sort_decorated_perm, Hr.
  - pose proof (sort_decorated_descending pynum_lt_asym pynum_lt_trans _ _ Hr)
      as Hsorted.
    eapply StronglySorted_impl_in; [| exact Hsorted].
    intros x y _ _. apply pynum_not_below.
Qed.

End Descending.

(** X1.  When [sort_papers] stores a list, the list is in descending order
    of the sort key: under "new" no record stands before one with a greater
    raw [publishedAt]; under the other methods the scores computed in this
    pass are floats (or infinities) along any two positions and never
    increase. *)
Theorem sort_papers_descending `{DatetimeLib} (w w' : World) :
  sort_papers w = (Ok tt, w') ->
  (sort_method (paper_manager w) = "new" ->
     StronglySorted
       (fun x y => String.ltb (published x) (published y) = false)
       (papers (paper_manager w')))
  /\ (sort_method (paper_manager w) <> "new" ->
      exists (ks : list pynum) (r : list (pynum * RawItem)) (w1 : World),
        for_each (if String.eqb (sort_method (paper_manager w)) "rising"
                  then calculate_rising_score else calculate_score)
          (raw_papers (paper_manager w)) w = (Ok ks, w1)
        /\ Permutation (combine ks (raw_papers (paper_manager w))) r
        /\ map snd r = papers (paper_manager w')
        /\ StronglySorted (fun x y => pynum_le (fst y) (fst x)) r).
Proof.
  rewrite sort_papers_eq. intros Hsort. split.
  - intros Hnew. rewrite Hnew in Hsort. cbn in Hsort.
    apply (sort_by_published_descending w w' Hsort).
  - intros Hnew.
    destruct (String.eqb (sort_method (paper_manager w)) "new") eqn:E.
    { apply String.eqb_eq in E. contradiction. }
    destruct (String.eqb (sort_method (paper_manager w)) "rising").
    + apply sort_by_score_descending;
        [apply calculate_rising_score_clock_only | exact Hsort].
    + apply sort_by_score_descending;
        [apply calculate_score_clock_only | exact Hsort].
Qed.

Lemma sort_papers_descending_witness :
  let w := SampleSession.loaded "new" SampleSession.collection in
  let w' :=
    with_manager
      (set_papers [SampleSession.latest; SampleSession.first;
                   SampleSession.second; SampleSession.third]) w in
  sort_papers (H := Iso8601.lib) w = (Ok tt, w')
  /\ StronglySorted
       (fun x y => String.ltb (published x) (published y) = false)
       [SampleSession.latest; SampleSession.first;
        SampleSession.second; SampleSession.third].
Proof.
  intros w w'.
  assert (Hsort : sort_papers (H := Iso8601.lib) w = (Ok tt, w'))
    by reflexivity.
  split; [exact Hsort |].
  destruct (sort_papers_descending (H := Iso8601.lib) w w' Hsort) as [Hnew _].
  exact (Hnew eq_refl).
Defined.

(** X2.  Under "new" a record without [publishedAt] is compared by the empty
    string, so that every record that stands after it in the stored list
    has no [publishedAt] (or an empty one) either: such records come
    last. *)
Theorem unpublished_records_last `{DatetimeLib} (w w' : World)
    (l1 l2 : list RawItem) (x : RawItem) :
  sort_papers w = (Ok tt, w') ->
  sort_method (paper_manager w) = "new" ->
  papers (paper_manager w') = (l1 ++ x :: l2)%list ->
  published x = EmptyString ->
  Forall (fun y => published y = EmptyString) l2.
Proof.
  intros Hsort Hnew Hpapers Hx.
  rewrite sort_papers_eq, Hnew in Hsort. cbn in Hsort.
  apply sort_by_published_descending in Hsort. rewrite Hpapers in Hsort.
  apply StronglySorted_after in Hsort.
  eapply Forall_impl; [| exact Hsort].
  intros y. cbv beta. rewrite Hx. destruct (published y); [reflexivity |].
  discriminate.
Qed.

Lemma unpublished_records_last_witness :
  let w := SampleSession.loaded "new" SampleMissing.collection in
  let sorted :=
    [SampleSession.latest; SampleSession.first;
     SampleMissing.bare "Untitled draft"; SampleMissing.bare "Another draft"] in
  sort_papers (H := Iso8601.lib) w = (Ok tt, with_manager (set_papers sorted) w)
  /\ Forall (fun y => published y = EmptyString)
       [SampleMissing.bare "Another draft"].
Proof.
  intros w sorted.
  assert (Hsort : sort_papers (H := Iso8601.lib) w
                  = (Ok tt, with_manager (set_papers sorted) w))
    by reflexivity.
  split; [exact Hsort |].
  apply (unpublished_records_last (H := Iso8601.lib) w
           (with_manager (set_papers sorted) w)
           [SampleSession.latest; SampleSession.first]
           [SampleMissing.bare "Another draft"]
           (SampleMissing.bare "Untitled draft") Hsort);
    reflexivity.
Defined.

(** ** What a fetch can do to the session *)

Section FetchOutcomes.
Context `{DatetimeLib}.

Lemma fetch_papers_request_failed (w : World) :
  fetch_papers RequestFailed w
  = (Ok false,
     with_output [PrintedError "Error fetching papers:" RequestException] w).
Proof. reflexivity. Qed.

Lemma fetch_papers_response_invalid (w : World) :
  fetch_papers ResponseInvalid w
  = (Ok false,
     with_output [PrintedError "Unexpected error:" OtherException] w).
Proof. reflexivity. Qed.

(** The session after a fetch: on success the page is 1 of at least one; on
    failure only [raw_papers] can differ (and [papers], when the page size
    is 0 and the division raised after the sort). *)
Lemma fetch_papers_outcome (response : Response) (w : World) :
  let m := paper_manager w in
  let m' := paper_manager (snd (fetch_papers response w)) in
  (fst (fetch_papers response w) = Ok true
   /\ current_page m' = 1 /\ 1 <= total_pages m'
   /\ papers_per_page m' = papers_per_page m
   /\ sort_method m' = sort_method m
   /\ exists data, response = Json data /\ raw_papers m' = data)
  \/ (fst (fetch_papers response w) = Ok false
      /\ settings m' = settings m
      /\ (papers_per_page m <> 0 -> papers m' = papers m)
      /\ (raw_papers m' = raw_papers m
          \/ exists data, response = Json data /\ raw_papers m' = data)).
Proof.
  intros m m'. subst m m'.
  destruct response as [| | [| first rest]].
  - right. rewrite fetch_papers_request_failed. repeat split; auto.
  - right. rewrite fetch_papers_response_invalid. repeat split; auto.
  - right. rewrite fetch_papers_empty. repeat split; auto.
  - rewrite fetch_papers_data.
    destruct (sort_papers _) as [[[] | e] w1] eqn:Esort.
    + destruct (sort_papers_shape _ _ Esort) as (l & n & -> & _).
      cbn [paper_manager with_manager advance with_output papers set_papers
           papers_per_page set_raw_papers raw_papers].
      unfold floor_div.
      destruct (papers_per_page (paper_manager w) =? 0) eqn:Eppp.
      * right. cbn [fst snd paper_manager with_manager advance with_output].
        repeat split.
        -- intros Hppp. apply Z.eqb_eq in Eppp. contradiction.
        -- right. eexists. split; reflexivity.
      * left. cbn [fst snd paper_manager with_manager advance with_output
                   current_page total_pages set_current_page set_total_pages
                   papers_per_page sort_method set_papers set_raw_papers
                   raw_papers].
        repeat split; [lia |]. eexists. split; reflexivity.
    + right. destruct (sort_papers_raise _ _ _ Esort) as [n ->].
      cbn [fst snd paper_manager with_manager advance with_output].
      repeat split. right. eexists. split; reflexivity.
Qed.

Lemma fetch_papers_returns (response : Response) (w : World) :
  exists b, fst (fetch_papers response w) = Ok b.
Proof.
  destruct (fetch_papers_outcome response w) as [(E & _) | (E & _)];
    eexists; exact E.
Qed.

Lemma initialize_app_failed (response : Response) (w : World) :
  fst (fetch_papers response w) = Ok false ->
  initialize_app response w
  = (Ok failed_to_fetch, snd (fetch_papers response w)).
Proof.
  intros E. unfold initialize_app, bind.
  destruct (fetch_papers response w) as [r w1]. cbn [fst snd] in *.
  subst r. reflexivity.
Qed.

Lemma initialize_app_manager (response : Response) (w : World) :
  paper_manager (snd (initialize_app response w))
  = paper_manager (snd (fetch_papers response w)).
Proof.
  unfold initialize_app, bind.
  destruct (fetch_papers response w) as [[[|] | e] w1]; cbn [snd];
    try reflexivity.
  apply render_papers_manager.
Qed.

End FetchOutcomes.

(** X3.  [fetch_papers] never raises: whatever the request yields and
    whatever happens while sorting, it returns [True] or [False].  It
    returns [False] when the request fails, when the response is not valid
    and when the list received is empty, and then [initialize_app] returns
    the failure document. *)
Theorem fetch_papers_never_raises `{DatetimeLib} (response : Response)
    (w : World) :
  exists b : bool,
    fst (fetch_papers response w) = Ok b
    /\ (response = RequestFailed \/ response = ResponseInvalid
        \/ response = Json [] -> b = false)
    /\ (b = false ->
        initialize_app response w
        = (Ok failed_to_fetch, snd (fetch_papers response w))).
Proof.
  destruct (fetch_papers_returns response w) as [b Hb]. exists b.
  split; [exact Hb |]. split.
  - intros [-> | [-> | ->]]; cbn in Hb; congruence.
  - intros ->. apply initialize_app_failed, Hb.
Qed.

Lemma fetch_papers_never_raises_witness :
  initialize_app (H := Iso8601.lib) ResponseInvalid (fresh Sample.ticking)
  = (Ok failed_to_fetch,
     snd (fetch_papers (H := Iso8601.lib) ResponseInvalid
            (fresh Sample.ticking))).
Proof.
  destruct (fetch_papers_never_raises (H := Iso8601.lib) ResponseInvalid
              (fresh Sample.ticking)) as (b & Hb & Hfalse & Hinit).
  apply Hinit, Hfalse. right. left. reflexivity.
Defined.

(** X4.  A fetch that fails (with a page size other than 0) leaves the
    page shown as it was: [papers], [current_page], [total_pages],
    [sort_method] and the page size are unchanged.  [raw_papers] is
    unchanged too, unless a list was received and sorting it raised: then
    it is that list. *)
Theorem failed_fetch_keeps_page `{DatetimeLib} (response : Response)
    (w : World) :
  fst (fetch_papers response w) = Ok false ->
  papers_per_page (paper_manager w) <> 0 ->
  let m := paper_manager w in
  let m' := paper_manager (snd (fetch_papers response w)) in
  papers m' = papers m
  /\ current_page m' = current_page m
  /\ total_pages m' = total_pages m
  /\ sort_method m' = sort_method m
  /\ papers_per_page m' = papers_per_page m
  /\ (raw_papers m' = raw_papers m
      \/ exists data, response = Json data /\ raw_papers m' = data).
Proof.
  intros Hfalse Hppp m m'. subst m m'.
  destruct (fetch_papers_outcome response w)
    as [(E & _) | (_ & Hsettings & Hpapers & Hraw)]; [congruence |].
  unfold settings in Hsettings. injection Hsettings as E1 E2 E3 E4.
  repeat split; auto.
Qed.

Lemma failed_fetch_keeps_page_witness :
  let data := [SampleFuture.ontime; SampleFuture.future] in
  let w' := snd (fetch_papers (H := Iso8601.lib) (Json data)
                   (fresh Sample.ticking)) in
  papers (paper_manager w') = []
  /\ total_pages (paper_manager w') = 1
  /\ raw_papers (paper_manager w') = data.
Proof.
  intros data w'.
  assert (Hfalse : fst (fetch_papers (H := Iso8601.lib) (Json data)
                          (fresh Sample.ticking)) = Ok false).
  { subst data. rewrite fetch_papers_data.
    rewrite sort_papers_future_raises; try reflexivity.
    cbn [ticks with_manager with_output fresh]. lia. }
  destruct (failed_fetch_keeps_page (H := Iso8601.lib) (Json data)
              (fresh Sample.ticking) Hfalse)
    as (Hpapers & _ & Htotal & _ & _ & Hraw).
  - cbn. discriminate.
  - fold w' in Hpapers, Htotal, Hraw.
    split; [exact Hpapers |]. split; [exact Htotal |].
    destruct Hraw as [Hraw | (data' & [= <-] & Hraw)]; [| exact Hraw].
    subst w' data. rewrite fetch_papers_data in Hraw |- *.
    rewrite sort_papers_future_raises in Hraw |- *; try reflexivity;
      cbn [ticks with_manager with_output fresh]; lia.
Defined.

(** ** What the callbacks keep *)

Lemma effective_valid (method : string) :
  In (effective method) ["hot"; "new"; "rising"].
Proof.
  unfold effective. destruct (existsb _ _) eqn:E; [| left; reflexivity].
  apply existsb_exists in E as (x & Hx & Heq).
  apply String.eqb_eq in Heq. subst x. exact Hx.
Qed.

Section Kept.
Context `{DatetimeLib}.

Lemma sort_papers_settings (w : World) :
  settings (paper_manager (snd (sort_papers w))) = settings (paper_manager w)
  /\ raw_papers (paper_manager (snd (sort_papers w)))
     = raw_papers (paper_manager w)
  /\ stdout (snd (sort_papers w)) = stdout w
  /\ wall (snd (sort_papers w)) = wall w
  /\ (ticks w <= ticks (snd (sort_papers w)))%nat.
Proof.
  destruct (sort_papers w) as [[[] | e] w'] eqn:Esort; cbn [snd].
  - destruct (sort_papers_shape _ _ Esort) as (l & n & -> & _).
    cbn. repeat split. lia.
  - destruct (sort_papers_raise _ _ _ Esort) as [n ->].
    cbn. repeat split. lia.
Qed.

Lemma change_sort_method_settings (method : string) (w : World) :
  let m := paper_manager w in
  let m' := paper_manager (snd (change_sort_method method w)) in
  papers_per_page m' = papers_per_page m
  /\ total_pages m' = total_pages m
  /\ raw_papers m' = raw_papers m
  /\ sort_method m' = effective (lower method)
  /\ (current_page m' = 1 \/ current_page m' = current_page m).
Proof.
  intros m m'. subst m m'. rewrite change_sort_method_eq.
  destruct (sort_papers _) as [[[] | e] w1] eqn:Esort.
  - rewrite render_papers_manager.
    destruct (sort_papers_shape _ _ Esort) as (l & n & -> & _).
    cbn. repeat split. left. reflexivity.
  - destruct (sort_papers_raise _ _ _ Esort) as [n ->].
    cbn. repeat split. right. reflexivity.
Qed.

Lemma next_page_manager (w : World) :
  paper_manager (snd (next_page w))
  = set_current_page
      (if current_page (paper_manager w) <? total_pages (paper_manager w)
       then current_page (paper_manager w) + 1
       else current_page (paper_manager w)) (paper_manager w).
Proof.
  rewrite next_page_eq, render_papers_manager.
  destruct (_ <? _); [reflexivity |]. symmetry. apply set_current_page_same.
Qed.

Lemma prev_page_manager (w : World) :
  paper_manager (snd (prev_page w))
  = set_current_page
      (if 1 <? current_page (paper_manager w)
       then current_page (paper_manager w) - 1
       else current_page (paper_manager w)) (paper_manager w).
Proof.
  rewrite prev_page_eq, render_papers_manager.
  destruct (_ <? _); [reflexivity |]. symmetry. apply set_current_page_same.
Qed.

Lemma dispatch_keeps_bounds (e : event) (w : World) :
  let m := paper_manager w in
  let m' := paper_manager (snd (dispatch e w)) in
  1 <= current_page m <= total_pages m ->
  In (sort_method m) ["hot"; "new"; "rising"] ->
  1 <= current_page m' <= total_pages m'
  /\ papers_per_page m' = papers_per_page m
  /\ In (sort_method m') ["hot"; "new"; "rising"].
Proof.
  intros m m' Hpage Hmethod. subst m m'. destruct e as [response | method | |];
    cbn [dispatch].
  - rewrite initialize_app_manager.
    destruct (fetch_papers_outcome response w)
      as [(_ & Hcur & Htotal & Hppp & Hm & _) | (_ & Hsettings & _)].
    + rewrite Hcur, Hm. repeat split; [lia | lia | exact Hppp | exact Hmethod].
    + unfold settings in Hsettings. injection Hsettings as -> -> -> ->.
      repeat split; [lia | lia | exact Hmethod].
  - destruct (change_sort_method_settings method w)
      as (Hppp & Htotal & _ & Hm & Hcur).
    rewrite Htotal, Hm. split; [| split; [exact Hppp | apply effective_valid]].
    destruct Hcur as [-> | ->]; lia.
  - rewrite prev_page_manager. cbn.
    destruct (1 <? current_page (paper_manager w)) eqn:E;
      [apply Z.ltb_lt in E | apply Z.ltb_ge in E];
      repeat split; try lia; exact Hmethod.
  - rewrite next_page_manager. cbn.
    destruct (current_page (paper_manager w) <? total_pages (paper_manager w))
      eqn:E; [apply Z.ltb_lt in E | apply Z.ltb_ge in E];
      repeat split; try lia; exact Hmethod.
Qed.

End Kept.

(** X5.  In every world the program can reach, whatever the events were and
    whether their callbacks returned or raised, the current page lies
    between 1 and [total_pages], the page size is 30, and the sort method is
    one of "hot", "new" and "rising". *)
Theorem session_invariant `{DatetimeLib} (w : World) :
  reachable w ->
  1 <= current_page (paper_manager w) <= total_pages (paper_manager w)
  /\ papers_per_page (paper_manager w) = 30
  /\ In (sort_method (paper_manager w)) ["hot"; "new"; "rising"].
Proof.
  induction 1 as [clock | e w Hw (Hpage & Hppp & Hmethod)].
  - cbn. repeat split; try lia. left. reflexivity.
  - destruct (dispatch_keeps_bounds e w Hpage Hmethod) as (Hpage' & Hppp' & Hm').
    repeat split; try apply Hpage'; [congruence | exact Hm'].
Qed.

Lemma session_invariant_witness :
  let w :=
    snd (dispatch (H := Iso8601.lib) NextClicked
           (snd (dispatch (H := Iso8601.lib) (SortChanged "Rising")
                   (fresh Sample.ticking)))) in
  1 <= current_page (paper_manager w) <= total_pages (paper_manager w)
  /\ papers_per_page (paper_manager w) = 30
  /\ In (sort_method (paper_manager w)) ["hot"; "new"; "rising"].
Proof.
  intros w. apply (session_invariant (H := Iso8601.lib) w).
  apply reachable_step, reachable_step, reachable_start.
Defined.

(** X6.  Sorting touches nothing but the sorted list and the clock:
    [sort_papers] leaves the page size, the current page, the page count,
    the method, the raw collection and what was printed as they were, and
    so does a change of method, but for the method it stores and the page it
    may reset to 1. *)
Theorem sorting_keeps_settings `{DatetimeLib} (method : string) (w : World) :
  let m := paper_manager w in
  let sorted := snd (sort_papers w) in
  let changed := paper_manager (snd (change_sort_method method w)) in
  settings (paper_manager sorted) = settings m
  /\ raw_papers (paper_manager sorted) = raw_papers m
  /\ stdout sorted = stdout w
  /\ wall sorted = wall w
  /\ (ticks w <= ticks sorted)%nat
  /\ papers_per_page changed = papers_per_page m
  /\ total_pages changed = total_pages m
  /\ raw_papers changed = raw_papers m
  /\ sort_method changed = effective (lower method)
  /\ (current_page changed = 1 \/ current_page changed = current_page m).
Proof.
  intros m sorted changed. subst m sorted changed.
  destruct (sort_papers_settings w) as (H1 & H2 & H3 & H4 & H5).
  destruct (change_sort_method_settings method w) as (H6 & H7 & H8 & H9 & H10).
  repeat split; assumption.
Qed.

(** ** Pages *)

Lemma set_current_page_twice (a b : Z) (m : PaperManager) :
  set_current_page a (set_current_page b m) = set_current_page a m.
Proof. reflexivity. Qed.

Lemma slice_nonneg {A : Type} (l : list A) (start stop : Z) :
  0 <= start -> 0 <= stop ->
  slice l start stop
  = firstn (Z.to_nat (Z.min stop (len l) - Z.min start (len l)))
      (skipn (Z.to_nat (Z.min start (len l))) l).
Proof.
  intros Hstart Hstop. unfold slice, clamp_index, len.
  destruct (start <? 0) eqn:E1; [apply Z.ltb_lt in E1; lia |].
  destruct (stop <? 0) eqn:E2; [apply Z.ltb_lt in E2; lia |].
  reflexivity.
Qed.

Lemma slice_window {A : Type} (l : list A) (start size : Z) :
  0 <= start -> 0 <= size ->
  slice l start (start + size)
  = firstn (Z.to_nat size) (skipn (Z.to_nat start) l).
Proof.
  intros Hstart Hsize. rewrite slice_nonneg by lia. unfold len.
  destruct (Z.le_gt_cases (Z.of_nat (List.length l)) start) as [Hout | Hin].
  - rewrite Z.min_r by lia.
    rewrite !skipn_all2 by lia. rewrite !firstn_nil. reflexivity.
  - rewrite (Z.min_l start) by lia.
    destruct (Z.le_gt_cases (start + size) (Z.of_nat (List.length l)))
      as [Hfits | Hcut].
    + rewrite Z.min_l by lia. f_equal. lia.
    + rewrite Z.min_r by lia.
      rewrite !firstn_all2; [reflexivity | |]; rewrite length_skipn; lia.
Qed.

Lemma firstn_plus {A : Type} (n m : nat) (l : list A) :
  firstn (n + m) l = (firstn n l ++ firstn m (skipn n l))%list.
Proof.
  revert l. induction n as [| n IH]; intros [| x l]; cbn;
    try rewrite firstn_nil; try reflexivity.
  f_equal. apply IH.
Qed.

Lemma page_window (s : PaperManager) (p : Z) :
  1 <= p -> 0 <= papers_per_page s ->
  page s p
  = firstn (Z.to_nat (papers_per_page s))
      (skipn (Z.to_nat ((p - 1) * papers_per_page s)) (papers s)).
Proof. intros Hp Hppp. unfold page. apply slice_window; nia. Qed.

Lemma pages_prefix (s : PaperManager) (k : nat) :
  0 <= papers_per_page s ->
  List.concat (map (fun i => page s (Z.of_nat i)) (seq 1 k))
  = firstn (k * Z.to_nat (papers_per_page s)) (papers s).
Proof.
  intros Hppp. induction k as [| k IH]; [reflexivity |].
  rewrite seq_S, map_app, List.concat_app, IH. cbn [map List.concat].
  rewrite app_nil_r, page_window by lia.
  replace (Z.to_nat ((Z.of_nat (1 + k) - 1) * papers_per_page s))
    with (k * Z.to_nat (papers_per_page s))%nat by nia.
  rewrite <- firstn_plus. f_equal. lia.
Qed.

Lemma pages_cover (s : PaperManager) (k : nat) :
  0 <= papers_per_page s ->
  len (papers s) <= Z.of_nat k * papers_per_page s ->
  List.concat (map (fun i => page s (Z.of_nat i)) (seq 1 k)) = papers s.
Proof.
  intros Hppp Hk. rewrite pages_prefix by exact Hppp.
  apply firstn_all2. unfold len in Hk. nia.
Qed.

Lemma ceiling_covers (n : Z) : n <= Z.max (Qceiling (n # 30)) 1 * 30.
Proof.
  rewrite <- ceiling_div_30.
  pose proof (Z.div_mod (n + 30 - 1) 30 ltac:(lia)).
  pose proof (Z.mod_pos_bound (n + 30 - 1) 30 ltac:(lia)).
  lia.
Qed.

Lemma nth_error_enumerate_from {A : Type} (l : list A) (k : Z) (i : nat)
    (x : A) :
  nth_error l i = Some x ->
  nth_error (enumerate_from k l) i = Some (k + Z.of_nat i, x).
Proof.
  revert k i. induction l as [| a l IH]; intros k [| i]; cbn; try discriminate.
  - intros [= <-]. do 2 f_equal. lia.
  - intros Hx. rewrite (IH (k + 1) i Hx). do 2 f_equal. lia.
Qed.

Lemma for_each_ext {A B : Type} (f g : A -> M B) (l : list A) :
  (forall x, f x = g x) -> for_each f l = for_each g l.
Proof.
  intros Hfg. induction l as [| x l IH]; cbn; [reflexivity |].
  rewrite Hfg, IH. reflexivity.
Qed.

Lemma for_each_map {A B C : Type} (f : B -> M C) (g : A -> B) (l : list A) :
  for_each f (map g l) = for_each (fun x => f (g x)) l.
Proof.
  induction l as [| x l IH]; cbn; [reflexivity |]. rewrite IH. reflexivity.
Qed.

Section Pages.
Context `{DatetimeLib}.

Lemma render_papers_rows (w : World) :
  render_papers w = render_rows (ranked (paper_manager w)) w.
Proof.
  unfold render_papers, render_rows, ranked, bind, self.
  change (slice (papers (paper_manager w))
            ((current_page (paper_manager w) - 1)
             * papers_per_page (paper_manager w))
            ((current_page (paper_manager w) - 1)
             * papers_per_page (paper_manager w)
             + papers_per_page (paper_manager w)))
    with (page (paper_manager w) (current_page (paper_manager w))).
  destruct (page (paper_manager w) (current_page (paper_manager w)))
    as [| x l]; [reflexivity |].
  remember (map (fun '(idx, paper_) =>
                   (idx + (current_page (paper_manager w) - 1)
                          * papers_per_page (paper_manager w) + 1, paper_))
              (enumerate (x :: l))) as rows eqn:Erows.
  transitivity
    (bind (for_each (fun '(rank, paper_) => format_paper paper_ rank) rows)
       (fun htmls => ret (table (join EmptyString htmls))) w).
  - rewrite Erows, for_each_map.
    match goal with
    | |- _ = bind (for_each ?f _) _ _ =>
        rewrite (for_each_ext f
                   (fun '(idx, paper_) =>
                      format_paper paper_
                        (idx + (current_page (paper_manager w) - 1)
                               * papers_per_page (paper_manager w) + 1)))
          by (intros [idx paper_]; reflexivity)
    end.
    reflexivity.
  - destruct rows; [discriminate Erows | reflexivity].
Qed.

Lemma ranked_nth (s : PaperManager) (i : nat) (p : RawItem) :
  1 <= current_page s -> 0 <= papers_per_page s ->
  nth_error (page s (current_page s)) i = Some p ->
  nth_error (ranked s) i
  = Some ((current_page s - 1) * papers_per_page s + Z.of_nat i + 1, p)
  /\ nth_error (papers s)
       (Z.to_nat ((current_page s - 1) * papers_per_page s) + i) = Some p
  /\ (i < Z.to_nat (papers_per_page s))%nat.
Proof.
  intros Hcur Hppp Hp. split; [| split].
  - unfold ranked, enumerate.
    rewrite nth_error_map, (nth_error_enumerate_from _ 0 i p Hp). cbn.
    do 2 f_equal. lia.
  - rewrite page_window in Hp by assumption.
    rewrite nth_error_firstn in Hp. destruct (i <? _)%nat; [| discriminate].
    rewrite nth_error_skipn in Hp. exact Hp.
  - rewrite page_window in Hp by assumption.
    rewrite nth_error_firstn in Hp.
    destruct (i <? _)%nat eqn:E; [| discriminate].
    apply Nat.ltb_lt in E. exact E.
Qed.

End Pages.

(** X7.  Turning a page and turning back restores the session: from a page
    that is not the last, [next_page] followed by [prev_page] leaves every
    field of the session as it was, and so does [prev_page] followed by
    [next_page] from a page that is not the first. *)
Theorem next_prev_round_trip `{DatetimeLib} (w : World) :
  let m := paper_manager w in
  (1 <= current_page m < total_pages m ->
   paper_manager (snd (prev_page (snd (next_page w)))) = m)
  /\ (1 < current_page m <= total_pages m ->
      paper_manager (snd (next_page (snd (prev_page w)))) = m).
Proof.
  intros m. subst m. split; intros Hpage.
  - rewrite prev_page_manager, next_page_manager.
    assert (E : (current_page (paper_manager w)
                 <? total_pages (paper_manager w)) = true)
      by (apply Z.ltb_lt; lia).
    rewrite E. cbn [current_page set_current_page].
    assert (E1 : (1 <? current_page (paper_manager w) + 1) = true)
      by (apply Z.ltb_lt; lia).
    rewrite E1, set_current_page_twice.
    replace (current_page (paper_manager w) + 1 - 1)
      with (current_page (paper_manager w)) by lia.
    apply set_current_page_same.
  - rewrite next_page_manager, prev_page_manager.
    assert (E : (1 <? current_page (paper_manager w)) = true)
      by (apply Z.ltb_lt; lia).
    rewrite E. cbn [current_page total_pages set_current_page].
    assert (E1 : (current_page (paper_manager w) - 1
                  <? total_pages (paper_manager w)) = true)
      by (apply Z.ltb_lt; lia).
    rewrite E1, set_current_page_twice.
    replace (current_page (paper_manager w) - 1 + 1)
      with (current_page (paper_manager w)) by lia.
    apply set_current_page_same.
Qed.

Lemma next_prev_round_trip_witness :
  paper_manager
    (snd (prev_page (H := Iso8601.lib)
            (snd (next_page (H := Iso8601.lib) SamplePages.fetched))))
  = paper_manager SamplePages.fetched.
Proof.
  destruct (next_prev_round_trip (H := Iso8601.lib) SamplePages.fetched)
    as [Hround _].
  apply Hround. vm_compute. split; [discriminate | reflexivity].
Defined.

(** X8.  After a fetch that succeeds with 30 papers per page, the pages 1 to
    [total_pages] hold the sorted list exactly: put one after the other
    they are [papers], no record missing and none shown twice, and no page
    holds more than 30 records. *)
Theorem pages_partition_papers `{DatetimeLib} (data : list RawItem)
    (w w' : World) :
  papers_per_page (paper_manager w) = 30 ->
  fetch_papers (Json data) w = (Ok true, w') ->
  List.concat
    (map (fun i => page (paper_manager w') (Z.of_nat i))
       (seq 1 (Z.to_nat (total_pages (paper_manager w')))))
  = papers (paper_manager w')
  /\ forall p, 1 <= p -> (List.length (page (paper_manager w') p) <= 30)%nat.
Proof.
  intros Hppp Hfetch.
  destruct (fetch_papers_true data w w' Hppp Hfetch) as (Htotal & Hperm & _).
  assert (Hppp' : papers_per_page (paper_manager w') = 30).
  { destruct (fetch_papers_outcome (Json data) w)
      as [(_ & _ & _ & E & _) | (E & _)]; rewrite Hfetch in *; cbn [fst snd] in *;
      [congruence | discriminate]. }
  split.
  - apply pages_cover; [lia |].
    rewrite Hppp', Htotal, Z2Nat.id by lia.
    unfold len. rewrite <- (Permutation_length Hperm). apply ceiling_covers.
  - intros p Hp. rewrite page_window by lia. rewrite Hppp'.
    apply firstn_le_length.
Qed.

Lemma pages_partition_papers_witness :
  List.concat
    [page (paper_manager SamplePages.fetched) 1;
     page (paper_manager SamplePages.fetched) 2]
  = papers (paper_manager SamplePages.fetched).
Proof.
  destruct (pages_partition_papers (H := Iso8601.lib) SamplePages.collection
              (SampleSession.loaded "new" []) SamplePages.fetched eq_refl)
    as [Hcover _]; [reflexivity |].
  exact Hcover.
Defined.

(** X9.  [render_papers] numbers the records of the page by their place in
    the sorted list: the record at position [i] of the current page is
    handed to [format_paper] with rank
    [(current_page - 1) * papers_per_page + i + 1], and it is the record at
    that place (counting from 1) of [papers]. *)
Theorem rendered_ranks_are_positions `{DatetimeLib} (w : World) (i : nat)
    (p : RawItem) :
  let s := paper_manager w in
  1 <= current_page s ->
  0 <= papers_per_page s ->
  nth_error (page s (current_page s)) i = Some p ->
  render_papers w = render_rows (ranked s) w
  /\ nth_error (ranked s) i
     = Some ((current_page s - 1) * papers_per_page s + Z.of_nat i + 1, p)
  /\ nth_error (papers s)
       (Z.to_nat ((current_page s - 1) * papers_per_page s) + i) = Some p
  /\ (i < Z.to_nat (papers_per_page s))%nat.
Proof.
  intros s Hcur Hppp Hp. split; [apply render_papers_rows |].
  apply ranked_nth; assumption.
Qed.

Lemma rendered_ranks_are_positions_witness :
  let second_page := snd (next_page (H := Iso8601.lib) SamplePages.fetched) in
  nth_error (ranked (paper_manager second_page)) 0
  = Some (31, Sample.record 31 "2024-08-15T08:00:00Z").
Proof.
  intros second_page.
  destruct (rendered_ranks_are_positions (H := Iso8601.lib) second_page 0
              (Sample.record 31 "2024-08-15T08:00:00Z"))
    as (_ & Hrank & _).
  - vm_compute. discriminate.
  - vm_compute. discriminate.
  - vm_compute. reflexivity.
  - rewrite Hrank. vm_compute. reflexivity.
Defined.

Lemma render_rows_begins `{DatetimeLib} (rows : list (Z * RawItem)) (w : World)
    (html : string) :
  rows <> [] ->
  fst (render_rows rows w) = Ok html ->
  exists rest, html = String (ascii_of_nat 10) rest.
Proof.
  intros Hrows. destruct rows as [| r rows]; [contradiction |].
  unfold render_rows, bind.
  destruct (for_each _ _ w) as [[htmls | e] w1]; cbn [fst ret]; [| discriminate].
  intros [= <-]. eexists. reflexivity.
Qed.

Lemma firstn_nil_iff {A : Type} (n : nat) (l : list A) :
  (0 < n)%nat -> (firstn n l = [] <-> l = []).
Proof.
  intros Hn. destruct n as [| n]; [lia |]. destruct l; cbn; split; congruence.
Qed.

(** X10.  [render_papers] returns the placeholder exactly when the current
    page holds no record, which (from page 1 on, with a positive page
    size) is when the sorted list has no record beyond the pages before
    it. *)
Theorem placeholder_iff_page_empty `{DatetimeLib} (w : World) :
  let s := paper_manager w in
  (fst (render_papers w) = Ok no_papers_available
   <-> page s (current_page s) = [])
  /\ (1 <= current_page s -> 0 < papers_per_page s ->
      (page s (current_page s) = []
       <-> len (papers s) <= (current_page s - 1) * papers_per_page s)).
Proof.
  intros s. subst s. split.
  - rewrite render_papers_rows. unfold ranked. split.
    + intros Hhtml.
      destruct (page (paper_manager w) (current_page (paper_manager w)))
        as [| x l] eqn:Epage; [reflexivity | exfalso].
      eapply render_rows_begins in Hhtml as [rest Hrest];
        [discriminate Hrest | discriminate].
    + intros ->. reflexivity.
  - intros Hcur Hppp. rewrite page_window by lia.
    rewrite firstn_nil_iff by lia. rewrite <- skipn_all_iff. unfold len. nia.
Qed.

Lemma placeholder_iff_page_empty_witness :
  fst (render_papers (H := Iso8601.lib)
         (with_manager (set_current_page 3) SamplePages.fetched))
  = Ok no_papers_available.
Proof.
  destruct (placeholder_iff_page_empty (H := Iso8601.lib)
              (with_manager (set_current_page 3) SamplePages.fetched))
    as [Hplaceholder Hempty].
  apply Hplaceholder, Hempty; vm_compute; try reflexivity; discriminate.
Defined.

(** ** Errors of one record *)

Section RecordErrors.
Context `{DatetimeLib}.

Lemma format_paper_cases (item : RawItem) (rank : Z) (w : World) :
  match fromisoformat (replace_Z (published_at_str item w)) with
  | Some (Aware _) => exists html, format_paper item rank w = (Ok html, advance 2 w)
  | Some (Naive _) => format_paper item rank w = (Raise TypeError, advance 2 w)
  | None => exists html, format_paper item rank w = (Ok html, advance 3 w)
  end.
Proof.
  unfold format_paper, parse_published, published_at_str, bind, datetime_now.
  cbn.
  destruct (fromisoformat _) as [[t | t] |]; cbn;
    try (eexists; reflexivity); reflexivity.
Qed.

Lemma calculate_rising_score_parsed (item : RawItem) (s : string) (t : Z)
    (w : World) :
  publishedAt item = Some s ->
  fromisoformat (replace_Z s) = Some (Aware t) ->
  calculate_rising_score item w =
    (true_div (votes item) (PyFloat (hours (wall w (1 + ticks w) - t) + 1)%R),
     advance 2 w).
Proof.
  intros Hs Ht. rewrite calculate_rising_score_eq. unfold published_at_str.
  rewrite Hs. cbn [get]. rewrite Ht. reflexivity.
Qed.

End RecordErrors.

(** X11.  [format_paper] raises exactly when the timestamp it parses has no
    offset: then it raises [TypeError] after two readings of the clock.
    With any other timestamp, one that does not parse included, it returns
    the row; it reads the clock two or three times and changes nothing
    else. *)
Theorem format_paper_raises_iff_naive `{DatetimeLib} (item : RawItem)
    (rank : Z) (w : World) :
  let parsed := fromisoformat (replace_Z (published_at_str item w)) in
  ((exists t, parsed = Some (Naive t)) ->
   format_paper item rank w = (Raise TypeError, advance 2 w))
  /\ ((forall t, parsed <> Some (Naive t)) ->
      exists html n,
        format_paper item rank w = (Ok html, advance n w)
        /\ (n = 2 \/ n = 3)%nat)
  /\ (forall e, fst (format_paper item rank w) = Raise e ->
      e = TypeError /\ exists t, parsed = Some (Naive t)).
Proof.
  intros parsed. subst parsed.
  pose proof (format_paper_cases item rank w) as Hcases.
  destruct (fromisoformat _) as [[t | t] |].
  - destruct Hcases as [html Hhtml]. rewrite Hhtml. split; [| split].
    + intros [t' [=]].
    + intros _. exists html, 2%nat. split; [reflexivity | left; reflexivity].
    + intros e [=].
  - rewrite Hcases. split; [| split].
    + reflexivity.
    + intros Hnot. exfalso. exact (Hnot t eq_refl).
    + intros e [= <-]. split; [reflexivity | exists t; reflexivity].
  - destruct Hcases as [html Hhtml]. rewrite Hhtml. split; [| split].
    + intros [t' [=]].
    + intros _. exists html, 3%nat. split; [reflexivity | right; reflexivity].
    + intros e [=].
Qed.

Lemma format_paper_raises_iff_naive_witness :
  format_paper (H := Iso8601.lib) SampleFuture.naive 1 (fresh Sample.ticking)
  = (Raise TypeError, advance 2 (fresh Sample.ticking)).
Proof.
  destruct (format_paper_raises_iff_naive (H := Iso8601.lib) SampleFuture.naive
              1 (fresh Sample.ticking)) as [Hnaive _].
  apply Hnaive. exists 1723716000000000. vm_compute. reflexivity.
Defined.

(** X12.  A record dated ahead of the clock, with a vote count that converts
    to a float: when its aware timestamp is more than two hours ahead the
    Hot score is a [complex], at exactly two hours ahead [calculate_score]
    raises [ZeroDivisionError]; at exactly one hour ahead
    [calculate_rising_score] raises [ZeroDivisionError], and more than one
    hour ahead the Rising score of a record with votes is below 0: a
    negative float when the record is two hours or more ahead (closer to one
    hour the quotient can be beyond the floats, and the score is [-inf]). *)
Theorem scores_of_future_records `{DatetimeLib} (item : RawItem) (s : string)
    (t : Z) (w : World) :
  publishedAt item = Some s ->
  fromisoformat (replace_Z s) = Some (Aware t) ->
  votes_in_range item ->
  let age := hours (wall w (1 + ticks w) - t) in
  ((age < -2)%R -> calculate_score item w = (Ok PyComplex, advance 2 w))
  /\ (age = (-2)%R ->
      calculate_score item w = (Raise ZeroDivisionError, advance 2 w))
  /\ (age = (-1)%R ->
      calculate_rising_score item w = (Raise ZeroDivisionError, advance 2 w))
  /\ ((age < -1)%R -> 0 < votes item ->
      exists rising : pynum,
        calculate_rising_score item w = (Ok rising, advance 2 w)
        /\ py_lt rising (PyFloat 0) = Ok true
        /\ ((age <= -2)%R -> exists r : R, rising = PyFloat r /\ (r < 0)%R)).
Proof.
  intros Hs Ht Hv age. subst age. split; [| split; [| split]].
  - intros Hage. rewrite (calculate_score_parsed item s t w Hs Ht).
    rewrite pow_1_5_neg by lra. rewrite true_div_complex by exact Hv.
    reflexivity.
  - intros Hage. rewrite (calculate_score_parsed item s t w Hs Ht), Hage.
    replace (-2 + 2)%R with 0%R by lra.
    rewrite pow_1_5_zero, true_div_zero by exact Hv. reflexivity.
  - intros Hage. rewrite (calculate_rising_score_parsed item s t w Hs Ht), Hage.
    replace (-1 + 1)%R with 0%R by lra. rewrite true_div_zero by exact Hv.
    reflexivity.
  - intros Hage Hpos.
    assert (Hq : (IZR (votes item) / (hours (wall w (1 + ticks w) - t) + 1)
                  < 0)%R).
    { apply IZR_lt in Hpos.
      assert (Hinv : (/ (hours (wall w (1 + ticks w) - t) + 1) < 0)%R)
        by (apply Rinv_lt_0_compat; lra).
      unfold Rdiv. nra. }
    eexists. split; [| split].
    + apply (calculate_rising_score_aware item s t w Hs Ht Hv). lra.
    + apply float_result_negative, Hq.
    + intros Hfar. eexists. split; [| exact Hq].
      apply float_result_in_range, quotient_in_range_abs; [exact Hv |].
      rewrite Rabs_left by lra. lra.
Qed.

Lemma scores_of_future_records_witness :
  calculate_score (H := Iso8601.lib) SampleFuture.future (fresh Sample.ticking)
  = (Ok PyComplex, advance 2 (fresh Sample.ticking))
  /\ exists rising : R,
       calculate_rising_score (H := Iso8601.lib) SampleFuture.future
         (fresh Sample.ticking)
       = (Ok (PyFloat rising), advance 2 (fresh Sample.ticking))
       /\ (rising < 0)%R.
Proof.
  destruct (scores_of_future_records (H := Iso8601.lib) SampleFuture.future
              "2024-08-15T15:00:00Z" 1723734000000000 (fresh Sample.ticking))
    as (Hhot & _ & _ & Hrising).
  - reflexivity.
  - vm_compute. reflexivity.
  - vm_compute. reflexivity.
  - assert (Hage : (hours (wall (fresh Sample.ticking)
                             (1 + ticks (fresh Sample.ticking))
                           - 1723734000000000) < -2)%R).
    { cbn. unfold hours, total_seconds. lra. }
    split; [apply Hhot, Hage |].
    destruct Hrising as (rising & E & _ & Hfloat);
      [lra | vm_compute; reflexivity |].
    destruct Hfloat as (r & -> & Hneg); [lra |].
    exists r. split; assumption.
Defined.

(** X13.  For a record with an aware timestamp that is not in the future and
    a valid vote count that converts to a float, scored on the same clock,
    the Rising score is never below the Hot score, and it is above it when
    the record has votes. *)
Theorem rising_at_least_hot `{DatetimeLib} (item : RawItem) (s : string)
    (t : Z) (w : World) :
  publishedAt item = Some s ->
  fromisoformat (replace_Z s) = Some (Aware t) ->
  0 <= votes item < float_limit ->
  (0 <= hours (wall w (1 + ticks w) - t))%R ->
  exists hot rising : R,
    calculate_score item w = (Ok (PyFloat hot), advance 2 w)
    /\ calculate_rising_score item w = (Ok (PyFloat rising), advance 2 w)
    /\ (hot <= rising)%R
    /\ (0 < votes item -> (hot < rising)%R).
Proof.
  intros Hs Ht [Hv Hlimit] Hage.
  assert (Hrange : votes_in_range item) by (unfold votes_in_range; lia).
  set (age := hours (wall w (1 + ticks w) - t)) in *.
  exists (IZR (votes item) / Rpower (age + 2) 1.5)%R,
         (IZR (votes item) / (age + 1))%R.
  pose proof (Rpower_1_5_ge (age + 2) ltac:(lra)) as Hpow.
  assert (Hinv : (/ Rpower (age + 2) 1.5 < / (age + 1))%R).
  { apply Rinv_lt_contravar; [| lra]. apply Rmult_lt_0_compat; lra. }
  split; [apply (calculate_score_past item s t w Hs Ht Hrange Hage) |].
  split; [apply (calculate_rising_score_past item s t w Hs Ht Hrange Hage) |].
  split.
  - apply IZR_le in Hv. unfold Rdiv. nra.
  - intros Hpos. apply IZR_lt in Hpos. unfold Rdiv. nra.
Qed.

Lemma rising_at_least_hot_witness :
  exists hot rising : R,
    calculate_score (H := Iso8601.lib) SampleVotes.voted (fresh Sample.ticking)
    = (Ok (PyFloat hot), advance 2 (fresh Sample.ticking))
    /\ calculate_rising_score (H := Iso8601.lib) SampleVotes.voted
         (fresh Sample.ticking)
       = (Ok (PyFloat rising), advance 2 (fresh Sample.ticking))
    /\ (hot < rising)%R.
Proof.
  destruct (rising_at_least_hot (H := Iso8601.lib) SampleVotes.voted
              "2024-08-15T10:00:00Z" 1723716000000000 (fresh Sample.ticking))
    as (hot & rising & Hhot & Hrising & _ & Hlt).
  - reflexivity.
  - vm_compute. reflexivity.
  - vm_compute. split; [discriminate | reflexivity].
  - cbn. unfold hours, total_seconds. lra.
  - exists hot, rising. repeat split; try assumption.
    apply Hlt. vm_compute. reflexivity.
Defined.

(** ** What [change_sort_method] never reports *)

Section NeverFails.
Context `{DatetimeLib}.

Lemma render_papers_begins (w : World) (html : string) :
  fst (render_papers w) = Ok html ->
  html = no_papers_available \/ exists rest, html = String (ascii_of_nat 10) rest.
Proof.
  rewrite render_papers_rows.
  destruct (ranked (paper_manager w)) as [| r rows] eqn:E.
  - cbn. intros [= <-]. left. reflexivity.
  - intros Hhtml. right. eapply render_rows_begins; [| exact Hhtml]. discriminate.
Qed.

Lemma change_sort_method_printed (method : string) (w : World) :
  exists rest,
    stdout (snd (change_sort_method method w))
    = (stdout w
       ++ [Printed ("Changing sort method to: " ++ lower method);
           Printed ("Setting sort method to: " ++ effective (lower method))]
       ++ rest)%list
    /\ (rest = [] \/ rest = [Printed "Sort method set successfully."]).
Proof.
  rewrite change_sort_method_eq.
  destruct (sort_papers _) as [[[] | e] w1] eqn:Esort.
  - exists [Printed "Sort method set successfully."].
    destruct (render_papers_clock_only
                (with_output [Printed "Sort method set successfully."]
                   (with_manager (set_current_page 1) w1))) as [k ->].
    destruct (sort_papers_shape _ _ Esort) as (l & n & -> & _).
    cbn [stdout advance with_output with_manager].
    rewrite <- !app_assoc. split; [reflexivity | right; reflexivity].
  - exists []. destruct (sort_papers_raise _ _ _ Esort) as [n ->].
    cbn [stdout advance with_output with_manager snd].
    rewrite <- !app_assoc. split; [reflexivity | left; reflexivity].
Qed.

End NeverFails.

(** X14.  [change_sort_method] never reports a failure of its own: it never
    returns the "Failed to sort papers" document and never prints "Failed to
    set sort method.", since [set_sort_method] returns [True] whenever it
    returns.  What it prints is the method asked for, the method stored and,
    when the sort returned, "Sort method set successfully.". *)
Theorem change_sort_method_never_reports_failure `{DatetimeLib}
    (method : string) (w : World) :
  fst (change_sort_method method w) <> Ok failed_to_sort
  /\ (forall line,
        In line (stdout (snd (change_sort_method method w))) ->
        In line (stdout w)
        \/ line = Printed ("Changing sort method to: " ++ lower method)
        \/ line = Printed ("Setting sort method to: "
                           ++ effective (lower method))
        \/ line = Printed "Sort method set successfully.")
  /\ (~ In (Printed "Failed to set sort method.") (stdout w) ->
      ~ In (Printed "Failed to set sort method.")
          (stdout (snd (change_sort_method method w)))).
Proof.
  assert (Hlines : forall line,
        In line (stdout (snd (change_sort_method method w))) ->
        In line (stdout w)
        \/ line = Printed ("Changing sort method to: " ++ lower method)
        \/ line = Printed ("Setting sort method to: "
                           ++ effective (lower method))
        \/ line = Printed "Sort method set successfully.").
  { intros line Hline.
    destruct (change_sort_method_printed method w) as (rest & Hout & Hrest).
    rewrite Hout in Hline. apply in_app_or in Hline as [Hline | Hline];
      [left; exact Hline |].
    destruct Hline as [<- | [<- | Hline]]; [auto | auto |].
    destruct Hrest as [-> | ->]; [contradiction |].
    destruct Hline as [<- | []]. auto. }
  split; [| split].
  - rewrite change_sort_method_eq.
    destruct (sort_papers _) as [[[] | e] w1]; [| discriminate].
    intros Hhtml. apply render_papers_begins in Hhtml as [E | [rest E]].
    + revert E. apply String.eqb_neq. reflexivity.
    + discriminate E.
  - exact Hlines.
  - intros Hnot Hin. destruct (Hlines _ Hin) as [Hw | [E | [E | E]]].
    + contradiction.
    + cbn in E. discriminate E.
    + cbn in E. discriminate E.
    + discriminate E.
Qed.

Lemma change_sort_method_never_reports_failure_witness :
  ~ In (Printed "Failed to set sort method.")
      (stdout (SampleSession.loaded "new" SampleSession.collection))
  /\ ~ In (Printed "Failed to set sort method.")
        (stdout (snd (change_sort_method (H := Iso8601.lib) "Rising"
                        (SampleSession.loaded "new"
                           SampleSession.collection)))).
Proof.
  assert (Hquiet : ~ In (Printed "Failed to set sort method.")
                     (stdout (SampleSession.loaded "new"
                                SampleSession.collection)))
    by (intros []).
  split; [exact Hquiet |].
  apply (change_sort_method_never_reports_failure (H := Iso8601.lib)
           "Rising" (SampleSession.loaded "new" SampleSession.collection)).
  exact Hquiet.
Defined.

(** ** Sorting under "new" *)

Lemma sort_by_published_eq `{DatetimeLib} (w : World) :
  exists r,
    sort_decorated
      (combine (map published (raw_papers (paper_manager w)))
         (raw_papers (paper_manager w))) = Ok r
    /\ sort_by published_key w = (Ok tt, with_manager (set_papers (map snd r)) w).
Proof.
  destruct (sort_decorated_total
              (combine (map published (raw_papers (paper_manager w)))
                 (raw_papers (paper_manager w)))) as [r Hr];
    [apply strings_comparable |].
  exists r. split; [exact Hr |].
  unfold sort_by, sorted_reverse, bind, self, lift, update, ret.
  rewrite published_keys.
  change (map (fun x => get (publishedAt x) EmptyString)) with (map published).
  rewrite Hr. reflexivity.
Qed.

(** X15.  Under "new" the sort does not depend on the time: it never reads
    the clock, it never raises, two sessions that hold the same raw
    collection get the same list, and sorting a second time changes
    nothing. *)
Theorem new_sort_ignores_clock `{DatetimeLib} (w1 w2 : World) :
  sort_method (paper_manager w1) = "new" ->
  sort_method (paper_manager w2) = "new" ->
  raw_papers (paper_manager w1) = raw_papers (paper_manager w2) ->
  exists l : list RawItem,
    sort_papers w1 = (Ok tt, with_manager (set_papers l) w1)
    /\ sort_papers w2 = (Ok tt, with_manager (set_papers l) w2)
    /\ sort_papers (with_manager (set_papers l) w1)
       = (Ok tt, with_manager (set_papers l) w1).
Proof.
  intros Hnew1 Hnew2 Hraw.
  destruct (sort_by_published_eq w1) as (r & Hr & Hsort1).
  destruct (sort_by_published_eq w2) as (r2 & Hr2 & Hsort2).
  rewrite <- Hraw, Hr in Hr2. injection Hr2 as <-.
  destruct (sort_by_published_eq (with_manager (set_papers (map snd r)) w1))
    as (r3 & Hr3 & Hsort3).
  cbn [paper_manager with_manager raw_papers set_papers] in Hr3.
  rewrite Hr in Hr3. injection Hr3 as <-.
  exists (map snd r). rewrite !sort_papers_eq.
  cbn [paper_manager with_manager sort_method set_papers].
  rewrite Hnew1, Hnew2. cbn [String.eqb Ascii.eqb Bool.eqb].
  split; [exact Hsort1 |]. split; [exact Hsort2 | exact Hsort3].
Qed.

Lemma new_sort_ignores_clock_witness :
  exists l : list RawItem,
    sort_papers (H := Iso8601.lib)
      (SampleSession.loaded "new" SampleSession.collection)
    = (Ok tt,
       with_manager (set_papers l)
         (SampleSession.loaded "new" SampleSession.collection))
    /\ sort_papers (H := Iso8601.lib)
         (advance 7 (SampleSession.loaded "new" SampleSession.collection))
       = (Ok tt,
          with_manager (set_papers l)
            (advance 7 (SampleSession.loaded "new" SampleSession.collection))).
Proof.
  destruct (new_sort_ignores_clock (H := Iso8601.lib)
              (SampleSession.loaded "new" SampleSession.collection)
              (advance 7 (SampleSession.loaded "new" SampleSession.collection))
              eq_refl eq_refl eq_refl) as (l & H1 & H2 & _).
  exists l. split; assumption.
Defined.

(** ** Absent keys *)

Lemma fill_author_names (l : list Author) :
  map (fun author => get (name author) EmptyString) (map fill_author l)
  = map (fun author => get (name author) EmptyString) l.
Proof. rewrite map_map. reflexivity. Qed.

Lemma for_each_pointwise {A B : Type} (f g : A -> M B) (l : list A) (w : World) :
  (forall x w', f x w' = g x w') -> for_each f l w = for_each g l w.
Proof.
  intros Hfg. revert w. induction l as [| x l IH]; intros w; cbn;
    [reflexivity |].
  unfold bind. rewrite Hfg. destruct (g x w) as [[y | e] w1]; [| reflexivity].
  rewrite IH. reflexivity.
Qed.

(** The order [sorted] gives depends on the keys alone: what is carried
    along with them can be changed without changing it. *)
Section Carried.
Context {K A B : Type} `{PyOrd K}.
Variable f : A -> B.

Let carry (x : K * A) : K * B := (fst x, f (snd x)).

Lemma insert_carry (x : K * A) (l : list (K * A)) :
  insert (carry x) (map carry l)
  = match insert x l with
    | Ok r => Ok (map carry r)
    | Raise e => Raise e
    end.
Proof.
  induction l as [| y l IH]; cbn; [reflexivity |].
  destruct (py_lt (fst y) (fst x)) as [[|] | e]; try reflexivity.
  rewrite IH. destruct (insert x l); reflexivity.
Qed.

Lemma sort_ascending_carry (l : list (K * A)) :
  sort_ascending (map carry l)
  = match sort_ascending l with
    | Ok r => Ok (map carry r)
    | Raise e => Raise e
    end.
Proof.
  induction l as [| x l IH]; cbn; [reflexivity |].
  rewrite IH. destruct (sort_ascending l) as [r | e]; [| reflexivity].
  apply insert_carry.
Qed.

Lemma sort_decorated_carry (ks : list K) (l : list A) :
  sort_decorated (combine ks (map f l))
  = match sort_decorated (combine ks l) with
    | Ok r => Ok (map carry r)
    | Raise e => Raise e
    end.
Proof.
  assert (Hcombine : combine ks (map f l) = map carry (combine ks l)).
  { revert l. induction ks as [| k ks IH]; intros [| x l]; cbn;
      try reflexivity. rewrite IH. reflexivity. }
  unfold sort_decorated. rewrite Hcombine, <- map_rev, sort_ascending_carry.
  destruct (sort_ascending _) as [r | e]; [| reflexivity].
  rewrite map_rev. reflexivity.
Qed.

Lemma sorted_reverse_carry (keyA : A -> M K) (keyB : B -> M K) (l : list A)
    (w : World) :
  (forall x w', keyB (f x) w' = keyA x w') ->
  sorted_reverse (map f l) keyB w
  = match sorted_reverse l keyA w with
    | (Ok r, w') => (Ok (map f r), w')
    | (Raise e, w') => (Raise e, w')
    end.
Proof.
  intros Hkey. unfold sorted_reverse, bind, lift, ret.
  rewrite for_each_map.
  rewrite (for_each_pointwise (fun x => keyB (f x)) keyA l w Hkey).
  destruct (for_each keyA l w) as [[ks | e] w1]; [| reflexivity].
  rewrite sort_decorated_carry.
  destruct (sort_decorated _) as [r | e]; [| reflexivity].
  rewrite !map_map. reflexivity.
Qed.

End Carried.

(** X16.  An absent key counts as its default: a record is scored, keyed
    and rendered exactly as the record in which "No title", an empty id, 0
    votes, no authors, an empty author name and 0 comments are written in
    for the keys that are absent.  Sorting a collection in which they are
    written in gives, under every key, the list that sorting the collection
    itself gives, with the defaults written in. *)
Theorem absent_keys_are_defaults `{DatetimeLib} (item : RawItem) (rank : Z)
    (l : list RawItem) (w : World) :
  calculate_score (fill_defaults item) w = calculate_score item w
  /\ calculate_rising_score (fill_defaults item) w
     = calculate_rising_score item w
  /\ published_key (fill_defaults item) w = published_key item w
  /\ format_paper (fill_defaults item) rank w = format_paper item rank w
  /\ sorted_reverse (map fill_defaults l) calculate_score w
     = match sorted_reverse l calculate_score w with
       | (Ok r, w') => (Ok (map fill_defaults r), w')
       | (Raise e, w') => (Raise e, w')
       end
  /\ sorted_reverse (map fill_defaults l) calculate_rising_score w
     = match sorted_reverse l calculate_rising_score w with
       | (Ok r, w') => (Ok (map fill_defaults r), w')
       | (Raise e, w') => (Raise e, w')
       end
  /\ sorted_reverse (map fill_defaults l) published_key w
     = match sorted_reverse l published_key w with
       | (Ok r, w') => (Ok (map fill_defaults r), w')
       | (Raise e, w') => (Raise e, w')
       end.
Proof.
  split; [reflexivity |]. split; [reflexivity |]. split; [reflexivity |].
  split; [| split; [| split]].
  - unfold format_paper, fill_defaults, fill_paper.
    cbn [title paper publishedAt numComments id upvotes authors get].
    rewrite fill_author_names. reflexivity.
  - apply sorted_reverse_carry. reflexivity.
  - apply sorted_reverse_carry. reflexivity.
  - apply sorted_reverse_carry. reflexivity.
Qed.

(** ** A load that succeeds *)

Lemma render_papers_not_placeholder `{DatetimeLib} (w : World) :
  page (paper_manager w) (current_page (paper_manager w)) <> [] ->
  forall html,
    fst (render_papers w) = Ok html ->
    exists rest, html = String (ascii_of_nat 10) rest.
Proof.
  intros Hpage html. rewrite render_papers_rows.
  apply render_rows_begins. unfold ranked.
  destruct (page _ _); [contradiction | discriminate].
Qed.

(** X17.  When the fetch succeeds (with 30 papers per page),
    [initialize_app] ends as the rendering of page 1 of the sorted list:
    that page holds the first 30 records of [papers] and at least one, so
    that what is returned is neither the placeholder nor the failure
    document. *)
Theorem successful_load_shows_first_page `{DatetimeLib} (data : list RawItem)
    (w w1 : World) :
  papers_per_page (paper_manager w) = 30 ->
  fetch_papers (Json data) w = (Ok true, w1) ->
  initialize_app (Json data) w = render_papers w1
  /\ page (paper_manager w1) (current_page (paper_manager w1))
     = firstn 30 (papers (paper_manager w1))
  /\ page (paper_manager w1) (current_page (paper_manager w1)) <> []
  /\ fst (initialize_app (Json data) w) <> Ok no_papers_available
  /\ fst (initialize_app (Json data) w) <> Ok failed_to_fetch.
Proof.
  intros Hppp Hfetch.
  destruct (fetch_papers_true data w w1 Hppp Hfetch) as (_ & Hperm & Hcur).
  assert (Hppp1 : papers_per_page (paper_manager w1) = 30).
  { destruct (fetch_papers_outcome (Json data) w)
      as [(_ & _ & _ & E & _) | (E & _)]; rewrite Hfetch in *;
      cbn [fst snd] in *; [congruence | discriminate]. }
  assert (Hdata : data <> []).
  { intros ->. rewrite fetch_papers_empty in Hfetch. discriminate. }
  assert (Hinit : initialize_app (Json data) w = render_papers w1).
  { unfold initialize_app, bind. rewrite Hfetch. reflexivity. }
  assert (Hpage : page (paper_manager w1) (current_page (paper_manager w1))
                  = firstn 30 (papers (paper_manager w1))).
  { rewrite Hcur, page_window by lia. rewrite Hppp1. reflexivity. }
  assert (Hfull : page (paper_manager w1) (current_page (paper_manager w1))
                  <> []).
  { rewrite Hpage. destruct (papers (paper_manager w1)) as [| x l] eqn:E.
    - apply Permutation_sym, Permutation_nil in Hperm. contradiction.
    - discriminate. }
  split; [exact Hinit |]. split; [exact Hpage |]. split; [exact Hfull |].
  rewrite Hinit.
  split; intros Hhtml;
    destruct (render_papers_not_placeholder w1 Hfull _ Hhtml) as [rest E];
    discriminate E.
Qed.

Lemma successful_load_shows_first_page_witness :
  initialize_app (H := Iso8601.lib) (Json SamplePages.collection)
    (SampleSession.loaded "new" [])
  = render_papers (H := Iso8601.lib) SamplePages.fetched
  /\ List.length
       (page (paper_manager SamplePages.fetched)
          (current_page (paper_manager SamplePages.fetched))) = 30%nat.
Proof.
  destruct (successful_load_shows_first_page (H := Iso8601.lib)
              SamplePages.collection (SampleSession.loaded "new" [])
              SamplePages.fetched eq_refl)
    as (Hinit & Hpage & _); [reflexivity |].
  split; [exact Hinit |]. rewrite Hpage. vm_compute. reflexivity.
Defined.

(** ** The age a row shows *)

(** X18.  A row shows the age of the record in whole days only: two records
    that differ in nothing but an aware [publishedAt] are rendered alike
    whenever the whole days elapsed are the same, counting a record less
    than a day old, and one dated in the future, as 0 days. *)
Theorem age_shown_in_whole_days `{DatetimeLib} (item1 item2 : RawItem)
    (s1 s2 : string) (t1 t2 : Z) (rank : Z) (w : World) :
  title item1 = title item2 ->
  paper item1 = paper item2 ->
  numComments item1 = numComments item2 ->
  publishedAt item1 = Some s1 ->
  publishedAt item2 = Some s2 ->
  fromisoformat (replace_Z s1) = Some (Aware t1) ->
  fromisoformat (replace_Z s2) = Some (Aware t2) ->
  Z.max 0 (days (wall w (1 + ticks w) - t1))
  = Z.max 0 (days (wall w (1 + ticks w) - t2)) ->
  format_paper item1 rank w = format_paper item2 rank w
  /\ (days (wall w (1 + ticks w) - t1) <= 0
      <-> wall w (1 + ticks w) - t1 < 86400000000).
Proof.
  intros Htitle Hpaper Hcomments Hs1 Hs2 Ht1 Ht2 Hdays. split.
  - unfold format_paper, parse_published, bind, datetime_now, lift, ret.
    rewrite Htitle, Hpaper, Hcomments, Hs1, Hs2.
    cbn [get fst snd wall ticks advance sub_datetime].
    rewrite Ht1, Ht2. cbn [wall ticks advance sub_datetime fst snd].
    change (S (ticks w)) with (1 + ticks w)%nat.
    set (d1 := days (wall w (1 + ticks w) - t1)) in *.
    set (d2 := days (wall w (1 + ticks w) - t2)) in *.
    destruct (0 <? d1) eqn:E1, (0 <? d2) eqn:E2;
      try apply Z.ltb_lt in E1; try apply Z.ltb_lt in E2;
      try apply Z.ltb_ge in E1; try apply Z.ltb_ge in E2;
      try lia; try reflexivity.
    replace d2 with d1 by lia. reflexivity.
  - unfold days.
    pose proof (Z.div_mod (wall w (1 + ticks w) - t1) 86400000000 ltac:(lia)).
    pose proof (Z.mod_pos_bound (wall w (1 + ticks w) - t1) 86400000000
                  ltac:(lia)).
    lia.
Qed.

Lemma age_shown_in_whole_days_witness :
  format_paper (H := Iso8601.lib) SampleVotes.newer 1 (fresh Sample.ticking)
  = format_paper (H := Iso8601.lib) SampleVotes.older 1 (fresh Sample.ticking).
Proof.
  apply (age_shown_in_whole_days (H := Iso8601.lib) SampleVotes.newer
           SampleVotes.older "2024-08-15T11:00:00Z" "2024-08-15T10:00:00Z"
           1723719600000000 1723716000000000 1 (fresh Sample.ticking));
    try reflexivity; vm_compute; reflexivity.
Defined.

(** ** Turning pages *)

(** X19.  From every session state [next_page] adds one to [current_page]
    when it is below [total_pages] and [prev_page] takes one off when it is
    above 1; otherwise they leave it, and they change nothing else in the
    session, whether the rendering that follows returns or raises.  At the
    last page [next_page], and at the first page [prev_page], is exactly a
    rendering of the current page, which leaves the session as it is.
    Neither raises when no record of the session has a timestamp without
    offset. *)
Theorem page_turning `{DatetimeLib} (w : World) :
  let m := paper_manager w in
  paper_manager (snd (next_page w))
  = set_current_page
      (if current_page m <? total_pages m then current_page m + 1
       else current_page m) m
  /\ paper_manager (snd (prev_page w))
     = set_current_page
         (if 1 <? current_page m then current_page m - 1
          else current_page m) m
  /\ (total_pages m <= current_page m ->
      next_page w = render_papers w
      /\ paper_manager (snd (next_page w)) = m)
  /\ (current_page m <= 1 ->
      prev_page w = render_papers w
      /\ paper_manager (snd (prev_page w)) = m)
  /\ (Forall no_naive (papers m) ->
      (exists html, fst (next_page w) = Ok html)
      /\ (exists html, fst (prev_page w) = Ok html)).
Proof.
  intros m. subst m.
  split; [apply next_page_manager |].
  split; [apply prev_page_manager |].
  split; [| split].
  - intros Hlast. rewrite next_page_eq.
    destruct (_ <? _) eqn:E; [apply Z.ltb_lt in E; lia |].
    split; [reflexivity | apply render_papers_manager].
  - intros Hfirst. rewrite prev_page_eq.
    destruct (_ <? _) eqn:E; [apply Z.ltb_lt in E; lia |].
    split; [reflexivity | apply render_papers_manager].
  - intros Hpapers. rewrite next_page_eq, prev_page_eq.
    split; apply render_papers_total; destruct (_ <? _); exact Hpapers.
Qed.

Lemma page_turning_witness :
  current_page
    (paper_manager (snd (next_page (H := Iso8601.lib) SamplePages.fetched)))
  = 2
  /\ current_page
       (paper_manager (snd (prev_page (H := Iso8601.lib) SamplePages.fetched)))
     = 1
  /\ prev_page (H := Iso8601.lib) SamplePages.fetched
     = render_papers (H := Iso8601.lib) SamplePages.fetched
  /\ exists html,
       fst (next_page (H := Iso8601.lib) SamplePages.fetched) = Ok html.
Proof.
  destruct (page_turning (H := Iso8601.lib) SamplePages.fetched)
    as (Hnext & Hprev & _ & Hfirst & Hreturns).
  destruct Hfirst as [Hrender _]; [vm_compute; discriminate |].
  destruct Hreturns as [Hhtml _].
  { apply Forall_forall. intros item Hitem d t.
    assert (Hs : publishedAt item = Some "2024-08-15T08:00:00Z").
    { revert item Hitem. apply Forall_forall. vm_compute.
      repeat constructor. }
    rewrite Hs. vm_compute. discriminate. }
  split; [rewrite Hnext; reflexivity |].
  split; [rewrite Hprev; reflexivity |].
  split; [exact Hrender | exact Hhtml].
Defined.

(** ** A fetch that succeeds *)

Section FetchSucceeds.
Context `{DatetimeLib}.

Lemma fetch_papers_sorted (first : RawItem) (rest : list RawItem)
    (w w1 : World) :
  papers_per_page (paper_manager w) <> 0 ->
  sort_papers
    (with_manager (set_raw_papers (first :: rest))
       (with_output [PrintedKeys "Keys in the first paper:" first] w))
  = (Ok tt, w1) ->
  exists w', fetch_papers (Json (first :: rest)) w = (Ok true, w')
             /\ raw_papers (paper_manager w') = first :: rest
             /\ sort_method (paper_manager w') = sort_method (paper_manager w).
Proof.
  intros Hppp Esort. rewrite fetch_papers_data, Esort.
  destruct (sort_papers_shape _ _ Esort) as (l & n & -> & _).
  cbn [paper_manager with_manager advance with_output papers set_papers
       papers_per_page set_raw_papers raw_papers].
  unfold floor_div.
  destruct (papers_per_page (paper_manager w) =? 0) eqn:E;
    [apply Z.eqb_eq in E; contradiction |].
  eexists. split; [reflexivity |]. split; reflexivity.
Qed.

End FetchSucceeds.

(** X20.  A fetch of a list that is not empty succeeds whenever the sort
    returns on it: under "new" always, and under every method when each
    record carries an aware timestamp that is not in the future and a vote
    count that converts to a float.  With 30 papers per page it then
    reports [True], keeps the list as the raw collection and a permutation
    of it as [papers], sets [total_pages] to [ceil(n / 30)] for the [n]
    records (the [max(..., 1)] of the code changes nothing there) and
    [current_page] to 1, and leaves the sort method as it was. *)
Theorem fetch_papers_succeeds `{DatetimeLib} (first : RawItem)
    (rest : list RawItem) (w : World) :
  papers_per_page (paper_manager w) = 30 ->
  sort_method (paper_manager w) = "new"
  \/ (Forall (published_before (wall w)) (first :: rest)
      /\ Forall votes_in_range (first :: rest)) ->
  exists w',
    fetch_papers (Json (first :: rest)) w = (Ok true, w')
    /\ raw_papers (paper_manager w') = first :: rest
    /\ Permutation (first :: rest) (papers (paper_manager w'))
    /\ total_pages (paper_manager w')
       = Z.max (Qceiling (len (first :: rest) # 30)) 1
    /\ total_pages (paper_manager w') = Qceiling (len (first :: rest) # 30)
    /\ current_page (paper_manager w') = 1
    /\ sort_method (paper_manager w') = sort_method (paper_manager w).
Proof.
  intros Hppp Hsortable.
  set (ws := with_manager (set_raw_papers (first :: rest))
               (with_output [PrintedKeys "Keys in the first paper:" first] w)).
  assert (Hsort : exists w1, sort_papers ws = (Ok tt, w1)).
  { destruct Hsortable as [Hnew | [Hpublished Hvotes]].
    - apply sort_papers_new. exact Hnew.
    - apply sort_papers_published; assumption. }
  destruct Hsort as [w1 Esort].
  destruct (fetch_papers_sorted first rest w w1) as (w' & E & Hraw & Hmethod);
    [rewrite Hppp; discriminate | exact Esort |].
  destruct (fetch_papers_true (first :: rest) w w' Hppp E)
    as (Htotal & Hperm & Hcur).
  exists w'. repeat split; try assumption.
  rewrite Htotal. apply Z.max_l.
  rewrite <- ceiling_div_30. unfold len. cbn [List.length].
  apply Z.div_le_lower_bound; lia.
Qed.

Lemma fetch_papers_succeeds_witness :
  exists w',
    fetch_papers (H := Iso8601.lib) (Json SamplePages.collection)
      (SampleSession.loaded "new" []) = (Ok true, w')
    /\ total_pages (paper_manager w') = 2
    /\ current_page (paper_manager w') = 1.
Proof.
  destruct (fetch_papers_succeeds (H := Iso8601.lib)
              (Sample.record 1 "2024-08-15T08:00:00Z")
              (map (fun i => Sample.record (Z.of_nat i) "2024-08-15T08:00:00Z")
                 (seq 2 44))
              (SampleSession.loaded "new" []))
    as (w' & E & _ & _ & _ & Htotal & Hcur & _).
  - reflexivity.
  - left. reflexivity.
  - exists w'. split; [exact E |]. split; [| exact Hcur].
    rewrite Htotal. vm_compute. reflexivity.
Defined.

(** ** Changing the sort method on records that can be scored *)

(** X21.  A method whose lowercase form is not "hot", "new" or "rising" is
    handled exactly as "hot" is: [change_sort_method] ends with the same
    result or the same exception and leaves the same session, with "hot" as
    its sort method; what it printed differs from the run for "hot" only in
    the first line, which echoes the method asked for. *)
Theorem unrecognised_method_is_hot `{DatetimeLib} (method : string)
    (w : World) :
  ~ In (lower method) ["hot"; "new"; "rising"] ->
  fst (change_sort_method method w) = fst (change_sort_method "hot" w)
  /\ paper_manager (snd (change_sort_method method w))
     = paper_manager (snd (change_sort_method "hot" w))
  /\ sort_method (paper_manager (snd (change_sort_method method w))) = "hot"
  /\ exists rest,
       stdout (snd (change_sort_method method w))
       = (stdout w
          ++ [Printed ("Changing sort method to: " ++ lower method);
              Printed "Setting sort method to: hot"] ++ rest)%list
       /\ (rest = [] \/ rest = [Printed "Sort method set successfully."]).
Proof.
  intros Hnot.
  destruct (change_sort_method_fallback method w Hnot) as [Hfst Hmanager].
  split; [exact Hfst |]. split; [exact Hmanager |].
  split.
  { rewrite change_sort_method_method. apply effective_fallback, Hnot. }
  destruct (change_sort_method_printed method w) as (rest & Hout & Hrest).
  rewrite (effective_fallback _ Hnot) in Hout.
  exists rest. split; assumption.
Qed.

Lemma unrecognised_method_is_hot_witness :
  fst (change_sort_method (H := Iso8601.lib) "bogus"
         (SampleSession.loaded "new" SampleSession.collection))
  = fst (change_sort_method (H := Iso8601.lib) "hot"
           (SampleSession.loaded "new" SampleSession.collection))
  /\ sort_method
       (paper_manager
          (snd (change_sort_method (H := Iso8601.lib) "bogus"
                  (SampleSession.loaded "new" SampleSession.collection))))
     = "hot".
Proof.
  destruct (unrecognised_method_is_hot (H := Iso8601.lib) "bogus"
              (SampleSession.loaded "new" SampleSession.collection))
    as (Hfst & _ & Hmethod & _).
  - vm_compute. intros [F | [F | [F | []]]]; discriminate F.
  - split; assumption.
Defined.

(** X22.  When every record of the session carries an aware timestamp that
    is not in the future and a vote count that converts to a float,
    [change_sort_method] returns the rendering without raising, whatever
    the method string.  Afterwards the sort method is the one settled on,
    [current_page] is 1 and [papers] is a permutation of the raw collection
    in descending order of its key: the raw [publishedAt] under "new", the
    scores computed in the call, all finite floats, otherwise. *)
Theorem change_sort_method_returns_sorted `{DatetimeLib} (method : string)
    (w : World) :
  Forall (published_before (wall w)) (raw_papers (paper_manager w)) ->
  Forall votes_in_range (raw_papers (paper_manager w)) ->
  exists (html : string) (w' : World),
    change_sort_method method w = (Ok html, w')
    /\ sort_method (paper_manager w') = effective (lower method)
    /\ current_page (paper_manager w') = 1
    /\ Permutation (raw_papers (paper_manager w)) (papers (paper_manager w'))
    /\ (effective (lower method) = "new" ->
        StronglySorted
          (fun x y => String.ltb (published x) (published y) = false)
          (papers (paper_manager w')))
    /\ (effective (lower method) <> "new" ->
        exists (ks : list pynum) (r : list (pynum * RawItem)) (w1 : World),
          for_each (if String.eqb (effective (lower method)) "rising"
                    then calculate_rising_score else calculate_score)
            (raw_papers (paper_manager w)) (about_to_sort method w)
          = (Ok ks, w1)
          /\ Forall is_float ks
          /\ Permutation (combine ks (raw_papers (paper_manager w))) r
          /\ map snd r = papers (paper_manager w')
          /\ StronglySorted (fun x y => pynum_le (fst y) (fst x)) r).
Proof.
  intros Hraw Hvotes.
  destruct (change_sort_method_returns method w Hraw Hvotes)
    as (html & w' & E & Hcur & Hperm).
  exists html, w'. split; [exact E |].
  pose proof (change_sort_method_method method w) as Hmethod.
  rewrite E in Hmethod. cbn [snd] in Hmethod.
  split; [exact Hmethod |]. split; [exact Hcur |]. split; [exact Hperm |].
  destruct (sort_papers_published (about_to_sort method w) Hraw Hvotes)
    as [w1 Esort].
  destruct (change_sort_method_sorted method w w1) as (Hpapers & _);
    [exact Esort |].
  rewrite E in Hpapers. cbn [snd] in Hpapers. rewrite Hpapers.
  rewrite sort_papers_eq in Esort.
  change (sort_method (paper_manager (about_to_sort method w)))
    with (effective (lower method)) in Esort.
  split.
  - intros Hnew. rewrite Hnew in Esort.
    change (String.eqb "new" "new") with true in Esort. cbv iota in Esort.
    apply (sort_by_published_descending _ _ Esort).
  - intros Hnew.
    destruct (String.eqb (effective (lower method)) "new") eqn:Enew.
    { apply String.eqb_eq in Enew. contradiction. }
    destruct (String.eqb (effective (lower method)) "rising").
    + destruct (sort_by_score_descending calculate_rising_score _ _
                  calculate_rising_score_clock_only Esort)
        as (ks & r & w2 & Ekeys & Hr & Hsnd & Hsorted).
      exists ks, r, w2. repeat split; try assumption.
      destruct (rising_scores_of_published _ (about_to_sort method w)
                  Hraw Hvotes) as (ks' & n & Ekeys' & Hfloat).
      change (raw_papers (paper_manager (about_to_sort method w)))
        with (raw_papers (paper_manager w)) in Ekeys.
      rewrite Ekeys' in Ekeys. injection Ekeys as <- _. exact Hfloat.
    + destruct (sort_by_score_descending calculate_score _ _
                  calculate_score_clock_only Esort)
        as (ks & r & w2 & Ekeys & Hr & Hsnd & Hsorted).
      exists ks, r, w2. repeat split; try assumption.
      destruct (scores_of_published _ (about_to_sort method w)
                  Hraw Hvotes) as (ks' & n & Ekeys' & Hfloat).
      change (raw_papers (paper_manager (about_to_sort method w)))
        with (raw_papers (paper_manager w)) in Ekeys.
      rewrite Ekeys' in Ekeys. injection Ekeys as <- _. exact Hfloat.
Qed.

Lemma change_sort_method_returns_sorted_witness :
  exists html w',
    change_sort_method (H := Iso8601.lib) "bogus"
      (SampleSession.loaded "new" SampleSession.collection) = (Ok html, w')
    /\ sort_method (paper_manager w') = "hot"
    /\ current_page (paper_manager w') = 1.
Proof.
  destruct (change_sort_method_returns_sorted (H := Iso8601.lib) "bogus"
              (SampleSession.loaded "new" SampleSession.collection))
    as (html & w' & E & Hmethod & Hcur & _).
  - repeat constructor.
    + exists "2024-08-15T08:00:00Z", 1723708800000000.
      split; [reflexivity | split; [vm_compute; reflexivity |]].
      intros n. cbn [wall SampleSession.loaded with_manager fresh].
      unfold Sample.ticking, Sample.noon. lia.
    + exists "2024-08-15T08:00:00Z", 1723708800000000.
      split; [reflexivity | split; [vm_compute; reflexivity |]].
      intros n. cbn [wall SampleSession.loaded with_manager fresh].
      unfold Sample.ticking, Sample.noon. lia.
    + exists "2024-08-15T10:00:00Z", 1723716000000000.
      split; [reflexivity | split; [vm_compute; reflexivity |]].
      intros n. cbn [wall SampleSession.loaded with_manager fresh].
      unfold Sample.ticking, Sample.noon. lia.
    + exists "2024-08-15T08:00:00Z", 1723708800000000.
      split; [reflexivity | split; [vm_compute; reflexivity |]].
      intros n. cbn [wall SampleSession.loaded with_manager fresh].
      unfold Sample.ticking, Sample.noon. lia.
  - repeat constructor.
  - exists html, w'. split; [exact E |]. split; [| exact Hcur].
    rewrite Hmethod. reflexivity.
Defined.

(** ** A score that cannot be compared *)

(** X23.  A [complex] among the scores aborts the sort: when the session
    does not sort by "new", the scores of its two or more records were all
    computed and one of them is a [complex] (the Hot score of a record dated
    more than two hours ahead), [sorted] raises [TypeError] and
    [sort_papers] stores nothing: the session is as it was, but for the
    clock readings taken for the scores. *)
Theorem complex_score_aborts_sort `{DatetimeLib} (w w1 : World)
    (ks : list pynum) :
  sort_method (paper_manager w) <> "new" ->
  for_each (if String.eqb (sort_method (paper_manager w)) "rising"
            then calculate_rising_score else calculate_score)
    (raw_papers (paper_manager w)) w = (Ok ks, w1) ->
  In PyComplex ks ->
  (2 <= List.length (raw_papers (paper_manager w)))%nat ->
  sort_papers w = (Raise TypeError, w1)
  /\ paper_manager w1 = paper_manager w
  /\ stdout w1 = stdout w
  /\ wall w1 = wall w.
Proof.
  intros Hnew Ekeys Hcomplex Hlen.
  assert (Esort : sort_papers w = (Raise TypeError, w1)).
  { rewrite sort_papers_eq.
    destruct (String.eqb (sort_method (paper_manager w)) "new") eqn:E.
    { apply String.eqb_eq in E. contradiction. }
    destruct (String.eqb (sort_method (paper_manager w)) "rising");
      apply (sort_by_complex _ _ _ ks); assumption. }
  split; [exact Esort |].
  destruct (sort_papers_raise _ _ _ Esort) as [n ->].
  repeat split.
Qed.

Lemma complex_score_aborts_sort_witness :
  exists w1,
    sort_papers (H := Iso8601.lib)
      (SampleSession.loaded "hot" [SampleFuture.ontime; SampleFuture.future])
    = (Raise TypeError, w1)
    /\ paper_manager w1
       = paper_manager
           (SampleSession.loaded "hot"
              [SampleFuture.ontime; SampleFuture.future]).
Proof.
  set (w := SampleSession.loaded "hot"
              [SampleFuture.ontime; SampleFuture.future]).
  assert (Efirst : calculate_score (H := Iso8601.lib) SampleFuture.ontime w
                   = (Ok (PyFloat
                            (IZR (votes SampleFuture.ontime)
                             / Rpower
                                 (hours (wall w (1 + ticks w)
                                         - 1723716000000000) + 2) 1.5)),
                      advance 2 w)).
  { apply (calculate_score_past (H := Iso8601.lib) SampleFuture.ontime
             "2024-08-15T10:00:00Z" 1723716000000000 w).
    - reflexivity.
    - vm_compute. reflexivity.
    - vm_compute. reflexivity.
    - cbn. unfold hours, total_seconds. lra. }
  assert (Esecond : calculate_score (H := Iso8601.lib) SampleFuture.future
                      (advance 2 w)
                    = (Ok PyComplex, advance 2 (advance 2 w))).
  { apply (calculate_score_ahead (H := Iso8601.lib) SampleFuture.future
             "2024-08-15T15:00:00Z" 1723734000000000 (advance 2 w)).
    - reflexivity.
    - vm_compute. reflexivity.
    - vm_compute. reflexivity.
    - cbn. unfold hours, total_seconds. lra. }
  destruct (complex_score_aborts_sort (H := Iso8601.lib) w
              (advance 2 (advance 2 w))
              [PyFloat
                 (IZR (votes SampleFuture.ontime)
                  / Rpower
                      (hours (wall w (1 + ticks w) - 1723716000000000) + 2)
                      1.5);
               PyComplex])
    as (Esort & Hmanager & _).
  - vm_compute. discriminate.
  - change (for_each (calculate_score (H := Iso8601.lib))
              [SampleFuture.ontime; SampleFuture.future] w
            = (Ok [PyFloat
                     (IZR (votes SampleFuture.ontime)
                      / Rpower
                          (hours (wall w (1 + ticks w) - 1723716000000000)
                           + 2) 1.5);
                   PyComplex],
               advance 2 (advance 2 w))).
    cbn [for_each]. unfold bind. rewrite Efirst, Esecond. reflexivity.
  - right. left. reflexivity.
  - cbn. lia.
  - exists (advance 2 (advance 2 w)). split; assumption.
Defined.
